(** * BlackRoad Digital Identity: the KYC store and its decision rules

    A shallow embedding of [digital_identity.py].  The SQLite database is a
    record of four tables, each a list of rows in insertion order; every
    public function of the module is a computation in a small state and
    exception monad over that record.  Values that Python draws from its
    environment ([uuid.uuid4()], [datetime.utcnow()]) are explicit arguments
    of the function that draws them, the PRIMARY KEY and UNIQUE constraints
    of the schema are checked on every INSERT, and a statement that binds
    more variables than SQLite allows raises [OperationalError]. *)

From Stdlib Require Import ZArith Lia.
From stdpp Require Import base decidable option list gmap sets strings pretty sorting.

(** ** Enumerations ([class X(str, Enum)]) *)

Inductive VerificationLevel := UNVERIFIED | BASIC | STANDARD | ENHANCED.
Inductive DocType := PASSPORT | LICENSE | NATIONAL_ID | UTILITY_BILL.
Inductive KYCStatus := PENDING | PROCESSING | APPROVED | REJECTED.
Inductive IdentityStatus := ACTIVE | REVOKED | EXPIRED | SUSPENDED.

(** [X.value]: the string stored in the database. *)
Class Value (E : Type) := value : E → string.

#[global] Instance VerificationLevel_value : Value VerificationLevel := λ l,
  match l with
  | UNVERIFIED => "unverified" | BASIC => "basic"
  | STANDARD => "standard" | ENHANCED => "enhanced"
  end.

#[global] Instance DocType_value : Value DocType := λ t,
  match t with
  | PASSPORT => "passport" | LICENSE => "license"
  | NATIONAL_ID => "national_id" | UTILITY_BILL => "utility_bill"
  end.

#[global] Instance KYCStatus_value : Value KYCStatus := λ s,
  match s with
  | PENDING => "pending" | PROCESSING => "processing"
  | APPROVED => "approved" | REJECTED => "rejected"
  end.

#[global] Instance IdentityStatus_value : Value IdentityStatus := λ s,
  match s with
  | ACTIVE => "active" | REVOKED => "revoked"
  | EXPIRED => "expired" | SUSPENDED => "suspended"
  end.

(** [X(s)]: the member whose value is [s]; [None] where Python raises
    [ValueError]. *)
Definition of_value {E} `{Value E} (members : list E) (s : string) : option E :=
  List.find (λ m, bool_decide (value m = s)) members.
Arguments of_value : simpl never.

Definition VerificationLevel_members := [UNVERIFIED; BASIC; STANDARD; ENHANCED].
Definition DocType_members := [PASSPORT; LICENSE; NATIONAL_ID; UTILITY_BILL].
Definition KYCStatus_members := [PENDING; PROCESSING; APPROVED; REJECTED].
Definition IdentityStatus_members := [ACTIVE; REVOKED; EXPIRED; SUSPENDED].

(** The ordinal tier of the glossary: UNVERIFIED < BASIC < STANDARD < ENHANCED. *)
Definition level_rank (l : VerificationLevel) : nat :=
  match l with UNVERIFIED => 0 | BASIC => 1 | STANDARD => 2 | ENHANCED => 3 end.

(** ** Rows of the four tables *)

Module IdentityRow.
Record t := mk {
  identity_id : string;
  holder_name : string;
  holder_email : string;
  biometric_hash : option string;
  verification_level : string;
  status : string;
  issued_at : string;
  expires_at : string }.

Definition set_verification_level (v : string) (r : t) : t :=
  mk (identity_id r) (holder_name r) (holder_email r) (biometric_hash r)
     v (status r) (issued_at r) (expires_at r).

Definition set_status (s : string) (r : t) : t :=
  mk (identity_id r) (holder_name r) (holder_email r) (biometric_hash r)
     (verification_level r) s (issued_at r) (expires_at r).
End IdentityRow.

Module DocumentRow.
(** [verified] is an INTEGER column: the code writes 0 and 1, filters on
    [verified=1] in SQL and on truthiness in Python. *)
Record t := mk {
  doc_id : string;
  identity_id : string;
  doc_type : string;
  number : string;
  issuing_country : string;
  expiry : string;
  verified : Z;
  verified_at : option string }.

Definition set_verified (v : Z) (at_ : option string) (r : t) : t :=
  mk (doc_id r) (identity_id r) (doc_type r) (number r) (issuing_country r)
     (expiry r) v at_.
End DocumentRow.

Module KYCRow.
(** [documents_submitted] is stored as [json.dumps] of a list of strings
    and read back with [json.loads]; the row holds the list itself. *)
Record t := mk {
  request_id : string;
  identity_id : string;
  requested_level : string;
  documents_submitted : list string;
  status : string;
  notes : string;
  processed_at : option string;
  created_at : string }.

Definition set_status_processed (s : string) (p : option string) (r : t) : t :=
  mk (request_id r) (identity_id r) (requested_level r) (documents_submitted r)
     s (notes r) p (created_at r).

Definition set_outcome (s n : string) (p : option string) (r : t) : t :=
  mk (request_id r) (identity_id r) (requested_level r) (documents_submitted r)
     s n p (created_at r).
End KYCRow.

Module AuditRow.
Record t := mk {
  log_id : string;
  identity_id : string;
  action : string;
  details : string;
  timestamp : string }.
End AuditRow.

(** ** The database *)

Record DB := mkDB {
  identities : list IdentityRow.t;
  documents : list DocumentRow.t;
  kyc_requests : list KYCRow.t;
  audit_log : list AuditRow.t }.

(** The state [init_db] leaves behind on a fresh file. *)
Definition empty_db : DB := mkDB [] [] [] [].

(** Python truthiness of an integer column. *)
Definition truthy (z : Z) : bool := negb (z =? 0)%Z.

(** ** Exceptions and the monad of database computations *)

Inductive exn :=
  | ValueError (msg : string)
  | IntegrityError
  | OperationalError (msg : string).

Definition M (A : Type) : Type := DB → DB * (exn + A).

#[global] Instance M_ret : MRet M := λ A a db, (db, inr a).
#[global] Instance M_bind : MBind M := λ A B f m db,
  match m db with
  | (db', inl e) => (db', inl e)
  | (db', inr a) => f a db'
  end.

Definition raise {A} (e : exn) : M A := λ db, (db, inl e).
(** A SELECT: reads the state. *)
Definition query {A} (f : DB → A) : M A := λ db, (db, inr (f db)).
(** An UPDATE followed, before anything can raise, by [commit]. *)
Definition execute (f : DB → DB) : M unit := λ db, (f db, inr ()).

(** ** SQL statements of the module *)

(** The WHERE clause [identity_id=?] on the identities table. *)
Definition id_is (identity_id : string) (r : IdentityRow.t) : bool :=
  bool_decide (IdentityRow.identity_id r = identity_id).

(** [SELECT * FROM identities WHERE identity_id=?] with [fetchone()]. *)
Definition select_identity (identity_id : string) (db : DB) : option IdentityRow.t :=
  List.find (id_is identity_id) (identities db).

(** [SELECT * FROM documents WHERE doc_id=? AND identity_id=?], [fetchone()]. *)
Definition select_document (doc_id identity_id : string) (db : DB) : option DocumentRow.t :=
  List.find (λ d, bool_decide (DocumentRow.doc_id d = doc_id)
                  && bool_decide (DocumentRow.identity_id d = identity_id))
            (documents db).

(** [SELECT doc_id FROM documents WHERE identity_id=? AND verified=1]. *)
Definition select_verified_doc_ids (identity_id : string) (db : DB) : list string :=
  DocumentRow.doc_id <$>
    filter (λ d, DocumentRow.identity_id d = identity_id ∧ DocumentRow.verified d = 1%Z)
           (documents db).

(** [SELECT * FROM documents WHERE doc_id IN (?,...)]. *)
Definition select_documents_in (doc_ids : list string) (db : DB) : list DocumentRow.t :=
  filter (λ d, DocumentRow.doc_id d ∈ doc_ids) (documents db).

(** [SELECT * FROM kyc_requests WHERE request_id=?] with [fetchone()]. *)
Definition select_kyc_request (request_id : string) (db : DB) : option KYCRow.t :=
  List.find (λ k, bool_decide (KYCRow.request_id k = request_id)) (kyc_requests db).

(** [UPDATE identities SET ... WHERE ...]. *)
Definition update_identities (where_ : IdentityRow.t → bool)
    (set : IdentityRow.t → IdentityRow.t) (db : DB) : DB :=
  mkDB ((λ r, if where_ r then set r else r) <$> identities db)
       (documents db) (kyc_requests db) (audit_log db).

Definition update_documents (where_ : DocumentRow.t → bool)
    (set : DocumentRow.t → DocumentRow.t) (db : DB) : DB :=
  mkDB (identities db)
       ((λ d, if where_ d then set d else d) <$> documents db)
       (kyc_requests db) (audit_log db).

Definition update_kyc_requests (where_ : KYCRow.t → bool)
    (set : KYCRow.t → KYCRow.t) (db : DB) : DB :=
  mkDB (identities db) (documents db)
       ((λ k, if where_ k then set k else k) <$> kyc_requests db)
       (audit_log db).

(** [INSERT INTO identities]: [identity_id] is the PRIMARY KEY and
    [holder_email] is UNIQUE. *)
Definition insert_identity (r : IdentityRow.t) : M unit := λ db,
  if bool_decide (IdentityRow.identity_id r ∈ IdentityRow.identity_id <$> identities db)
     || bool_decide (IdentityRow.holder_email r ∈ IdentityRow.holder_email <$> identities db)
  then (db, inl IntegrityError)
  else (mkDB (identities db ++ [r]) (documents db) (kyc_requests db) (audit_log db), inr ()).

Definition insert_document (d : DocumentRow.t) : M unit := λ db,
  if bool_decide (DocumentRow.doc_id d ∈ DocumentRow.doc_id <$> documents db)
  then (db, inl IntegrityError)
  else (mkDB (identities db) (documents db ++ [d]) (kyc_requests db) (audit_log db), inr ()).

Definition insert_kyc_request (k : KYCRow.t) : M unit := λ db,
  if bool_decide (KYCRow.request_id k ∈ KYCRow.request_id <$> kyc_requests db)
  then (db, inl IntegrityError)
  else (mkDB (identities db) (documents db) (kyc_requests db ++ [k]) (audit_log db), inr ()).

Definition insert_audit (a : AuditRow.t) : M unit := λ db,
  if bool_decide (AuditRow.log_id a ∈ AuditRow.log_id <$> audit_log db)
  then (db, inl IntegrityError)
  else (mkDB (identities db) (documents db) (kyc_requests db) (audit_log db ++ [a]), inr ()).

(** ** The KYC decision rule *)

Definition _check_doc_requirements (level : string) (docs : list DocumentRow.t) : bool :=
  let doc_types : gset string := list_to_set (DocumentRow.doc_type <$> docs) in
  if bool_decide (level = value BASIC) then
    bool_decide (1 ≤ length docs)
  else if bool_decide (level = value STANDARD) then
    bool_decide (2 ≤ length docs)
  else if bool_decide (level = value ENHANCED) then
    let primary : gset string := {[ value PASSPORT; value NATIONAL_ID ]} in
    bool_decide (3 ≤ length docs) && bool_decide (primary ∩ doc_types ≠ ∅)
  else true.

(** ** Python-side values *)

(** An argument annotated with an enum type: the code stores [x.value] when
    [isinstance(x, E)] and [x] itself otherwise. *)
Inductive arg (E : Type) :=
  | Member (e : E)
  | Raw (s : string).
Arguments Member {E} e.
Arguments Raw {E} s.

Definition stored {E} `{Value E} (x : arg E) : string :=
  match x with Member e => value e | Raw s => s end.

Module Document.
Record t := mk {
  doc_type : arg DocType;
  number : string;
  issuing_country : string;
  expiry : string;
  verified : bool;
  verified_at : option string;
  doc_id : string }.
End Document.

Module Identity.
Record t := mk {
  holder_name : string;
  holder_email : string;
  documents : list Document.t;
  biometric_hash : option string;
  verification_level : VerificationLevel;
  status : IdentityStatus;
  issued_at : string;
  expires_at : string;
  identity_id : string }.
End Identity.

Module KYCRequest.
Record t := mk {
  identity_id : string;
  requested_level : arg VerificationLevel;
  documents_submitted : list string;
  status : KYCStatus;
  notes : string;
  processed_at : option string;
  request_id : string;
  created_at : string }.
End KYCRequest.

(** The dict returned by [check_verification_level]. *)
Module VerificationInfo.
Record t := mk {
  identity_id : string;
  holder_name : string;
  holder_email : string;
  verification_level : string;
  status : string;
  issued_at : string;
  expires_at : string;
  total_documents : nat;
  verified_documents : nat;
  pending_kyc_requests : nat;
  last_kyc_status : option string }.
End VerificationInfo.

(** [ORDER BY]: a stable insertion sort; [before x y] says that [x] may
    precede [y].  (SQLite leaves the order of equal keys unspecified.) *)
Fixpoint insert_by {A} (before : A → A → bool) (x : A) (l : list A) : list A :=
  match l with
  | [] => [x]
  | y :: l' => if before x y then x :: y :: l' else y :: insert_by before x l'
  end.

Definition order_by {A} (before : A → A → bool) (l : list A) : list A :=
  foldr (insert_by before) [] l.

Definition asc {A} (key : A → string) (x y : A) : bool := String.leb (key x) (key y).
Definition desc {A} (key : A → string) (x y : A) : bool := String.leb (key y) (key x).

(** Truthiness of [Optional[str]]: [None] and the empty string are false. *)
Definition nonempty (o : option string) : option string :=
  match o with
  | Some s => if bool_decide (s = "") then None else Some s
  | None => None
  end.

(** ** The public functions *)

Section Operations.
(** Library functions the module calls and the embedding leaves abstract:
    [hashlib.sha256(s.encode()).hexdigest()]; the rendering of an enum
    member inside an f-string (it differs between Python versions);
    [repr] of a string; SQLite's [LIKE]; the float
    [round(verified / total * 100, 2)].  [SQLITE_MAX_VARIABLE_NUMBER] is the
    limit the SQLite library was built with on the number of [?] in one
    statement (999 before SQLite 3.32, 32766 since). *)
Variable sha256_hexdigest : string → string.
Variable format_DocType : DocType → string.
Variable format_VerificationLevel : VerificationLevel → string.
Variable repr : string → string.
Variable SQLITE_MAX_VARIABLE_NUMBER : nat.
Variable sql_like : string → string → bool.
Variable Float : Type.
Variable percent_round2 : nat → nat → Float.
Variable float_zero : Float.

Definition format_arg {E} (fmt : E → string) (x : arg E) : string :=
  match x with Member e => fmt e | Raw s => s end.

(** [CREATE TABLE IF NOT EXISTS ...]: the four tables always exist in
    [DB], so there is nothing to create. *)
Definition init_db : M unit := mret ().

Definition _log_action (identity_id action details : string)
    (uuid4 utcnow : string) : M unit :=
  insert_audit (AuditRow.mk uuid4 identity_id action details utcnow).

(** [uuid4], [issued_at] and [expires_at] are the three default factories
    of the [Identity] dataclass. *)
Definition create_identity (name email : string) (biometric_data : option string)
    (uuid4 issued_at expires_at : string) (log_uuid4 log_utcnow : string)
    : M Identity.t :=
  init_db;;
  let biometric_hash := sha256_hexdigest <$> nonempty biometric_data in
  let identity :=
    Identity.mk name email [] biometric_hash UNVERIFIED ACTIVE
                issued_at expires_at uuid4 in
  insert_identity
    (IdentityRow.mk (Identity.identity_id identity) name email biometric_hash
       (value (Identity.verification_level identity))
       (value (Identity.status identity))
       (Identity.issued_at identity) (Identity.expires_at identity));;
  _log_action (Identity.identity_id identity) "CREATE_IDENTITY"
    ("Created identity for " +:+ email) log_uuid4 log_utcnow;;
  mret identity.

Definition submit_document (identity_id : string) (doc_type : arg DocType)
    (number country expiry : string)
    (uuid4 : string) (log_uuid4 log_utcnow : string) : M Document.t :=
  let doc := Document.mk doc_type number country expiry false None uuid4 in
  row ← query (select_identity identity_id);
  match row with
  | None => raise (ValueError ("Identity " +:+ identity_id +:+ " not found"))
  | Some _ =>
      insert_document
        (DocumentRow.mk (Document.doc_id doc) identity_id (stored doc_type)
           number country expiry 0 None);;
      _log_action identity_id "SUBMIT_DOCUMENT"
        ("Submitted " +:+ format_arg format_DocType doc_type +:+ " document")
        log_uuid4 log_utcnow;;
      mret doc
  end.

Definition verify_document (identity_id doc_id : string)
    (utcnow : string) (log_uuid4 log_utcnow : string) : M bool :=
  row ← query (select_document doc_id identity_id);
  match row with
  | None =>
      raise (ValueError ("Document " +:+ doc_id +:+ " not found for identity "
                         +:+ identity_id))
  | Some _ =>
      let now := utcnow in
      execute (update_documents
                 (λ d, bool_decide (DocumentRow.doc_id d = doc_id))
                 (DocumentRow.set_verified 1 (Some now)));;
      _log_action identity_id "VERIFY_DOCUMENT"
        ("Document " +:+ doc_id +:+ " verified") log_uuid4 log_utcnow;;
      mret true
  end.

Definition initiate_kyc (identity_id : string)
    (requested_level : arg VerificationLevel)
    (uuid4 created_at : string) (log_uuid4 log_utcnow : string)
    : M KYCRequest.t :=
  row ← query (select_identity identity_id);
  match row with
  | None => raise (ValueError ("Identity " +:+ identity_id +:+ " not found"))
  | Some _ =>
      doc_ids ← query (select_verified_doc_ids identity_id);
      let req :=
        KYCRequest.mk identity_id requested_level doc_ids PENDING "" None
                      uuid4 created_at in
      insert_kyc_request
        (KYCRow.mk (KYCRequest.request_id req) identity_id (stored requested_level)
           doc_ids (value (KYCRequest.status req)) (KYCRequest.notes req)
           (KYCRequest.processed_at req) (KYCRequest.created_at req));;
      _log_action identity_id "INITIATE_KYC"
        ("KYC requested for level "
         +:+ format_arg format_VerificationLevel requested_level)
        log_uuid4 log_utcnow;;
      mret req
  end.

(** [conn.execute("SELECT * FROM documents WHERE doc_id IN (?,...)", doc_ids)]
    binds one variable per id: SQLite refuses a statement with more than
    [SQLITE_MAX_VARIABLE_NUMBER] of them and [sqlite3] raises
    [OperationalError]. *)
Definition fetch_documents_in (doc_ids : list string) : M (list DocumentRow.t) :=
  if bool_decide (length doc_ids ≤ SQLITE_MAX_VARIABLE_NUMBER)
  then query (select_documents_in doc_ids)
  else raise (OperationalError "too many SQL variables").

Definition process_kyc (request_id : string)
    (utcnow : string) (log_uuid4 log_utcnow : string) : M KYCRequest.t :=
  row ← query (select_kyc_request request_id);
  match row with
  | None => raise (ValueError ("KYC request " +:+ request_id +:+ " not found"))
  | Some row =>
      if bool_decide (KYCRow.status row ≠ value PENDING) then
        raise (ValueError ("KYC request " +:+ request_id
                           +:+ " is not in pending state"))
      else
        let now := utcnow in
        execute (update_kyc_requests
                   (λ k, bool_decide (KYCRow.request_id k = request_id))
                   (KYCRow.set_status_processed (value PROCESSING) (Some now)));;
        let doc_ids := KYCRow.documents_submitted row in
        docs ← match doc_ids with
               | [] => mret []
               | _ :: _ => fetch_documents_in doc_ids
               end;
        let all_verified :=
          bool_decide (0 < length docs)
          && forallb (λ d, truthy (DocumentRow.verified d)) docs in
        let requested_level := KYCRow.requested_level row in
        let meets_doc_requirements := _check_doc_requirements requested_level docs in
        '(new_status, notes) ←
          (if all_verified && meets_doc_requirements then
             execute (update_identities
                        (id_is (KYCRow.identity_id row))
                        (IdentityRow.set_verification_level requested_level));;
             mret (value APPROVED, "All documents verified and requirements met.")
           else
             mret (value REJECTED,
                   "Insufficient verified documents or requirements not met."));
        execute (update_kyc_requests
                   (λ k, bool_decide (KYCRow.request_id k = request_id))
                   (KYCRow.set_outcome new_status notes (Some now)));;
        _log_action (KYCRow.identity_id row) "PROCESS_KYC"
          ("KYC " +:+ request_id +:+ ": " +:+ new_status) log_uuid4 log_utcnow;;
        match of_value VerificationLevel_members requested_level with
        | None =>
            raise (ValueError (repr requested_level
                               +:+ " is not a valid VerificationLevel"))
        | Some level =>
            match of_value KYCStatus_members new_status with
            | None => raise (ValueError (repr new_status
                                         +:+ " is not a valid KYCStatus"))
            | Some st =>
                mret (KYCRequest.mk (KYCRow.identity_id row) (Member level) doc_ids
                        st notes (Some now) request_id (KYCRow.created_at row))
            end
        end
  end.

(** Whether the SELECT of [process_kyc] can bind the ids of the request's
    snapshot. *)
Definition bindable (row : KYCRow.t) : bool :=
  bool_decide (length (KYCRow.documents_submitted row) ≤ SQLITE_MAX_VARIABLE_NUMBER).

(** The condition [all_verified and meets_doc_requirements] that
    [process_kyc] branches on, as a function of the request row and of the
    state in which the request is processed. *)
Definition kyc_decision (row : KYCRow.t) (db : DB) : bool :=
  let docs := select_documents_in (KYCRow.documents_submitted row) db in
  bool_decide (0 < length docs)
  && forallb (λ d, truthy (DocumentRow.verified d)) docs
  && _check_doc_requirements (KYCRow.requested_level row) docs.

Definition check_verification_level (identity_id : string) : M VerificationInfo.t :=
  row ← query (select_identity identity_id);
  match row with
  | None => raise (ValueError ("Identity " +:+ identity_id +:+ " not found"))
  | Some row =>
      docs ← query (λ db,
        filter (λ d, DocumentRow.identity_id d = identity_id) (documents db));
      kyc_requests ← query (λ db,
        order_by (desc KYCRow.created_at)
          (filter (λ k, KYCRow.identity_id k = identity_id) (kyc_requests db)));
      let verified_docs :=
        List.filter (λ d, truthy (DocumentRow.verified d)) docs in
      let pending_kyc :=
        filter (λ k, KYCRow.status k ∈ [value PENDING; value PROCESSING])
               kyc_requests in
      mret (VerificationInfo.mk identity_id
              (IdentityRow.holder_name row) (IdentityRow.holder_email row)
              (IdentityRow.verification_level row) (IdentityRow.status row)
              (IdentityRow.issued_at row) (IdentityRow.expires_at row)
              (length docs) (length verified_docs) (length pending_kyc)
              (KYCRow.status <$> head kyc_requests))
  end.

Definition revoke_identity (identity_id reason : string)
    (log_uuid4 log_utcnow : string) : M bool :=
  row ← query (select_identity identity_id);
  match row with
  | None => raise (ValueError ("Identity " +:+ identity_id +:+ " not found"))
  | Some _ =>
      execute (update_identities
                 (id_is identity_id)
                 (IdentityRow.set_status (value REVOKED)));;
      _log_action identity_id "REVOKE_IDENTITY" ("Reason: " +:+ reason)
        log_uuid4 log_utcnow;;
      mret true
  end.

Definition get_audit_trail (identity_id : string) : M (list AuditRow.t) :=
  query (λ db,
    order_by (asc AuditRow.timestamp)
      (filter (λ a, AuditRow.identity_id a = identity_id) (audit_log db))).

Definition list_identities (status level : option string) : M (list IdentityRow.t) :=
  query (λ db,
    List.filter
      (λ r, match nonempty status with
            | Some s => bool_decide (IdentityRow.status r = s)
            | None => true
            end
            && match nonempty level with
               | Some l => bool_decide (IdentityRow.verification_level r = l)
               | None => true
               end)
      (identities db)).

Record Stats := mkStats {
  total_identities : nat;
  by_verification_level : gmap string nat;
  by_status : gmap string nat;
  pending_kyc_requests : nat;
  total_documents : nat;
  verified_documents : nat;
  verification_rate : Float }.

Definition identity_stats : M Stats :=
  total ← query (λ db, length (identities db));
  by_level ← query (λ db,
    foldl (λ (acc : gmap string nat) (level : VerificationLevel),
             <[value level :=
                 length (filter (λ r, IdentityRow.verification_level r = value level)
                                (identities db))]> acc)
          ∅ VerificationLevel_members);
  by_status ← query (λ db,
    foldl (λ (acc : gmap string nat) (st : IdentityStatus),
             <[value st :=
                 length (filter (λ r, IdentityRow.status r = value st)
                                (identities db))]> acc)
          ∅ IdentityStatus_members);
  pending_kyc ← query (λ db,
    length (filter (λ k, KYCRow.status k ∈ ["pending"; "processing"])
                   (kyc_requests db)));
  total_docs ← query (λ db, length (documents db));
  verified_docs ← query (λ db,
    length (filter (λ d, DocumentRow.verified d = 1%Z) (documents db)));
  mret (mkStats total by_level by_status pending_kyc total_docs verified_docs
          (match total_docs with
           | O => float_zero
           | S _ => percent_round2 verified_docs total_docs
           end)).

(** The UPDATE and its [cur.rowcount]. *)
Definition expire_old_identities (utcnow : string) : M nat :=
  let now := utcnow in
  let where_ := λ r, String.ltb (IdentityRow.expires_at r) now
                     && bool_decide (IdentityRow.status r = value ACTIVE) in
  count ← query (λ db, length (List.filter where_ (identities db)));
  execute (update_identities where_ (IdentityRow.set_status (value EXPIRED)));;
  mret count.

Definition search_identity (query_ : string) : M (list IdentityRow.t) :=
  query (λ db,
    List.filter
      (λ r, sql_like (IdentityRow.holder_name r) ("%" +:+ query_ +:+ "%")
            || sql_like (IdentityRow.holder_email r) ("%" +:+ query_ +:+ "%"))
      (identities db)).

Definition get_documents (identity_id : string) : M (list DocumentRow.t) :=
  query (λ db, filter (λ d, DocumentRow.identity_id d = identity_id) (documents db)).

Definition get_kyc_history (identity_id : string) : M (list KYCRow.t) :=
  query (λ db,
    order_by (desc KYCRow.created_at)
      (filter (λ k, KYCRow.identity_id k = identity_id) (kyc_requests db))).

Definition suspend_identity (identity_id reason : string)
    (log_uuid4 log_utcnow : string) : M bool :=
  row ← query (select_identity identity_id);
  match row with
  | None => raise (ValueError ("Identity " +:+ identity_id +:+ " not found"))
  | Some _ =>
      execute (update_identities
                 (id_is identity_id)
                 (IdentityRow.set_status (value SUSPENDED)));;
      _log_action identity_id "SUSPEND_IDENTITY" ("Reason: " +:+ reason)
        log_uuid4 log_utcnow;;
      mret true
  end.

Definition reactivate_identity (identity_id : string)
    (log_uuid4 log_utcnow : string) : M bool :=
  row ← query (select_identity identity_id);
  match row with
  | None => raise (ValueError ("Identity " +:+ identity_id +:+ " not found"))
  | Some row =>
      if bool_decide (IdentityRow.status row ≠ value SUSPENDED) then
        raise (ValueError ("Identity " +:+ identity_id +:+ " is not suspended"))
      else
        execute (update_identities
                   (id_is identity_id)
                   (IdentityRow.set_status (value ACTIVE)));;
        _log_action identity_id "REACTIVATE_IDENTITY" "Identity reactivated"
          log_uuid4 log_utcnow;;
        mret true
  end.

(** The text of the report is assembled from the four reads by pure string
    formatting, left abstract. *)
Variable format_report :
  VerificationInfo.t → list DocumentRow.t → list KYCRow.t → list AuditRow.t → string.

Definition generate_identity_report (identity_id : string) : M string :=
  info ← check_verification_level identity_id;
  docs ← get_documents identity_id;
  kyc ← get_kyc_history identity_id;
  audit ← get_audit_trail identity_id;
  mret (format_report info docs kyc audit).

(** ** Sequences of public calls *)

Inductive call :=
  | Init_db
  | Create_identity (name email : string) (biometric_data : option string)
      (uuid4 issued_at expires_at log_uuid4 log_utcnow : string)
  | Submit_document (identity_id : string) (doc_type : arg DocType)
      (number country expiry uuid4 log_uuid4 log_utcnow : string)
  | Verify_document (identity_id doc_id utcnow log_uuid4 log_utcnow : string)
  | Initiate_kyc (identity_id : string) (requested_level : arg VerificationLevel)
      (uuid4 created_at log_uuid4 log_utcnow : string)
  | Process_kyc (request_id utcnow log_uuid4 log_utcnow : string)
  | Check_verification_level (identity_id : string)
  | Revoke_identity (identity_id reason log_uuid4 log_utcnow : string)
  | Get_audit_trail (identity_id : string)
  | List_identities (status level : option string)
  | Identity_stats
  | Expire_old_identities (utcnow : string)
  | Search_identity (query_ : string)
  | Get_documents (identity_id : string)
  | Get_kyc_history (identity_id : string)
  | Suspend_identity (identity_id reason log_uuid4 log_utcnow : string)
  | Reactivate_identity (identity_id log_uuid4 log_utcnow : string)
  | Generate_identity_report (identity_id : string).

(** The eight functions that call [_log_action]. *)
Definition logs (c : call) : bool :=
  match c with
  | Create_identity _ _ _ _ _ _ _ _ | Submit_document _ _ _ _ _ _ _ _
  | Verify_document _ _ _ _ _ | Initiate_kyc _ _ _ _ _ _ | Process_kyc _ _ _ _
  | Revoke_identity _ _ _ _ | Suspend_identity _ _ _ _
  | Reactivate_identity _ _ _ => true
  | _ => false
  end.

(** [c] is a call of [suspend_identity] on [identity_id]. *)
Definition suspends (identity_id : string) (c : call) : bool :=
  match c with
  | Suspend_identity i _ _ _ => bool_decide (i = identity_id)
  | _ => false
  end.

(** Every id of a snapshot names a stored document, and the stored
    documents it names are verified. *)
Definition snapshot_verified (ids : list string) (db : DB) : Prop :=
  (∀ x, x ∈ ids → ∃ d, d ∈ documents db ∧ DocumentRow.doc_id d = x)
  ∧ (∀ d, d ∈ documents db → DocumentRow.doc_id d ∈ ids →
          DocumentRow.verified d = 1%Z).

(** What the primary key of [documents] and the way snapshots are taken
    maintain. *)
Definition snapshot_invariant (db : DB) : Prop :=
  NoDup (DocumentRow.doc_id <$> documents db)
  ∧ ∀ k, k ∈ kyc_requests db → snapshot_verified (KYCRow.documents_submitted k) db.

(** The state a computation leaves behind, and the exception it raised. *)
Definition effect {A} (m : M A) (db : DB) : DB * option exn :=
  match m db with
  | (db', inl e) => (db', Some e)
  | (db', inr _) => (db', None)
  end.

Definition exec (c : call) : DB → DB * option exn :=
  match c with
  | Init_db => effect init_db
  | Create_identity n e b u i x lu lt => effect (create_identity n e b u i x lu lt)
  | Submit_document i t n c x u lu lt => effect (submit_document i t n c x u lu lt)
  | Verify_document i d now lu lt => effect (verify_document i d now lu lt)
  | Initiate_kyc i l u c lu lt => effect (initiate_kyc i l u c lu lt)
  | Process_kyc r now lu lt => effect (process_kyc r now lu lt)
  | Check_verification_level i => effect (check_verification_level i)
  | Revoke_identity i r lu lt => effect (revoke_identity i r lu lt)
  | Get_audit_trail i => effect (get_audit_trail i)
  | List_identities s l => effect (list_identities s l)
  | Identity_stats => effect identity_stats
  | Expire_old_identities now => effect (expire_old_identities now)
  | Search_identity q => effect (search_identity q)
  | Get_documents i => effect (get_documents i)
  | Get_kyc_history i => effect (get_kyc_history i)
  | Suspend_identity i r lu lt => effect (suspend_identity i r lu lt)
  | Reactivate_identity i lu lt => effect (reactivate_identity i lu lt)
  | Generate_identity_report i => effect (generate_identity_report i)
  end.

Definition step (c : call) (db : DB) : DB := (exec c db).1.

(** The calls are made one after the other, whether or not one raises. *)
Definition run (cs : list call) (db : DB) : DB := foldl (λ d c, step c d) db cs.

(** The states the public functions can produce from a fresh database. *)
Definition reachable (db : DB) : Prop := ∃ cs, db = run cs empty_db.

(** The rank of a stored verification level. *)
Definition rank_of_value (s : string) : option nat :=
  level_rank <$> of_value VerificationLevel_members s.

(** ** Example states and call sequences *)

(** The example of the specification, up to the request: Dave Brown, one
    verified passport, a pending request for BASIC. *)
Definition dave_calls : list call :=
  [ Create_identity "Dave Brown" "dave@example.com" None "i1"
      "2026-11-03T09:00:00" "2031-11-02T09:00:00" "a1" "2026-11-03T09:00:00";
    Submit_document "i1" (Member PASSPORT) "P999" "UK" "2029-01-01" "d1"
      "a2" "2026-11-03T09:01:00";
    Verify_document "i1" "d1" "2026-11-03T09:02:00" "a3" "2026-11-03T09:02:00";
    Initiate_kyc "i1" (Member BASIC) "r1" "2026-11-03T09:03:00"
      "a4" "2026-11-03T09:03:00" ].

Definition dave_request : KYCRow.t :=
  KYCRow.mk "r1" "i1" "basic" ["d1"] "pending" "" None "2026-11-03T09:03:00".

Definition dave_db : DB :=
  mkDB
    [ IdentityRow.mk "i1" "Dave Brown" "dave@example.com" None "unverified"
        "active" "2026-11-03T09:00:00" "2031-11-02T09:00:00" ]
    [ DocumentRow.mk "d1" "i1" "passport" "P999" "UK" "2029-01-01" 1
        (Some "2026-11-03T09:02:00") ]
    [ dave_request ]
    [ AuditRow.mk "a1" "i1" "CREATE_IDENTITY" "Created identity for dave@example.com"
        "2026-11-03T09:00:00";
      AuditRow.mk "a2" "i1" "SUBMIT_DOCUMENT" "Submitted passport document"
        "2026-11-03T09:01:00";
      AuditRow.mk "a3" "i1" "VERIFY_DOCUMENT" "Document d1 verified"
        "2026-11-03T09:02:00";
      AuditRow.mk "a4" "i1" "INITIATE_KYC" "KYC requested for level basic"
        "2026-11-03T09:03:00" ].

(** An identity with three verified documents that obtains ENHANCED and
    then files a request for BASIC. *)
Definition erin_calls : list call :=
  [ Create_identity "Erin Gray" "erin@example.com" None "i1"
      "2026-11-03T09:00:00" "2031-11-02T09:00:00" "a1" "2026-11-03T09:00:00";
    Submit_document "i1" (Member PASSPORT) "P1" "UK" "2029-01-01" "d1"
      "a2" "2026-11-03T09:01:00";
    Submit_document "i1" (Member LICENSE) "L1" "UK" "2029-01-01" "d2"
      "a3" "2026-11-03T09:02:00";
    Submit_document "i1" (Member UTILITY_BILL) "U1" "UK" "2029-01-01" "d3"
      "a4" "2026-11-03T09:03:00";
    Verify_document "i1" "d1" "2026-11-03T09:04:00" "a5" "2026-11-03T09:04:00";
    Verify_document "i1" "d2" "2026-11-03T09:05:00" "a6" "2026-11-03T09:05:00";
    Verify_document "i1" "d3" "2026-11-03T09:06:00" "a7" "2026-11-03T09:06:00";
    Initiate_kyc "i1" (Member ENHANCED) "r1" "2026-11-03T09:07:00"
      "a8" "2026-11-03T09:07:00";
    Process_kyc "r1" "2026-11-03T09:08:00" "a9" "2026-11-03T09:08:00";
    Initiate_kyc "i1" (Member BASIC) "r2" "2026-11-03T09:09:00"
      "a10" "2026-11-03T09:09:00" ].

(** An identity issued in 2020 whose five years have passed, swept by
    [expire_old_identities] in 2026. *)
Definition old_identity : IdentityRow.t :=
  IdentityRow.mk "i1" "Ann Lee" "ann@example.com" None "unverified" "active"
    "2020-01-01T00:00:00" "2024-12-30T00:00:00".

Definition old_db : DB :=
  mkDB [ old_identity ] [] []
    [ AuditRow.mk "a1" "i1" "CREATE_IDENTITY" "Created identity for ann@example.com"
        "2020-01-01T00:00:00" ].

Definition ann_calls : list call :=
  [ Create_identity "Ann Lee" "ann@example.com" None "i1"
      "2020-01-01T00:00:00" "2024-12-30T00:00:00" "a1" "2020-01-01T00:00:00";
    Expire_old_identities "2026-11-03T09:00:00" ].

(** ** The command line *)

(** What [cli] draws from its environment when it runs a command: the
    values [create_identity] and [expire_old_identities] would draw. *)
Record Env := mkEnv {
  env_uuid4 : string;
  env_issued_at : string;
  env_expires_at : string;
  env_log_uuid4 : string;
  env_log_utcnow : string;
  env_utcnow : string }.

(** [json.dumps(..., indent=2)] of the two dicts the command line prints,
    and the slice [s[:8]]. *)
Variable json_dumps_stats : Stats → string.
Variable json_dumps_info : VerificationInfo.t → string.
Variable prefix8 : string → string.

(** [cli] with [sys.argv] as an argument; the result is the list of the
    strings it prints, one per call of [print]. *)
Definition cli (argv : list string) (env : Env) : M (list string) :=
  match argv with
  | [] | [_] =>
      mret [ "Usage: python digital_identity.py <command> [args]";
             "Commands: create, submit-doc, verify-doc, kyc, process-kyc, check, revoke, stats, report" ]
  | _ :: cmd :: args =>
      init_db;;
      if bool_decide (cmd = "create") && bool_decide (4 ≤ length argv) then
        match args with
        | name :: email :: _ =>
            identity ← create_identity name email None (env_uuid4 env)
                         (env_issued_at env) (env_expires_at env)
                         (env_log_uuid4 env) (env_log_utcnow env);
            mret [ "Created identity: " +:+ Identity.identity_id identity ]
        | _ => mret []
        end
      else if bool_decide (cmd = "stats") then
        stats ← identity_stats;
        mret [ json_dumps_stats stats ]
      else if bool_decide (cmd = "list") then
        identities ← list_identities None None;
        mret ((λ i, prefix8 (IdentityRow.identity_id i) +:+ "... "
                    +:+ IdentityRow.holder_name i +:+ " <"
                    +:+ IdentityRow.holder_email i +:+ "> ["
                    +:+ IdentityRow.verification_level i +:+ "]") <$> identities)
      else if bool_decide (cmd = "check") && bool_decide (3 ≤ length argv) then
        match args with
        | identity_id :: _ =>
            info ← check_verification_level identity_id;
            mret [ json_dumps_info info ]
        | _ => mret []
        end
      else if bool_decide (cmd = "report") && bool_decide (3 ≤ length argv) then
        match args with
        | identity_id :: _ =>
            report ← generate_identity_report identity_id;
            mret [ report ]
        | _ => mret []
        end
      else if bool_decide (cmd = "expire") then
        count ← expire_old_identities (env_utcnow env);
        mret [ "Expired " +:+ pretty count +:+ " identities" ]
      else if bool_decide (cmd = "search") && bool_decide (3 ≤ length argv) then
        match args with
        | q :: _ =>
            results ← search_identity q;
            mret ((λ r, prefix8 (IdentityRow.identity_id r) +:+ "... "
                        +:+ IdentityRow.holder_name r +:+ " ["
                        +:+ IdentityRow.verification_level r +:+ "]") <$> results)
        | _ => mret []
        end
      else
        mret [ "Unknown command or missing arguments: " +:+ cmd ]
  end.

(** ** Invariants *)

(** The PRIMARY KEY and UNIQUE columns hold no value twice. *)
Definition keys_unique (db : DB) : Prop :=
  NoDup (IdentityRow.identity_id <$> identities db)
  ∧ NoDup (IdentityRow.holder_email <$> identities db)
  ∧ NoDup (DocumentRow.doc_id <$> documents db)
  ∧ NoDup (KYCRow.request_id <$> kyc_requests db)
  ∧ NoDup (AuditRow.log_id <$> audit_log db).

(** The foreign keys (which SQLite does not enforce here) point at stored
    rows: documents, requests and audit entries name a stored identity, and
    the ids in a request's snapshot name stored documents of the request's
    identity. *)
Definition references_exist (db : DB) : Prop :=
  (∀ d, d ∈ documents db →
        DocumentRow.identity_id d ∈ IdentityRow.identity_id <$> identities db)
  ∧ (∀ k, k ∈ kyc_requests db →
          KYCRow.identity_id k ∈ IdentityRow.identity_id <$> identities db
          ∧ ∀ x, x ∈ KYCRow.documents_submitted k →
                 ∃ d, d ∈ documents db ∧ DocumentRow.doc_id d = x
                      ∧ DocumentRow.identity_id d = KYCRow.identity_id k)
  ∧ (∀ a, a ∈ audit_log db →
          AuditRow.identity_id a ∈ IdentityRow.identity_id <$> identities db).

(** A document is either unverified (flag 0, no time) or verified (flag 1,
    with a time). *)
Definition document_flag_ok (d : DocumentRow.t) : Prop :=
  (DocumentRow.verified d = 0%Z ∧ DocumentRow.verified_at d = None)
  ∨ (DocumentRow.verified d = 1%Z ∧ is_Some (DocumentRow.verified_at d)).

(** A request is pending and untouched, or carries one of the two outcomes
    with the notes and the processing time [process_kyc] wrote, or was left
    PROCESSING by a [process_kyc] that could not bind the ids of its
    snapshot. *)
Definition request_state_ok (k : KYCRow.t) : Prop :=
  (KYCRow.status k = "pending" ∧ KYCRow.notes k = ""
   ∧ KYCRow.processed_at k = None)
  ∨ (KYCRow.status k = "approved"
     ∧ KYCRow.notes k = "All documents verified and requirements met."
     ∧ is_Some (KYCRow.processed_at k))
  ∨ (KYCRow.status k = "rejected"
     ∧ KYCRow.notes k = "Insufficient verified documents or requirements not met."
     ∧ is_Some (KYCRow.processed_at k))
  ∨ (KYCRow.status k = "processing" ∧ KYCRow.notes k = ""
     ∧ is_Some (KYCRow.processed_at k)
     ∧ SQLITE_MAX_VARIABLE_NUMBER < length (KYCRow.documents_submitted k)).

Definition identity_status_ok (r : IdentityRow.t) : Prop :=
  IdentityRow.status r ∈ value <$> IdentityStatus_members.

(** ** Further examples *)

(** Dave's identity with a passport submitted but not yet verified; the
    same after the verification; and a state in which a request for a level
    that does not exist is pending. *)
Definition dave_submitted : DB :=
  mkDB (identities dave_db)
    [ DocumentRow.mk "d1" "i1" "passport" "P999" "UK" "2029-01-01" 0 None ]
    [] (take 2 (audit_log dave_db)).

Definition dave_verified : DB :=
  mkDB (identities dave_db) (documents dave_db) [] (take 3 (audit_log dave_db)).

Definition gold_request : KYCRow.t :=
  KYCRow.mk "r1" "i1" "gold" ["d1"] "pending" "" None "2026-11-03T09:03:00".

Definition gold_db : DB :=
  mkDB (identities dave_db) (documents dave_db) [ gold_request ]
    (audit_log dave_verified ++
       [ AuditRow.mk "a4" "i1" "INITIATE_KYC" "KYC requested for level gold"
           "2026-11-03T09:03:00" ]).

Definition sample_env : Env :=
  mkEnv "i1" "2026-11-03T09:00:00" "2031-11-02T09:00:00" "a1"
    "2026-11-03T09:00:00" "2026-11-03T09:00:00".

(** * Properties *)

Lemma primary_meets_doc_types (docs : list DocumentRow.t) :
  ({[ value PASSPORT; value NATIONAL_ID ]} ∩
     (list_to_set (DocumentRow.doc_type <$> docs) : gset string)) ≠ ∅
  ↔ ∃ d, d ∈ docs ∧
      (DocumentRow.doc_type d = "passport" ∨ DocumentRow.doc_type d = "national_id").
Proof.
  split.
  - intros Hne. apply set_choose_L in Hne as [x Hx].
    apply elem_of_intersection in Hx as [Hp Ht].
    apply elem_of_list_to_set, list_elem_of_fmap in Ht as (d & -> & Hd).
    exists d. split; [done|].
    apply elem_of_union in Hp as [Hp|Hp]; apply elem_of_singleton in Hp; auto.
  - intros (d & Hd & Ht) Hempty.
    assert (DocumentRow.doc_type d ∈
      ({[ value PASSPORT; value NATIONAL_ID ]} ∩
         (list_to_set (DocumentRow.doc_type <$> docs) : gset string))) as Hin.
    { apply elem_of_intersection. split.
      - destruct Ht as [-> | ->]; set_solver.
      - apply elem_of_list_to_set, list_elem_of_fmap. eauto. }
    rewrite Hempty in Hin. set_solver.
Qed.

(** C1. [_check_doc_requirements] answers true exactly when the level is
    'basic' with at least one document, 'standard' with at least two,
    'enhanced' with at least three of which one is a passport or a national
    id, or when the level is any other string. *)
Theorem check_doc_requirements_spec (level : string) (docs : list DocumentRow.t) :
  _check_doc_requirements level docs = true ↔
    (level = "basic" ∧ 1 ≤ length docs)
    ∨ (level = "standard" ∧ 2 ≤ length docs)
    ∨ (level = "enhanced" ∧ 3 ≤ length docs ∧
       ∃ d, d ∈ docs ∧ (DocumentRow.doc_type d = "passport"
                        ∨ DocumentRow.doc_type d = "national_id"))
    ∨ (level ≠ "basic" ∧ level ≠ "standard" ∧ level ≠ "enhanced").
Proof.
  clear -level docs.
  unfold _check_doc_requirements.
  change (value BASIC) with "basic". change (value STANDARD) with "standard".
  change (value ENHANCED) with "enhanced".
  case_bool_decide as Hb.
  { subst. rewrite bool_decide_eq_true. intuition congruence. }
  case_bool_decide as Hs.
  { subst. rewrite bool_decide_eq_true. intuition congruence. }
  case_bool_decide as He; [|intuition congruence].
  subst. rewrite andb_true_iff, !bool_decide_eq_true, primary_meets_doc_types.
  intuition congruence.
Qed.

(** ** The monad, unfolded *)

Ltac unfold_M :=
  unfold mbind, M_bind, mret, M_ret, raise, query, execute, init_db, _log_action,
    insert_audit, insert_identity, insert_document, insert_kyc_request in *.

Lemma select_documents_in_nil (db : DB) : select_documents_in [] db = [].
Proof.
  unfold select_documents_in. induction (documents db) as [|d l IH]; [done|].
  rewrite filter_cons_False; [done|]. apply not_elem_of_nil.
Qed.

Lemma find_fmap_update {A} (p : A → bool) (set : A → A) (l : list A) :
  (∀ x, p (set x) = p x) →
  List.find p ((λ x, if p x then set x else x) <$> l) = set <$> List.find p l.
Proof.
  intros Hp. induction l as [|x l IH]; [done|]. simpl.
  destruct (p x) eqn:Hx.
  - by rewrite Hp, Hx.
  - by rewrite Hx.
Qed.

Lemma fmap_update_twice {A} (p : A → bool) (f g h : A → A) (l : list A) :
  (∀ x, p (g x) = p x) → (∀ x, f (g x) = h x) →
  (λ x, if p x then f x else x) <$> ((λ x, if p x then g x else x) <$> l)
  = (λ x, if p x then h x else x) <$> l.
Proof.
  intros Hp Hfg. rewrite <- list_fmap_compose. apply list_fmap_ext.
  intros _ x _. simpl. destruct (p x) eqn:Hx; [by rewrite Hp, Hx, Hfg|by rewrite Hx].
Qed.

(** ** Read-only functions *)

(** C10. The read-only functions leave the four tables as they found them,
    whether they return or raise. *)
Theorem read_only_operations_leave_state (db : DB) :
  (∀ identity_id, (check_verification_level identity_id db).1 = db)
  ∧ (∀ identity_id, (get_documents identity_id db).1 = db)
  ∧ (∀ identity_id, (get_kyc_history identity_id db).1 = db)
  ∧ (∀ identity_id, (get_audit_trail identity_id db).1 = db)
  ∧ (∀ status level, (list_identities status level db).1 = db)
  ∧ (∀ q, (search_identity q db).1 = db)
  ∧ (identity_stats db).1 = db
  ∧ (∀ identity_id, (generate_identity_report identity_id db).1 = db).
Proof.
  assert (∀ i, (check_verification_level i db).1 = db) as Hcheck.
  { intros i. unfold check_verification_level. unfold_M.
    destruct (select_identity i db); reflexivity. }
  repeat split; try (intros; reflexivity); [exact Hcheck|].
  intros i. unfold generate_identity_report. unfold_M.
  specialize (Hcheck i).
  destruct (check_verification_level i db) as [db' [e|info]]; simpl in *; subst;
    reflexivity.
Qed.

(** ** Processing a request *)

(** The fetch of the snapshot's documents, when the ids can be bound. *)
Lemma fetch_bindable (row : KYCRow.t) :
  bindable row = true →
  ∀ db,
    match KYCRow.documents_submitted row with
    | [] => mret []
    | _ :: _ => fetch_documents_in (KYCRow.documents_submitted row)
    end db
    = (db, inr (select_documents_in (KYCRow.documents_submitted row) db)).
Proof.
  unfold bindable, fetch_documents_in. intros Hfits db.
  destruct (KYCRow.documents_submitted row) as [|x ids] eqn:E.
  - by rewrite select_documents_in_nil.
  - by rewrite Hfits.
Qed.

Lemma bindable_nil (row : KYCRow.t) :
  KYCRow.documents_submitted row = [] → bindable row = true.
Proof.
  unfold bindable. intros ->. apply bool_decide_eq_true. simpl. lia.
Qed.

(** What [process_kyc] does to a pending request: the rows it rewrites and
    the audit entry it appends (unless the entry's id is taken). *)
Lemma process_kyc_pending (db : DB) (request_id utcnow lu lt : string) (row : KYCRow.t) :
  select_kyc_request request_id db = Some row →
  KYCRow.status row = value PENDING →
  bindable row = true →
  let ok := kyc_decision row db in
  let new_status := if ok then value APPROVED else value REJECTED in
  let notes := if ok then "All documents verified and requirements met."
               else "Insufficient verified documents or requirements not met." in
  let entry := AuditRow.mk lu (KYCRow.identity_id row) "PROCESS_KYC"
                 ("KYC " +:+ request_id +:+ ": " +:+ new_status) lt in
  ∃ log res,
    process_kyc request_id utcnow lu lt db =
      (mkDB (if ok then
               (λ r, if id_is (KYCRow.identity_id row) r
                     then IdentityRow.set_verification_level (KYCRow.requested_level row) r
                     else r) <$> identities db
             else identities db)
            (documents db)
            ((λ k, if bool_decide (KYCRow.request_id k = request_id)
                   then KYCRow.set_outcome new_status notes (Some utcnow) k
                   else k) <$> kyc_requests db)
            log, res)
    ∧ ((log = audit_log db ∧ res = inl IntegrityError)
       ∨ log = audit_log db ++ [entry])
    ∧ ∀ req, res = inr req →
        value (KYCRequest.status req) = new_status
        ∧ KYCRequest.notes req = notes
        ∧ KYCRequest.processed_at req = Some utcnow.
Proof.
  intros Hsel Hpending Hfits ok new_status notes entry.
  set (docs := select_documents_in (KYCRow.documents_submitted row) db).
  pose proof (fetch_bindable row Hfits) as Hfetch.
  unfold process_kyc. unfold mbind, M_bind at 1. unfold query at 1. rewrite Hsel.
  rewrite bool_decide_eq_false_2 by (by intros []).
  unfold M_bind at 1. unfold execute at 1.
  unfold M_bind at 1. rewrite Hfetch.
  change (select_documents_in _ (update_kyc_requests _ _ db)) with docs.
  change (_ && _ && _) with ok.
  subst new_status notes entry. clearbody ok. clear Hfetch.
  unfold_M. unfold update_kyc_requests, update_identities.
  destruct ok; simpl;
    rewrite fmap_update_twice with (h := KYCRow.set_outcome _ _ (Some utcnow))
      by done;
    (case_bool_decide; simpl;
       [do 2 eexists; split; [reflexivity|split; [by left|done]]|]);
    destruct (of_value VerificationLevel_members _); simpl;
    (do 2 eexists; split; [reflexivity|split; [by right|]]);
    intros req [= <-]; done.
Qed.

(** A pending request whose snapshot has more ids than one statement can
    bind: the request is left in the PROCESSING status that was committed
    before the SELECT, and nothing else is written. *)
Lemma process_kyc_too_many (db : DB) (request_id utcnow lu lt : string)
    (row : KYCRow.t) :
  select_kyc_request request_id db = Some row →
  KYCRow.status row = value PENDING →
  bindable row = false →
  process_kyc request_id utcnow lu lt db
  = (mkDB (identities db) (documents db)
          ((λ k, if bool_decide (KYCRow.request_id k = request_id)
                 then KYCRow.set_status_processed "processing" (Some utcnow) k
                 else k) <$> kyc_requests db)
          (audit_log db),
     inl (OperationalError "too many SQL variables")).
Proof.
  intros Hsel Hpending Hfits. unfold bindable in Hfits.
  unfold process_kyc. unfold mbind, M_bind at 1. unfold query at 1. rewrite Hsel.
  rewrite bool_decide_eq_false_2 by (by intros []).
  unfold M_bind at 1. unfold execute at 1.
  unfold M_bind at 1. unfold fetch_documents_in.
  destruct (KYCRow.documents_submitted row) as [|x ids] eqn:E.
  { apply bool_decide_eq_false in Hfits. simpl in Hfits. lia. }
  rewrite Hfits. reflexivity.
Qed.

Lemma process_kyc_not_found (db : DB) (request_id utcnow lu lt : string) :
  select_kyc_request request_id db = None →
  process_kyc request_id utcnow lu lt db
  = (db, inl (ValueError ("KYC request " +:+ request_id +:+ " not found"))).
Proof. intros Hsel. unfold process_kyc. unfold_M. by rewrite Hsel. Qed.

Lemma process_kyc_not_pending (db : DB) (request_id utcnow lu lt : string)
    (row : KYCRow.t) :
  select_kyc_request request_id db = Some row →
  KYCRow.status row ≠ value PENDING →
  process_kyc request_id utcnow lu lt db
  = (db, inl (ValueError ("KYC request " +:+ request_id
                          +:+ " is not in pending state"))).
Proof.
  intros Hsel Hst. unfold process_kyc. unfold_M. rewrite Hsel.
  by rewrite bool_decide_eq_true_2.
Qed.

Lemma generate_identity_report_state (identity_id : string) (db : DB) :
  (generate_identity_report identity_id db).1 = db.
Proof.
  unfold generate_identity_report, check_verification_level. unfold_M.
  destruct (select_identity identity_id db); reflexivity.
Qed.

(** ** The effect of one call on each table *)

Ltac unfold_ops :=
  unfold step, exec, effect, create_identity, submit_document, verify_document,
    initiate_kyc, revoke_identity, suspend_identity, reactivate_identity,
    expire_old_identities, check_verification_level, get_documents,
    get_kyc_history, get_audit_trail, list_identities, search_identity,
    identity_stats in *.

Ltac crunch_call :=
  unfold_ops; unfold_M; simpl; repeat case_match; simplify_eq/=; try done.

Lemma step_process_kyc (db : DB) (request_id utcnow lu lt : string) :
  step (Process_kyc request_id utcnow lu lt) db
  = (process_kyc request_id utcnow lu lt db).1.
Proof.
  unfold step, exec, effect.
  by destruct (process_kyc request_id utcnow lu lt db) as [db' [e|req]].
Qed.

Lemma step_generate_identity_report (db : DB) (identity_id : string) :
  step (Generate_identity_report identity_id) db = db.
Proof.
  unfold step, exec, effect.
  pose proof (generate_identity_report_state identity_id db) as H.
  by destruct (generate_identity_report identity_id db) as [db' [e|r]].
Qed.

Lemma update_no_match {A} (p : A → bool) (f : A → A) (l : list A) :
  List.find p l = None → (λ x, if p x then f x else x) <$> l = l.
Proof.
  induction l as [|x l IH]; [done|]. intros H. simpl in H.
  rewrite fmap_cons. destruct (p x); [done|]. f_equal. auto.
Qed.

Lemma step_identities (c : call) (db : DB) :
  identities (step c db) =
  match c with
  | Create_identity name email bio uuid4 issued_at expires_at _ _ =>
      if bool_decide (uuid4 ∈ IdentityRow.identity_id <$> identities db)
         || bool_decide (email ∈ IdentityRow.holder_email <$> identities db)
      then identities db
      else identities db ++
           [IdentityRow.mk uuid4 name email (sha256_hexdigest <$> nonempty bio)
              "unverified" "active" issued_at expires_at]
  | Revoke_identity i _ _ _ =>
      (λ r, if id_is i r then IdentityRow.set_status "revoked" r else r)
        <$> identities db
  | Suspend_identity i _ _ _ =>
      (λ r, if id_is i r then IdentityRow.set_status "suspended" r else r)
        <$> identities db
  | Reactivate_identity i _ _ =>
      match select_identity i db with
      | Some row =>
          if bool_decide (IdentityRow.status row = "suspended") then
            (λ r, if id_is i r then IdentityRow.set_status "active" r else r)
              <$> identities db
          else identities db
      | None => identities db
      end
  | Expire_old_identities now =>
      (λ r, if String.ltb (IdentityRow.expires_at r) now
               && bool_decide (IdentityRow.status r = "active")
            then IdentityRow.set_status "expired" r else r) <$> identities db
  | Process_kyc request_id _ _ _ =>
      match select_kyc_request request_id db with
      | Some row =>
          if bool_decide (KYCRow.status row = "pending") && bindable row
             && kyc_decision row db then
            (λ r, if id_is (KYCRow.identity_id row) r
                  then IdentityRow.set_verification_level (KYCRow.requested_level row) r
                  else r) <$> identities db
          else identities db
      | None => identities db
      end
  | _ => identities db
  end.
Proof.
  destruct c; rewrite ?step_generate_identity_report, ?step_process_kyc;
    try reflexivity; try (crunch_call; fail).
  - destruct (select_kyc_request request_id db) as [row|] eqn:Hsel.
    + case_bool_decide as Hst.
      * destruct (bindable row) eqn:Hfits.
        -- destruct (process_kyc_pending db request_id utcnow log_uuid4 log_utcnow
                       row Hsel Hst Hfits) as (log & res & -> & _). done.
        -- by rewrite (process_kyc_too_many _ _ _ _ _ row).
      * by rewrite (process_kyc_not_pending _ _ _ _ _ row).
    + by rewrite process_kyc_not_found.
  - unfold step, exec, effect, revoke_identity. unfold_M.
    destruct (select_identity identity_id db) eqn:Hsel; simpl.
    + by case_bool_decide.
    + symmetry. by apply update_no_match.
  - unfold step, exec, effect, suspend_identity. unfold_M.
    destruct (select_identity identity_id db) eqn:Hsel; simpl.
    + by case_bool_decide.
    + symmetry. by apply update_no_match.
  - unfold step, exec, effect, reactivate_identity. unfold_M.
    destruct (select_identity identity_id db) eqn:Hsel; simpl; [|done].
    repeat case_bool_decide; simpl; done.
Qed.

Lemma step_documents (c : call) (db : DB) :
  documents (step c db) =
  match c with
  | Submit_document i t number country expiry uuid4 _ _ =>
      match select_identity i db with
      | Some _ =>
          if bool_decide (uuid4 ∈ DocumentRow.doc_id <$> documents db)
          then documents db
          else documents db ++
               [DocumentRow.mk uuid4 i (stored t) number country expiry 0 None]
      | None => documents db
      end
  | Verify_document i doc_id now _ _ =>
      match select_document doc_id i db with
      | Some _ =>
          (λ d, if bool_decide (DocumentRow.doc_id d = doc_id)
                then DocumentRow.set_verified 1 (Some now) d else d)
            <$> documents db
      | None => documents db
      end
  | _ => documents db
  end.
Proof.
  destruct c; rewrite ?step_generate_identity_report, ?step_process_kyc;
    try reflexivity; try (crunch_call; fail).
  destruct (select_kyc_request request_id db) as [row|] eqn:Hsel.
  - destruct (decide (KYCRow.status row = value PENDING)) as [Hst|Hst].
    + destruct (bindable row) eqn:Hfits.
      * destruct (process_kyc_pending db request_id utcnow log_uuid4 log_utcnow
                    row Hsel Hst Hfits) as (log & res & -> & _). done.
      * by rewrite (process_kyc_too_many _ _ _ _ _ row).
    + by rewrite (process_kyc_not_pending _ _ _ _ _ row).
  - by rewrite process_kyc_not_found.
Qed.

Lemma step_kyc_requests (c : call) (db : DB) :
  kyc_requests (step c db) =
  match c with
  | Initiate_kyc i level uuid4 created_at _ _ =>
      match select_identity i db with
      | Some _ =>
          if bool_decide (uuid4 ∈ KYCRow.request_id <$> kyc_requests db)
          then kyc_requests db
          else kyc_requests db ++
               [KYCRow.mk uuid4 i (stored level) (select_verified_doc_ids i db)
                  "pending" "" None created_at]
      | None => kyc_requests db
      end
  | Process_kyc request_id now _ _ =>
      match select_kyc_request request_id db with
      | Some row =>
          if bool_decide (KYCRow.status row = "pending") then
            (λ k, if bool_decide (KYCRow.request_id k = request_id)
                  then
                    if bindable row then
                      KYCRow.set_outcome
                        (if kyc_decision row db then "approved" else "rejected")
                        (if kyc_decision row db
                         then "All documents verified and requirements met."
                         else "Insufficient verified documents or requirements not met.")
                        (Some now) k
                    else KYCRow.set_status_processed "processing" (Some now) k
                  else k) <$> kyc_requests db
          else kyc_requests db
      | None => kyc_requests db
      end
  | _ => kyc_requests db
  end.
Proof.
  destruct c; rewrite ?step_generate_identity_report, ?step_process_kyc;
    try reflexivity; try (crunch_call; fail).
  destruct (select_kyc_request request_id db) as [row|] eqn:Hsel.
  - case_bool_decide as Hst.
    + destruct (bindable row) eqn:Hfits.
      * destruct (process_kyc_pending db request_id utcnow log_uuid4 log_utcnow
                    row Hsel Hst Hfits) as (log & res & -> & _). done.
      * by rewrite (process_kyc_too_many _ _ _ _ _ row).
    + by rewrite (process_kyc_not_pending _ _ _ _ _ row).
  - by rewrite process_kyc_not_found.
Qed.

Lemma step_audit_log (c : call) (db : DB) :
  audit_log (step c db) = audit_log db
  ∨ ∃ a, audit_log (step c db) = audit_log db ++ [a].
Proof.
  destruct c; rewrite ?step_generate_identity_report, ?step_process_kyc;
    try (by left); try (crunch_call; eauto; fail).
  destruct (select_kyc_request request_id db) as [row|] eqn:Hsel.
  - destruct (decide (KYCRow.status row = value PENDING)) as [Hst|Hst].
    + destruct (bindable row) eqn:Hfits.
      * destruct (process_kyc_pending db request_id utcnow log_uuid4 log_utcnow
                    row Hsel Hst Hfits) as (log & res & -> & [[-> _]| ->] & _);
          simpl; eauto.
      * rewrite (process_kyc_too_many _ _ _ _ _ row); auto.
    + rewrite (process_kyc_not_pending _ _ _ _ _ row); auto.
  - rewrite process_kyc_not_found; auto.
Qed.

(** ** Looking a row up after a call *)

Lemma find_app_Some {A} (p : A → bool) (l l' : list A) (x : A) :
  List.find p l = Some x → List.find p (l ++ l') = Some x.
Proof.
  induction l as [|y l IH]; [done|]. simpl. destruct (p y); auto.
Qed.

Lemma find_fmap_preserved {A} (p : A → bool) (f : A → A) (l : list A) :
  (∀ x, p (f x) = p x) → List.find p (f <$> l) = f <$> List.find p l.
Proof.
  intros Hp. induction l as [|x l IH]; [done|]. rewrite fmap_cons. simpl.
  rewrite Hp. destruct (p x); auto.
Qed.

Lemma select_kyc_request_processed (db : DB) (request_id utcnow lu lt : string)
    (row : KYCRow.t) :
  select_kyc_request request_id db = Some row →
  KYCRow.status row = value PENDING →
  select_kyc_request request_id (process_kyc request_id utcnow lu lt db).1
  = Some (if bindable row then
            KYCRow.set_outcome
              (if kyc_decision row db then value APPROVED else value REJECTED)
              (if kyc_decision row db
               then "All documents verified and requirements met."
               else "Insufficient verified documents or requirements not met.")
              (Some utcnow) row
          else KYCRow.set_status_processed "processing" (Some utcnow) row).
Proof.
  intros Hsel Hst. destruct (bindable row) eqn:Hfits.
  - destruct (process_kyc_pending db request_id utcnow lu lt row Hsel Hst Hfits)
      as (log & res & -> & _).
    unfold select_kyc_request in *. simpl.
    rewrite find_fmap_update by done. by rewrite Hsel.
  - rewrite (process_kyc_too_many _ _ _ _ _ row) by done.
    unfold select_kyc_request in *. simpl.
    rewrite find_fmap_update by done. by rewrite Hsel.
Qed.

Lemma kyc_decision_true (row : KYCRow.t) (db : DB) :
  kyc_decision row db = true →
  KYCRow.documents_submitted row ≠ []
  ∧ select_documents_in (KYCRow.documents_submitted row) db ≠ []
  ∧ (∀ d, d ∈ documents db →
          DocumentRow.doc_id d ∈ KYCRow.documents_submitted row →
          truthy (DocumentRow.verified d) = true)
  ∧ _check_doc_requirements (KYCRow.requested_level row)
      (select_documents_in (KYCRow.documents_submitted row) db) = true.
Proof.
  unfold kyc_decision. rewrite !andb_true_iff, bool_decide_eq_true.
  intros [[Hlen Hall] Hmeets].
  assert (select_documents_in (KYCRow.documents_submitted row) db ≠ []) as Hne.
  { intros E. rewrite E in Hlen. simpl in Hlen. lia. }
  repeat split; [|done| |done].
  - intros E. rewrite E, select_documents_in_nil in Hne. done.
  - intros d Hd Hin. rewrite forallb_forall in Hall. apply Hall.
    apply list_elem_of_In, list_elem_of_filter. done.
Qed.

Lemma kyc_decision_unverified (row : KYCRow.t) (db : DB) :
  (∀ d, d ∈ documents db →
        DocumentRow.doc_id d ∈ KYCRow.documents_submitted row →
        truthy (DocumentRow.verified d) = false) →
  kyc_decision row db = false.
Proof.
  intros Hnone. destruct (kyc_decision row db) eqn:Hok; [|done].
  apply kyc_decision_true in Hok as (_ & Hne & Hall & _).
  destruct (select_documents_in (KYCRow.documents_submitted row) db)
    as [|d docs] eqn:E; [done|].
  assert (d ∈ select_documents_in (KYCRow.documents_submitted row) db) as Hd
    by (rewrite E; left).
  apply list_elem_of_filter in Hd as [Hin Hd].
  specialize (Hall d Hd Hin). rewrite (Hnone d Hd Hin) in Hall. done.
Qed.

(** C3. Processing a pending request stamps the request row with the
    processing time.  When the outcome is APPROVED the request gets that
    status and its notes, every identity row of the request's identity gets
    the requested level as its verification level, and no other field and no
    other row of the identities table changes; when it is REJECTED the
    request gets that status and its notes and the identities table is left
    as it was.  A request returned to the caller carries the same outcome.
    There is no outcome only when the snapshot has more ids than one
    statement can bind: the SELECT raises and the request stays PROCESSING. *)
Theorem process_kyc_outcome_effects
    (db : DB) (request_id utcnow lu lt : string) (row : KYCRow.t) :
  select_kyc_request request_id db = Some row →
  KYCRow.status row = "pending" →
  ∃ db' res row',
    process_kyc request_id utcnow lu lt db = (db', res)
    ∧ select_kyc_request request_id db' = Some row'
    ∧ KYCRow.processed_at row' = Some utcnow
    ∧ ((KYCRow.status row' = "approved"
        ∧ KYCRow.notes row' = "All documents verified and requirements met."
        ∧ length (identities db') = length (identities db)
        ∧ ∀ n r, identities db !! n = Some r →
            identities db' !! n =
              Some (if bool_decide (IdentityRow.identity_id r = KYCRow.identity_id row)
                    then IdentityRow.mk (IdentityRow.identity_id r)
                           (IdentityRow.holder_name r) (IdentityRow.holder_email r)
                           (IdentityRow.biometric_hash r)
                           (KYCRow.requested_level row)
                           (IdentityRow.status r) (IdentityRow.issued_at r)
                           (IdentityRow.expires_at r)
                    else r))
       ∨ (KYCRow.status row' = "rejected"
          ∧ KYCRow.notes row'
            = "Insufficient verified documents or requirements not met."
          ∧ identities db' = identities db)
       ∨ (SQLITE_MAX_VARIABLE_NUMBER < length (KYCRow.documents_submitted row)
          ∧ res = inl (OperationalError "too many SQL variables")
          ∧ KYCRow.status row' = "processing"
          ∧ KYCRow.notes row' = KYCRow.notes row
          ∧ identities db' = identities db))
    ∧ ∀ req, res = inr req →
        value (KYCRequest.status req) = KYCRow.status row'
        ∧ KYCRequest.notes req = KYCRow.notes row'
        ∧ KYCRequest.processed_at req = Some utcnow.
Proof.
  intros Hsel Hst.
  pose proof (select_kyc_request_processed db request_id utcnow lu lt row Hsel Hst)
    as Hrow.
  destruct (bindable row) eqn:Hfits.
  - destruct (process_kyc_pending db request_id utcnow lu lt row Hsel Hst Hfits)
      as (log & res & Hrun & _ & Hres).
    rewrite Hrun in Hrow. rewrite Hrun.
    eexists _, res, _. split; [reflexivity|]. split; [exact Hrow|].
    split; [reflexivity|]. split; [|exact Hres].
    simpl. destruct (kyc_decision row db); [left|right; left]; [|done].
    split; [done|]. split; [done|]. split; [by rewrite length_fmap|].
    intros n r Hn. rewrite list_lookup_fmap, Hn. simpl. unfold id_is.
    by destruct r.
  - rewrite (process_kyc_too_many _ _ _ _ _ row) in Hrow |- * by done.
    eexists _, _, _. split; [reflexivity|]. split; [exact Hrow|].
    split; [reflexivity|]. split; [|intros req [=]].
    right; right. unfold bindable in Hfits. apply bool_decide_eq_false in Hfits.
    repeat split; try done. lia.
Qed.

Lemma select_kyc_request_id (db : DB) (request_id : string) (row : KYCRow.t) :
  select_kyc_request request_id db = Some row → KYCRow.request_id row = request_id.
Proof.
  intros H. apply find_some in H as [_ H]. by apply bool_decide_eq_true in H.
Qed.

(** A request that is no longer pending is not touched by any call. *)
Lemma select_kyc_request_step_settled (c : call) (db : DB) (request_id : string)
    (row : KYCRow.t) :
  select_kyc_request request_id db = Some row →
  KYCRow.status row ≠ "pending" →
  select_kyc_request request_id (step c db) = Some row.
Proof.
  intros Hsel Hst.
  change (List.find (λ k, bool_decide (KYCRow.request_id k = request_id))
            (kyc_requests (step c db)) = Some row).
  rewrite step_kyc_requests. destruct c; try exact Hsel.
  - destruct (select_identity identity_id db); [|exact Hsel].
    case_bool_decide; [exact Hsel|]. by apply find_app_Some.
  - destruct (select_kyc_request request_id0 db) as [row2|] eqn:Hsel2; [|exact Hsel].
    case_bool_decide as Hst2; [|exact Hsel].
    rewrite find_fmap_preserved.
    + unfold select_kyc_request in Hsel. rewrite Hsel. simpl.
      case_bool_decide as Hid; [|done].
      exfalso. apply Hst.
      assert (request_id = request_id0) as <-.
      { rewrite <- Hid. symmetry. by eapply select_kyc_request_id. }
      unfold select_kyc_request in *. congruence.
    + intros k. destruct (bool_decide (KYCRow.request_id k = request_id0));
        [destruct (bindable row2)|]; done.
Qed.

Lemma select_kyc_request_run_settled (cs : list call) (db : DB) (request_id : string)
    (row : KYCRow.t) :
  select_kyc_request request_id db = Some row →
  KYCRow.status row ≠ "pending" →
  select_kyc_request request_id (run cs db) = Some row.
Proof.
  revert db. induction cs as [|c cs IH]; intros db Hsel Hst; [done|].
  simpl. apply IH; [|done]. by apply select_kyc_request_step_settled.
Qed.

(** C4. Processing a request that is not pending raises the invalid-state
    error and leaves the whole database as it was; such a request stays as
    it is through every later call, and a pending request stops being
    pending the first time it is processed, so no request is evaluated
    twice. *)
Theorem process_kyc_at_most_once (db : DB) (request_id : string) (row : KYCRow.t) :
  select_kyc_request request_id db = Some row →
  (KYCRow.status row ≠ "pending" →
     (∀ utcnow lu lt,
        process_kyc request_id utcnow lu lt db
        = (db, inl (ValueError ("KYC request " +:+ request_id
                                +:+ " is not in pending state"))))
     ∧ ∀ cs, select_kyc_request request_id (run cs db) = Some row)
  ∧ (KYCRow.status row = "pending" →
     ∀ utcnow lu lt, ∃ row',
       select_kyc_request request_id (process_kyc request_id utcnow lu lt db).1
         = Some row'
       ∧ KYCRow.status row' ≠ "pending").
Proof.
  intros Hsel. split.
  - intros Hst. split.
    + intros utcnow lu lt. by apply process_kyc_not_pending with (row := row).
    + intros cs. by apply select_kyc_request_run_settled.
  - intros Hst utcnow lu lt. eexists. split.
    + by apply select_kyc_request_processed.
    + destruct (bindable row); simpl; [|done]. by destruct (kyc_decision row db).
Qed.

(** ** Revoking and reactivating *)

Lemma select_identity_updated (db : DB) (i : string) (set : IdentityRow.t → IdentityRow.t) :
  (∀ r, IdentityRow.identity_id (set r) = IdentityRow.identity_id r) →
  List.find (id_is i) ((λ r, if id_is i r then set r else r) <$> identities db)
  = set <$> select_identity i db.
Proof.
  intros Hset. apply find_fmap_update. intros r. unfold id_is. by rewrite Hset.
Qed.

Lemma revoke_identity_found (db : DB) (i reason lu lt : string) (row : IdentityRow.t) :
  select_identity i db = Some row →
  ∃ log res,
    revoke_identity i reason lu lt db
    = (mkDB ((λ r, if id_is i r then IdentityRow.set_status "revoked" r else r)
               <$> identities db)
            (documents db) (kyc_requests db) log, res)
    ∧ IdentityRow.status <$>
        select_identity i (revoke_identity i reason lu lt db).1 = Some "revoked"
    ∧ (lu ∉ AuditRow.log_id <$> audit_log db → res = inr true).
Proof.
  intros Hsel. unfold revoke_identity. unfold_M. rewrite Hsel. simpl.
  case_bool_decide; simpl; do 2 eexists; (split; [reflexivity|]);
    unfold select_identity; simpl; rewrite select_identity_updated by done;
    rewrite Hsel; done.
Qed.

(** C9. Revoking an existing identity a second time returns normally (the
    id drawn for its audit entry being a new one) and the status is REVOKED
    after the second call as after the first; reactivating an identity whose
    status is not SUSPENDED raises the invalid-state error and changes
    nothing. *)
Theorem revoke_twice_and_reactivate_guard (db : DB) (i : string) (row : IdentityRow.t) :
  select_identity i db = Some row →
  (∀ reason1 lu1 lt1 reason2 lu2 lt2,
     let db1 := (revoke_identity i reason1 lu1 lt1 db).1 in
     lu2 ∉ AuditRow.log_id <$> audit_log db1 →
     ∃ db2,
       revoke_identity i reason2 lu2 lt2 db1 = (db2, inr true)
       ∧ IdentityRow.status <$> select_identity i db1 = Some "revoked"
       ∧ IdentityRow.status <$> select_identity i db2 = Some "revoked")
  ∧ (IdentityRow.status row ≠ "suspended" →
     ∀ lu lt,
       reactivate_identity i lu lt db
       = (db, inl (ValueError ("Identity " +:+ i +:+ " is not suspended")))).
Proof.
  intros Hsel. split.
  - intros reason1 lu1 lt1 reason2 lu2 lt2 db1 Hfresh.
    destruct (revoke_identity_found db i reason1 lu1 lt1 row Hsel)
      as (log1 & res1 & Hrun1 & Hst1 & _).
    fold db1 in Hst1.
    destruct (select_identity i db1) as [row1|] eqn:Hsel1; [|done].
    destruct (revoke_identity_found db1 i reason2 lu2 lt2 row1 Hsel1)
      as (log2 & res2 & Hrun2 & Hst2 & Hres2).
    rewrite (Hres2 Hfresh) in Hrun2. rewrite Hrun2 in Hst2 |- *.
    eexists. split; [reflexivity|]. split; [done|exact Hst2].
  - intros Hst lu lt. unfold reactivate_identity. unfold_M. rewrite Hsel.
    by rewrite bool_decide_eq_true_2.
Qed.

(** ** Identity rows across a call *)

Lemma select_identity_id (db : DB) (i : string) (r : IdentityRow.t) :
  select_identity i db = Some r → IdentityRow.identity_id r = i.
Proof.
  intros H. apply find_some in H as [_ H]. by apply bool_decide_eq_true in H.
Qed.

Lemma select_identity_fmap (db : DB) (i : string) (f : IdentityRow.t → IdentityRow.t)
    (r : IdentityRow.t) :
  (∀ x, IdentityRow.identity_id (f x) = IdentityRow.identity_id x) →
  select_identity i db = Some r →
  List.find (id_is i) (f <$> identities db) = Some (f r).
Proof.
  intros Hf Hsel. rewrite find_fmap_preserved.
  - fold (select_identity i db). by rewrite Hsel.
  - intros x. unfold id_is. by rewrite Hf.
Qed.

(** C6, as the code has it.  A call changes the verification level of an
    identity only when it is [process_kyc] on a pending request of that
    identity that gets approved, and the level then becomes the requested
    one, whatever the level was before. *)
Theorem verification_level_changes_only_by_approval
    (c : call) (db : DB) (i : string) (r : IdentityRow.t) :
  select_identity i db = Some r →
  ∃ r',
    select_identity i (step c db) = Some r'
    ∧ (IdentityRow.verification_level r' = IdentityRow.verification_level r
       ∨ ∃ request_id utcnow lu lt row,
           c = Process_kyc request_id utcnow lu lt
           ∧ select_kyc_request request_id db = Some row
           ∧ KYCRow.status row = "pending"
           ∧ KYCRow.identity_id row = i
           ∧ KYCRow.status <$> select_kyc_request request_id (step c db)
             = Some "approved"
           ∧ IdentityRow.verification_level r' = KYCRow.requested_level row).
Proof.
  intros Hsel.
  unfold select_identity at 1. rewrite step_identities.
  destruct c; try (exists r; split; [exact Hsel|by left]).
  - (* create_identity *)
    exists r. split; [|by left].
    destruct (_ || _); [exact Hsel|]. by apply find_app_Some.
  - (* process_kyc *)
    destruct (select_kyc_request request_id db) as [row|] eqn:Hreq;
      [|exists r; split; [exact Hsel|by left]].
    destruct (bool_decide (KYCRow.status row = "pending")) eqn:Hst; simpl;
      [|exists r; split; [exact Hsel|by left]].
    apply bool_decide_eq_true in Hst.
    destruct (bindable row) eqn:Hfits; simpl;
      [|exists r; split; [exact Hsel|by left]].
    destruct (kyc_decision row db) eqn:Hok;
      [|exists r; split; [exact Hsel|by left]].
    eexists. split.
    { apply select_identity_fmap; [|exact Hsel]. intros x. by destruct (id_is _ x). }
    simpl. destruct (id_is (KYCRow.identity_id row) r) eqn:Hid; [|by left].
    right. exists request_id, utcnow, log_uuid4, log_utcnow, row.
    repeat split; try done.
    + apply bool_decide_eq_true in Hid. rewrite <- Hid.
      by apply select_identity_id with (db := db).
    + rewrite step_process_kyc.
      rewrite (select_kyc_request_processed _ _ _ _ _ row) by done.
      rewrite Hfits. simpl. by rewrite Hok.
  - (* revoke_identity *)
    eexists. split.
    { apply select_identity_fmap; [|exact Hsel]. intros x. by destruct (id_is _ x). }
    left. simpl. by destruct (id_is _ r).
  - (* expire_old_identities *)
    eexists. split.
    { apply select_identity_fmap; [|exact Hsel]. intros x. by destruct (_ && _). }
    left. simpl. by destruct (_ && _).
  - (* suspend_identity *)
    eexists. split.
    { apply select_identity_fmap; [|exact Hsel]. intros x. by destruct (id_is _ x). }
    left. simpl. by destruct (id_is _ r).
  - (* reactivate_identity *)
    destruct (select_identity identity_id db) as [row|];
      [|exists r; split; [exact Hsel|by left]].
    case_bool_decide; [|exists r; split; [exact Hsel|by left]].
    eexists. split.
    { apply select_identity_fmap; [|exact Hsel]. intros x. by destruct (id_is _ x). }
    left. simpl. by destruct (id_is _ r).
Qed.

(** ** The status of a revoked or expired identity *)

Lemma terminal_status_step (c : call) (db : DB) (i : string) (r : IdentityRow.t) :
  select_identity i db = Some r →
  IdentityRow.status r = "revoked" ∨ IdentityRow.status r = "expired" →
  suspends i c = false →
  ∃ r',
    select_identity i (step c db) = Some r'
    ∧ (IdentityRow.status r' = IdentityRow.status r
       ∨ (IdentityRow.status r' = "revoked"
          ∧ ∃ reason lu lt, c = Revoke_identity i reason lu lt)).
Proof.
  intros Hsel Hterm Hc.
  pose proof (select_identity_id db i r Hsel) as Hid.
  unfold select_identity at 1. rewrite step_identities.
  destruct c; try (exists r; split; [exact Hsel|by left]).
  - exists r. split; [|by left].
    destruct (_ || _); [exact Hsel|]. by apply find_app_Some.
  - destruct (select_kyc_request request_id db) as [row|];
      [|exists r; split; [exact Hsel|by left]].
    destruct (_ && _); [|exists r; split; [exact Hsel|by left]].
    eexists. split.
    { apply select_identity_fmap; [|exact Hsel]. intros x. by destruct (id_is _ x). }
    left. simpl. by destruct (id_is _ r).
  - eexists. split.
    { apply select_identity_fmap; [|exact Hsel]. intros x. by destruct (id_is _ x). }
    simpl. destruct (id_is identity_id r) eqn:E; [|by left].
    apply bool_decide_eq_true in E. right. split; [done|].
    exists reason, log_uuid4, log_utcnow. congruence.
  - eexists. split.
    { apply select_identity_fmap; [|exact Hsel]. intros x. by destruct (_ && _). }
    left. simpl.
    rewrite (bool_decide_eq_false_2 (IdentityRow.status r = "active"))
      by (destruct Hterm as [-> | ->]; done).
    by rewrite andb_false_r.
  - simpl in Hc. apply bool_decide_eq_false in Hc.
    eexists. split.
    { apply select_identity_fmap; [|exact Hsel]. intros x. by destruct (id_is _ x). }
    left. simpl. unfold id_is. rewrite bool_decide_eq_false_2; [done|congruence].
  - destruct (select_identity identity_id db) as [row|] eqn:Hsel';
      [|exists r; split; [exact Hsel|by left]].
    case_bool_decide as Hst; [|exists r; split; [exact Hsel|by left]].
    eexists. split.
    { apply select_identity_fmap; [|exact Hsel]. intros x. by destruct (id_is _ x). }
    left. simpl. destruct (id_is identity_id r) eqn:E; [|done].
    apply bool_decide_eq_true in E. exfalso.
    assert (identity_id = i) as -> by congruence.
    assert (row = r) as -> by congruence.
    destruct Hterm as [Ht|Ht]; rewrite Ht in Hst; done.
Qed.

(** C7, as the code has it.  Through any sequence of calls that does not
    suspend it, an identity that is REVOKED or EXPIRED keeps its status,
    except that [revoke_identity] makes an EXPIRED identity REVOKED. *)
Theorem revoked_or_expired_without_suspend
    (cs : list call) (db : DB) (i : string) (r : IdentityRow.t) :
  select_identity i db = Some r →
  IdentityRow.status r = "revoked" ∨ IdentityRow.status r = "expired" →
  Forall (λ c, suspends i c = false) cs →
  ∃ r',
    select_identity i (run cs db) = Some r'
    ∧ (IdentityRow.status r' = IdentityRow.status r
       ∨ (IdentityRow.status r' = "revoked"
          ∧ ∃ reason lu lt, Revoke_identity i reason lu lt ∈ cs)).
Proof.
  intros Hsel Hterm Hcs. revert db r Hsel Hterm.
  induction Hcs as [|c cs Hc Hcs IH]; intros db r Hsel Hterm.
  - exists r. split; [exact Hsel|by left].
  - destruct (terminal_status_step c db i r Hsel Hterm Hc)
      as (r1 & Hsel1 & Hst1).
    assert (IdentityRow.status r1 = "revoked" ∨ IdentityRow.status r1 = "expired")
      as Hterm1.
    { destruct Hst1 as [->|[-> _]]; [exact Hterm|by left]. }
    destruct (IH (step c db) r1 Hsel1 Hterm1) as (r' & Hsel' & Hst').
    exists r'. split; [exact Hsel'|].
    destruct Hst' as [Hsame|[Hrev (reason & lu & lt & Hin)]].
    + rewrite Hsame. destruct Hst1 as [->|[-> (reason & lu & lt & ->)]]; [by left|].
      right. split; [done|]. exists reason, lu, lt. left.
    + right. split; [done|]. exists reason, lu, lt. by right.
Qed.

(** ** Snapshots *)

Lemma run_snoc (cs : list call) (c : call) (db : DB) :
  run (cs ++ [c]) db = step c (run cs db).
Proof. unfold run. by rewrite foldl_app. Qed.

Lemma run_app (cs cs' : list call) (db : DB) :
  run (cs ++ cs') db = run cs' (run cs db).
Proof. unfold run. by rewrite foldl_app. Qed.

Lemma doc_ids_step (c : call) (db : DB) :
  NoDup (DocumentRow.doc_id <$> documents db) →
  NoDup (DocumentRow.doc_id <$> documents (step c db)).
Proof.
  intros Hnd. rewrite step_documents. destruct c; try exact Hnd.
  - destruct (select_identity identity_id db); [|exact Hnd].
    case_bool_decide as Hfresh; [exact Hnd|].
    rewrite fmap_app. apply NoDup_app. split; [exact Hnd|]. split.
    + intros x Hx ->%list_elem_of_singleton. done.
    + apply NoDup_singleton.
  - destruct (select_document doc_id identity_id db); [|exact Hnd].
    rewrite <- list_fmap_compose.
    erewrite list_fmap_ext; [exact Hnd|].
    intros _ d _. simpl. by case_bool_decide.
Qed.

Lemma snapshot_verified_step (c : call) (db : DB) (ids : list string) :
  snapshot_verified ids db → snapshot_verified ids (step c db).
Proof.
  intros [Hex Hver]. unfold snapshot_verified. rewrite step_documents.
  destruct c; try (split; [exact Hex|exact Hver]).
  - destruct (select_identity identity_id db); [|split; [exact Hex|exact Hver]].
    case_bool_decide as Hfresh; [split; [exact Hex|exact Hver]|].
    split.
    + intros x Hx. destruct (Hex x Hx) as (d & Hd & Hid).
      exists d. split; [|done]. apply elem_of_app. by left.
    + intros d [Hd|Hd]%elem_of_app Hin; [by apply Hver|].
      apply list_elem_of_singleton in Hd as ->. simpl in Hin.
      destruct (Hex _ Hin) as (d' & Hd' & Hid'). exfalso. apply Hfresh.
      rewrite <- Hid'. by apply list_elem_of_fmap_2.
  - destruct (select_document doc_id identity_id db); [|split; [exact Hex|exact Hver]].
    split.
    + intros x Hx. destruct (Hex x Hx) as (d & Hd & Hid).
      eexists. split; [by apply list_elem_of_fmap_2|].
      by case_bool_decide.
    + intros d' (d & -> & Hd)%list_elem_of_fmap Hin.
      case_bool_decide; [done|]. by apply Hver.
Qed.

Lemma select_verified_doc_ids_spec (i x : string) (db : DB) :
  x ∈ select_verified_doc_ids i db ↔
  ∃ d, d ∈ documents db ∧ DocumentRow.doc_id d = x
       ∧ DocumentRow.identity_id d = i ∧ DocumentRow.verified d = 1%Z.
Proof.
  unfold select_verified_doc_ids. rewrite list_elem_of_fmap. split.
  - intros (d & -> & Hd). apply list_elem_of_filter in Hd as [[Hi Hv] Hd].
    by exists d.
  - intros (d & Hd & <- & Hi & Hv). exists d. split; [done|].
    by apply list_elem_of_filter.
Qed.

Lemma NoDup_fmap_eq {A B} (f : A → B) (l : list A) (x y : A) :
  NoDup (f <$> l) → x ∈ l → y ∈ l → f x = f y → x = y.
Proof.
  induction l as [|z l IH]; [by intros _ ?%not_elem_of_nil|].
  rewrite fmap_cons, NoDup_cons. intros [Hz Hnd] Hx Hy Hxy.
  apply elem_of_cons in Hx as [->|Hx], Hy as [->|Hy]; auto.
  - exfalso. apply Hz. rewrite Hxy. by apply list_elem_of_fmap_2.
  - exfalso. apply Hz. rewrite <- Hxy. by apply list_elem_of_fmap_2.
Qed.

Lemma snapshot_verified_new (i : string) (db : DB) :
  NoDup (DocumentRow.doc_id <$> documents db) →
  snapshot_verified (select_verified_doc_ids i db) db.
Proof.
  intros Hnd. split.
  - intros x (d & Hd & Hid & _)%select_verified_doc_ids_spec. by exists d.
  - intros d Hd (d' & Hd' & Hid & _ & Hv)%select_verified_doc_ids_spec.
    by rewrite <- (NoDup_fmap_eq DocumentRow.doc_id _ d' d Hnd Hd' Hd Hid).
Qed.

Lemma snapshot_invariant_step (c : call) (db : DB) :
  snapshot_invariant db → snapshot_invariant (step c db).
Proof.
  intros [Hnd Hsnap]. split; [by apply doc_ids_step|].
  intros k Hk. apply snapshot_verified_step.
  rewrite step_kyc_requests in Hk. destruct c; try by apply Hsnap.
  - destruct (select_identity identity_id db); [|by apply Hsnap].
    case_bool_decide; [by apply Hsnap|].
    apply elem_of_app in Hk as [Hk|Hk]; [by apply Hsnap|].
    apply list_elem_of_singleton in Hk as ->. simpl.
    by apply snapshot_verified_new.
  - destruct (select_kyc_request request_id db) as [row|]; [|by apply Hsnap].
    case_bool_decide; [|by apply Hsnap].
    apply list_elem_of_fmap in Hk as (k0 & -> & Hk0).
    case_bool_decide; [destruct (bindable row)|]; simpl; by apply Hsnap.
Qed.

Lemma snapshot_invariant_run (cs : list call) (db : DB) :
  snapshot_invariant db → snapshot_invariant (run cs db).
Proof.
  revert db. induction cs as [|c cs IH]; intros db Hinv; [done|].
  simpl. by apply IH, snapshot_invariant_step.
Qed.

Lemma snapshot_invariant_reachable (db : DB) :
  reachable db → snapshot_invariant db.
Proof.
  intros [cs ->]. apply snapshot_invariant_run.
  split; [apply NoDup_nil_2|]. by intros k ?%not_elem_of_nil.
Qed.

(** ** Approval and the snapshot *)

Lemma select_kyc_request_elem (db : DB) (request_id : string) (row : KYCRow.t) :
  select_kyc_request request_id db = Some row → row ∈ kyc_requests db.
Proof. intros H. apply find_some in H as [H _]. by apply list_elem_of_In. Qed.

(** C2. A pending request is approved only if its snapshot is not empty
    and every stored document whose id is in the snapshot is verified when
    the request is processed; if none of them is verified (in particular
    if there is none) the request is rejected, whatever level it asks for.
    This holds in every state the public functions can produce, and in any
    other state as long as the snapshot has no more ids than one statement
    can bind: beyond that the SELECT raises and the request is neither
    approved nor rejected. *)
Theorem process_kyc_approves_only_verified_snapshot
    (db : DB) (request_id utcnow lu lt : string) (row : KYCRow.t) :
  select_kyc_request request_id db = Some row →
  KYCRow.status row = "pending" →
  ∃ row',
    select_kyc_request request_id (process_kyc request_id utcnow lu lt db).1
      = Some row'
    ∧ (KYCRow.status row' = "approved" ∨ KYCRow.status row' = "rejected"
       ∨ (KYCRow.status row' = "processing"
          ∧ SQLITE_MAX_VARIABLE_NUMBER < length (KYCRow.documents_submitted row)))
    ∧ (KYCRow.status row' = "approved" →
         KYCRow.documents_submitted row ≠ []
         ∧ select_documents_in (KYCRow.documents_submitted row) db ≠ []
         ∧ ∀ d, d ∈ documents db →
                DocumentRow.doc_id d ∈ KYCRow.documents_submitted row →
                truthy (DocumentRow.verified d) = true)
    ∧ ((∀ d, d ∈ documents db →
             DocumentRow.doc_id d ∈ KYCRow.documents_submitted row →
             truthy (DocumentRow.verified d) = false) →
         reachable db
         ∨ length (KYCRow.documents_submitted row) ≤ SQLITE_MAX_VARIABLE_NUMBER →
         KYCRow.status row' = "rejected").
Proof.
  intros Hsel Hst. eexists. split.
  { by apply select_kyc_request_processed. }
  destruct (bindable row) eqn:Hfits; simpl.
  - destruct (kyc_decision row db) eqn:Hok.
    + destruct (kyc_decision_true _ _ Hok) as (Hids & Hdocs & Hall & _).
      split; [by left|]. split; [done|].
      intros Hnone _. apply kyc_decision_unverified in Hnone. congruence.
    + split; [by right; left|]. split; [intros [=]|done].
  - unfold bindable in Hfits. apply bool_decide_eq_false in Hfits.
    split; [right; right; split; [done|lia]|]. split; [intros [=]|].
    intros Hnone [Hreach|Hle]; [exfalso|lia].
    apply snapshot_invariant_reachable in Hreach as [_ Hsnap].
    destruct (Hsnap row (select_kyc_request_elem _ _ _ Hsel)) as [Hex Hver].
    destruct (KYCRow.documents_submitted row) as [|x ids] eqn:E.
    { simpl in Hfits. lia. }
    destruct (Hex x) as (d & Hd & Hx); [left|].
    assert (DocumentRow.doc_id d ∈ x :: ids) as Hin by (rewrite Hx; left).
    specialize (Hnone d Hd Hin). rewrite (Hver d Hd Hin) in Hnone. done.
Qed.

Lemma filter_fmap_preserved {A} (P : A → Prop) `{∀ x, Decision (P x)}
    (f : A → A) (l : list A) :
  (∀ x, P (f x) ↔ P x) → filter P (f <$> l) = f <$> filter P l.
Proof.
  intros HP. induction l as [|x l IH]; [done|].
  rewrite fmap_cons, !filter_cons.
  destruct (decide (P x)) as [Hx|Hx], (decide (P (f x))) as [Hfx|Hfx].
  - by rewrite fmap_cons, IH.
  - exfalso. by apply Hfx, HP.
  - exfalso. by apply Hx, HP.
  - done.
Qed.

Lemma forallb_fmap {A B} (f : A → B) (p : B → bool) (l : list A) :
  forallb p (f <$> l) = forallb (λ x, p (f x)) l.
Proof. induction l as [|x l IH]; [done|]. rewrite fmap_cons. simpl. by rewrite IH. Qed.

(** The documents a snapshot selects keep their ids, types and verified
    flags through every call. *)
Lemma judged_documents_step (c : call) (db : DB) (ids : list string) :
  snapshot_verified ids db →
  DocumentRow.doc_id <$> select_documents_in ids (step c db)
    = DocumentRow.doc_id <$> select_documents_in ids db
  ∧ DocumentRow.doc_type <$> select_documents_in ids (step c db)
    = DocumentRow.doc_type <$> select_documents_in ids db
  ∧ DocumentRow.verified <$> select_documents_in ids (step c db)
    = DocumentRow.verified <$> select_documents_in ids db.
Proof.
  intros [Hex Hver]. unfold select_documents_in. rewrite step_documents.
  destruct c; try done.
  - destruct (select_identity identity_id db); [|done].
    case_bool_decide as Hfresh; [done|].
    rewrite filter_app, filter_cons_False, filter_nil, app_nil_r; [done|].
    simpl. intros Hin. destruct (Hex _ Hin) as (d & Hd & Hid).
    apply Hfresh. rewrite <- Hid. by apply list_elem_of_fmap_2.
  - destruct (select_document doc_id identity_id db); [|done].
    rewrite filter_fmap_preserved by (intros d; by case_bool_decide).
    rewrite <- !list_fmap_compose.
    repeat split; apply list_fmap_ext; intros _ d Hd%list_elem_of_lookup_2;
      simpl; case_bool_decide; try done.
    apply list_elem_of_filter in Hd as [Hin Hd]. simpl. symmetry. by apply Hver.
Qed.

Lemma kyc_decision_documents (k k' : KYCRow.t) (db db' : DB) :
  KYCRow.requested_level k' = KYCRow.requested_level k →
  DocumentRow.doc_type <$> select_documents_in (KYCRow.documents_submitted k') db'
    = DocumentRow.doc_type <$> select_documents_in (KYCRow.documents_submitted k) db →
  DocumentRow.verified <$> select_documents_in (KYCRow.documents_submitted k') db'
    = DocumentRow.verified <$> select_documents_in (KYCRow.documents_submitted k) db →
  kyc_decision k' db' = kyc_decision k db.
Proof.
  intros Hlevel Hty Hver. unfold kyc_decision, _check_doc_requirements.
  set (docs' := select_documents_in (KYCRow.documents_submitted k') db') in *.
  set (docs := select_documents_in (KYCRow.documents_submitted k) db) in *.
  assert (length docs' = length docs) as Hlen.
  { apply (f_equal length) in Hty. by rewrite !length_fmap in Hty. }
  assert (forallb (λ d, truthy (DocumentRow.verified d)) docs'
          = forallb (λ d, truthy (DocumentRow.verified d)) docs) as Hall.
  { by rewrite <- !(forallb_fmap DocumentRow.verified truthy), Hver. }
  by rewrite Hlevel, Hlen, Hall, Hty.
Qed.

(** A stored request keeps its place in the table and everything but its
    status, notes and processing time. *)
Lemma kyc_requests_lookup_step (c : call) (db : DB) (n : nat) (k : KYCRow.t) :
  kyc_requests db !! n = Some k →
  ∃ k', kyc_requests (step c db) !! n = Some k'
        ∧ KYCRow.request_id k' = KYCRow.request_id k
        ∧ KYCRow.requested_level k' = KYCRow.requested_level k
        ∧ KYCRow.documents_submitted k' = KYCRow.documents_submitted k.
Proof.
  intros Hk. rewrite step_kyc_requests.
  destruct c; try (by exists k).
  - destruct (select_identity identity_id db); [|by exists k].
    case_bool_decide; [by exists k|].
    exists k. split; [|done]. by apply lookup_app_l_Some.
  - destruct (select_kyc_request request_id db) as [row|]; [|by exists k].
    case_bool_decide; [|by exists k].
    rewrite list_lookup_fmap, Hk. simpl. eexists. split; [done|].
    case_bool_decide; [destruct (bindable row)|]; done.
Qed.

Lemma frozen_snapshot_run (cs : list call) (db : DB) (n : nat) (k : KYCRow.t) :
  snapshot_invariant db →
  kyc_requests db !! n = Some k →
  ∃ k', kyc_requests (run cs db) !! n = Some k'
        ∧ KYCRow.request_id k' = KYCRow.request_id k
        ∧ KYCRow.documents_submitted k' = KYCRow.documents_submitted k
        ∧ DocumentRow.doc_id <$>
            select_documents_in (KYCRow.documents_submitted k') (run cs db)
          = DocumentRow.doc_id <$>
              select_documents_in (KYCRow.documents_submitted k) db
        ∧ DocumentRow.doc_type <$>
            select_documents_in (KYCRow.documents_submitted k') (run cs db)
          = DocumentRow.doc_type <$>
              select_documents_in (KYCRow.documents_submitted k) db
        ∧ DocumentRow.verified <$>
            select_documents_in (KYCRow.documents_submitted k') (run cs db)
          = DocumentRow.verified <$>
              select_documents_in (KYCRow.documents_submitted k) db
        ∧ kyc_decision k' (run cs db) = kyc_decision k db.
Proof.
  revert db k. induction cs as [|c cs IH]; intros db k Hinv Hk.
  - exists k. by repeat split.
  - destruct (kyc_requests_lookup_step c db n k Hk) as (k1 & Hk1 & Hid1 & Hl1 & Hs1).
    assert (snapshot_verified (KYCRow.documents_submitted k) db) as Hsnap.
    { destruct Hinv as [_ Hinv]. eapply Hinv, list_elem_of_lookup_2, Hk. }
    destruct (judged_documents_step c db _ Hsnap) as (Ji & Jt & Jv).
    destruct (IH (step c db) k1 (snapshot_invariant_step c db Hinv) Hk1)
      as (k' & Hk' & Hid' & Hs' & Ji' & Jt' & Jv' & Hd').
    exists k'. simpl. rewrite Hs1 in *.
    split; [done|]. split; [congruence|]. split; [congruence|].
    split; [congruence|]. split; [congruence|]. split; [congruence|].
    rewrite Hd'. apply kyc_decision_documents; [done|rewrite Hs1|rewrite Hs1]; done.
Qed.

(** Every stored request was inserted by a call of [initiate_kyc], with the
    ids that [select_verified_doc_ids] returned in the state of that call. *)
Lemma kyc_request_origin (cs : list call) (k : KYCRow.t) :
  k ∈ kyc_requests (run cs empty_db) →
  ∃ cs1 cs2 level created_at lu lt,
    cs = cs1 ++ Initiate_kyc (KYCRow.identity_id k) level (KYCRow.request_id k)
                  created_at lu lt :: cs2
    ∧ KYCRow.documents_submitted k
      = select_verified_doc_ids (KYCRow.identity_id k) (run cs1 empty_db).
Proof.
  revert k. induction cs as [|c cs IH] using rev_ind; intros k Hk.
  { by apply not_elem_of_nil in Hk. }
  assert (∀ k0, k0 ∈ kyc_requests (run cs empty_db) →
            KYCRow.identity_id k = KYCRow.identity_id k0 →
            KYCRow.request_id k = KYCRow.request_id k0 →
            KYCRow.documents_submitted k = KYCRow.documents_submitted k0 →
            ∃ cs1 cs2 level created_at lu lt,
              cs ++ [c] = cs1 ++ Initiate_kyc (KYCRow.identity_id k) level
                                   (KYCRow.request_id k) created_at lu lt :: cs2
              ∧ KYCRow.documents_submitted k
                = select_verified_doc_ids (KYCRow.identity_id k) (run cs1 empty_db))
    as Hold.
  { intros k0 Hk0 -> -> ->.
    destruct (IH k0 Hk0) as (cs1 & cs2 & level & created & lu & lt & -> & Hdocs).
    exists cs1, (cs2 ++ [c]), level, created, lu, lt.
    split; [by rewrite <- app_assoc|done]. }
  rewrite run_snoc, step_kyc_requests in Hk.
  destruct c; try (by apply (Hold k)).
  - destruct (select_identity identity_id (run cs empty_db)); [|by apply (Hold k)].
    case_bool_decide; [by apply (Hold k)|].
    apply elem_of_app in Hk as [Hk|Hk]; [by apply (Hold k)|].
    apply list_elem_of_singleton in Hk as ->. simpl.
    by exists cs, [], requested_level, created_at, log_uuid4, log_utcnow.
  - destruct (select_kyc_request request_id (run cs empty_db)) as [row|];
      [|by apply (Hold k)].
    case_bool_decide; [|by apply (Hold k)].
    apply list_elem_of_fmap in Hk as (k0 & -> & Hk0).
    apply (Hold k0 Hk0); (case_bool_decide; [destruct (bindable row)|]; done).
Qed.

(** C5. A stored request holds exactly the ids of the documents of its
    identity that were verified when [initiate_kyc] inserted it; whatever
    calls follow, the request stays at its place in the table with the same
    ids, and the documents those ids select (hence the decision
    [process_kyc] takes on them) stay the same. *)
Theorem kyc_snapshot_frozen (cs : list call) (n : nat) (k : KYCRow.t) :
  kyc_requests (run cs empty_db) !! n = Some k →
  (∃ cs1 cs2 level created_at lu lt,
     cs = cs1 ++ Initiate_kyc (KYCRow.identity_id k) level (KYCRow.request_id k)
                   created_at lu lt :: cs2
     ∧ ∀ x, x ∈ KYCRow.documents_submitted k ↔
            ∃ d, d ∈ documents (run cs1 empty_db)
                 ∧ DocumentRow.doc_id d = x
                 ∧ DocumentRow.identity_id d = KYCRow.identity_id k
                 ∧ DocumentRow.verified d = 1%Z)
  ∧ ∀ later,
      ∃ k', kyc_requests (run later (run cs empty_db)) !! n = Some k'
        ∧ KYCRow.request_id k' = KYCRow.request_id k
        ∧ KYCRow.documents_submitted k' = KYCRow.documents_submitted k
        ∧ DocumentRow.doc_id <$>
            select_documents_in (KYCRow.documents_submitted k')
              (run later (run cs empty_db))
          = DocumentRow.doc_id <$>
              select_documents_in (KYCRow.documents_submitted k) (run cs empty_db)
        ∧ DocumentRow.doc_type <$>
            select_documents_in (KYCRow.documents_submitted k')
              (run later (run cs empty_db))
          = DocumentRow.doc_type <$>
              select_documents_in (KYCRow.documents_submitted k) (run cs empty_db)
        ∧ DocumentRow.verified <$>
            select_documents_in (KYCRow.documents_submitted k')
              (run later (run cs empty_db))
          = DocumentRow.verified <$>
              select_documents_in (KYCRow.documents_submitted k) (run cs empty_db)
        ∧ kyc_decision k' (run later (run cs empty_db))
          = kyc_decision k (run cs empty_db).
Proof.
  intros Hk. split.
  - destruct (kyc_request_origin cs k) as (cs1 & cs2 & level & created & lu & lt & Hcs & Hdocs).
    { by eapply list_elem_of_lookup_2. }
    exists cs1, cs2, level, created, lu, lt. split; [exact Hcs|].
    intros x. rewrite Hdocs. apply select_verified_doc_ids_spec.
  - intros later. apply frozen_snapshot_run; [|exact Hk].
    apply snapshot_invariant_reachable. by exists cs.
Qed.

(** ** The audit log *)

Lemma audit_log_run (cs : list call) (db : DB) :
  ∃ new, audit_log (run cs db) = audit_log db ++ new ∧ length new ≤ length cs.
Proof.
  revert db. induction cs as [|c cs IH]; intros db.
  - exists []. by rewrite app_nil_r.
  - destruct (IH (step c db)) as (new & Hnew & Hlen). simpl. rewrite Hnew.
    destruct (step_audit_log c db) as [->|[a ->]].
    + exists new. split; [done|]. simpl. lia.
    + exists (a :: new). rewrite <- app_assoc. split; [done|]. simpl. lia.
Qed.

(** Each of them appends exactly one entry when it returns normally. *)
Lemma logged_call_appends_one (c : call) (db : DB) :
  logs c = true → (exec c db).2 = None →
  ∃ a, audit_log (step c db) = audit_log db ++ [a].
Proof.
  destruct c; try discriminate; intros _.
  all: try (crunch_call; eauto; fail).
  unfold step, exec, effect.
  destruct (select_kyc_request request_id db) as [row|] eqn:Hsel.
  - destruct (decide (KYCRow.status row = value PENDING)) as [Hst|Hst].
    + destruct (bindable row) eqn:Hfits.
      * destruct (process_kyc_pending db request_id utcnow log_uuid4 log_utcnow
                    row Hsel Hst Hfits) as (log & res & -> & [[-> ->]| ->] & _);
          simpl; [done|]. destruct res; eauto.
      * by rewrite (process_kyc_too_many _ _ _ _ _ row).
    + by rewrite (process_kyc_not_pending _ _ _ _ _ row).
  - by rewrite process_kyc_not_found.
Qed.

(** [expire_old_identities] never does, however many rows it updates. *)
Lemma expire_old_identities_audit_log (utcnow : string) (db : DB) :
  audit_log (expire_old_identities utcnow db).1 = audit_log db.
Proof. reflexivity. Qed.

(** * Further properties of the code *)

(** ** The decision rule *)

(** X1. Submitting more documents never turns a satisfied requirement
    into an unsatisfied one. *)
Theorem check_doc_requirements_more_documents
    (level : string) (docs more : list DocumentRow.t) :
  _check_doc_requirements level docs = true →
  _check_doc_requirements level (docs ++ more) = true.
Proof.
  unfold _check_doc_requirements. rewrite length_app.
  case_bool_decide; [rewrite !bool_decide_eq_true; lia|].
  case_bool_decide; [rewrite !bool_decide_eq_true; lia|].
  case_bool_decide; [|done].
  rewrite !andb_true_iff, !bool_decide_eq_true, !primary_meets_doc_types.
  intros [Hlen (d & Hd & Ht)]. split; [lia|].
  exists d. split; [|done]. apply elem_of_app. by left.
Qed.

(** X2. The three tiers are nested: documents that satisfy ENHANCED
    satisfy STANDARD, and documents that satisfy STANDARD satisfy BASIC. *)
Theorem check_doc_requirements_tiers (docs : list DocumentRow.t) :
  (_check_doc_requirements "enhanced" docs = true →
   _check_doc_requirements "standard" docs = true)
  ∧ (_check_doc_requirements "standard" docs = true →
     _check_doc_requirements "basic" docs = true).
Proof.
  unfold _check_doc_requirements. simpl. split.
  - rewrite andb_true_iff, !bool_decide_eq_true. intros [? _]. lia.
  - rewrite !bool_decide_eq_true. lia.
Qed.

(** ** Creating an identity *)

Lemma find_app_None {A} (p : A → bool) (l l' : list A) :
  List.find p l = None → List.find p (l ++ l') = List.find p l'.
Proof.
  induction l as [|y l IH]; [done|]. simpl. destruct (p y); [done|auto].
Qed.

Lemma select_identity_None (db : DB) (i : string) :
  select_identity i db = None ↔ i ∉ IdentityRow.identity_id <$> identities db.
Proof.
  unfold select_identity. induction (identities db) as [|r l IH].
  - split; [intros _; apply not_elem_of_nil|done].
  - rewrite fmap_cons, not_elem_of_cons. simpl. unfold id_is at 1.
    case_bool_decide as Hid.
    + split; [done|]. intros [Hne _]. by destruct Hne.
    + rewrite IH. split; [|by intros [_ ?]]. intros ?. split; [congruence|done].
Qed.

(** X3. With an id and an e-mail address that are not in use (and a new
    id for the audit entry) [create_identity] returns an UNVERIFIED, ACTIVE
    identity, appends its row and one CREATE_IDENTITY audit entry, touches
    nothing else, and the new row is what a lookup by the new id finds;
    lookups by other ids are unaffected. *)
Theorem create_identity_fresh (db : DB) (name email : string)
    (biometric_data : option string) (uuid4 issued_at expires_at lu lt : string) :
  uuid4 ∉ IdentityRow.identity_id <$> identities db →
  email ∉ IdentityRow.holder_email <$> identities db →
  lu ∉ AuditRow.log_id <$> audit_log db →
  let hash := sha256_hexdigest <$> nonempty biometric_data in
  let row := IdentityRow.mk uuid4 name email hash "unverified" "active"
               issued_at expires_at in
  ∃ db',
    create_identity name email biometric_data uuid4 issued_at expires_at lu lt db
    = (db', inr (Identity.mk name email [] hash UNVERIFIED ACTIVE
                   issued_at expires_at uuid4))
    ∧ db' = mkDB (identities db ++ [row]) (documents db) (kyc_requests db)
              (audit_log db ++
                 [AuditRow.mk lu uuid4 "CREATE_IDENTITY"
                    ("Created identity for " +:+ email) lt])
    ∧ select_identity uuid4 db' = Some row
    ∧ ∀ i, i ≠ uuid4 → select_identity i db' = select_identity i db.
Proof.
  intros Hid Hemail Hlog hash row. eexists. split.
  - unfold create_identity. unfold_M. simpl.
    rewrite (bool_decide_eq_false_2 _ Hid), (bool_decide_eq_false_2 _ Hemail).
    simpl. rewrite (bool_decide_eq_false_2 _ Hlog). reflexivity.
  - split; [reflexivity|]. unfold select_identity. simpl. split.
    + rewrite find_app_None by (by apply select_identity_None).
      simpl. unfold id_is. simpl. by rewrite bool_decide_eq_true_2.
    + intros i Hi. destruct (List.find (id_is i) (identities db)) as [r|] eqn:E.
      * by apply find_app_Some.
      * rewrite find_app_None by done. simpl. unfold id_is. simpl.
        by rewrite bool_decide_eq_false_2.
Qed.

(** X4. [create_identity] with an e-mail address (or an id) that is
    already stored fails on the INSERT: it raises the integrity error and
    leaves the database, audit log included, as it was. *)
Theorem create_identity_duplicate (db : DB) (name email : string)
    (biometric_data : option string) (uuid4 issued_at expires_at lu lt : string) :
  uuid4 ∈ IdentityRow.identity_id <$> identities db
  ∨ email ∈ IdentityRow.holder_email <$> identities db →
  create_identity name email biometric_data uuid4 issued_at expires_at lu lt db
  = (db, inl IntegrityError).
Proof.
  intros Hdup. unfold create_identity. unfold_M. simpl.
  destruct Hdup as [H|H]; rewrite (bool_decide_eq_true_2 _ H); simpl;
    rewrite ?orb_true_r; reflexivity.
Qed.

(** ** Unknown ids *)

(** X5. Every function that takes an identity id raises "Identity ... not
    found" when no identity has that id, and leaves the database as it
    was. *)
Theorem unknown_identity_not_found (db : DB) (i : string) :
  select_identity i db = None →
  let not_found {A} : DB * (exn + A) :=
    (db, inl (ValueError ("Identity " +:+ i +:+ " not found"))) in
  (∀ t number country expiry uuid4 lu lt,
     submit_document i t number country expiry uuid4 lu lt db = not_found)
  ∧ (∀ level uuid4 created_at lu lt,
       initiate_kyc i level uuid4 created_at lu lt db = not_found)
  ∧ (∀ reason lu lt, revoke_identity i reason lu lt db = not_found)
  ∧ (∀ reason lu lt, suspend_identity i reason lu lt db = not_found)
  ∧ (∀ lu lt, reactivate_identity i lu lt db = not_found)
  ∧ check_verification_level i db = not_found
  ∧ generate_identity_report i db = not_found.
Proof.
  intros Hsel not_found. subst not_found.
  unfold submit_document, initiate_kyc, revoke_identity, suspend_identity,
    reactivate_identity, generate_identity_report, check_verification_level.
  unfold_M. rewrite Hsel. repeat split.
Qed.

(** X6. [verify_document] raises "Document ... not found for identity ..."
    and changes nothing when no stored document has both that document id
    and that identity id, in particular when the document belongs to another
    identity; [process_kyc] raises "KYC request ... not found" and changes
    nothing when no request has the id. *)
Theorem unknown_document_or_request_not_found (db : DB) :
  (∀ i doc_id utcnow lu lt,
     (∀ d, d ∈ documents db → DocumentRow.doc_id d = doc_id →
           DocumentRow.identity_id d ≠ i) →
     verify_document i doc_id utcnow lu lt db
     = (db, inl (ValueError ("Document " +:+ doc_id +:+ " not found for identity "
                             +:+ i))))
  ∧ (∀ request_id utcnow lu lt,
       request_id ∉ KYCRow.request_id <$> kyc_requests db →
       process_kyc request_id utcnow lu lt db
       = (db, inl (ValueError ("KYC request " +:+ request_id +:+ " not found")))).
Proof.
  split.
  - intros i doc_id utcnow lu lt Hnone. unfold verify_document. unfold_M.
    destruct (select_document doc_id i db) as [d|] eqn:Hsel; [|done].
    apply find_some in Hsel as [Hd Hp]. apply andb_true_iff in Hp as [H1 H2].
    apply bool_decide_eq_true in H1, H2.
    exfalso. apply (Hnone d); [by apply list_elem_of_In|done|done].
  - intros request_id utcnow lu lt Hnone. apply process_kyc_not_found.
    destruct (select_kyc_request request_id db) as [k|] eqn:Hsel; [|done].
    apply find_some in Hsel as [Hk Hp]. apply bool_decide_eq_true in Hp.
    exfalso. apply Hnone. rewrite <- Hp. apply list_elem_of_fmap_2.
    by apply list_elem_of_In.
Qed.

(** ** Documents *)

(** X7. For an existing identity and new ids, [submit_document] appends one
    unverified document row (verified 0, no verification time) and one
    SUBMIT_DOCUMENT audit entry; [get_documents] then lists the new row
    last, and the ids a KYC snapshot of the identity would take are the same
    as before, the new document being unverified. *)
Theorem submit_document_fresh (db : DB) (i : string) (t : arg DocType)
    (number country expiry uuid4 lu lt : string) (r : IdentityRow.t) :
  select_identity i db = Some r →
  uuid4 ∉ DocumentRow.doc_id <$> documents db →
  lu ∉ AuditRow.log_id <$> audit_log db →
  let row := DocumentRow.mk uuid4 i (stored t) number country expiry 0 None in
  ∃ db',
    submit_document i t number country expiry uuid4 lu lt db
    = (db', inr (Document.mk t number country expiry false None uuid4))
    ∧ db' = mkDB (identities db) (documents db ++ [row]) (kyc_requests db)
              (audit_log db ++
                 [AuditRow.mk lu i "SUBMIT_DOCUMENT"
                    ("Submitted " +:+ format_arg format_DocType t +:+ " document")
                    lt])
    ∧ (∃ old, get_documents i db = (db, inr old)
              ∧ get_documents i db' = (db', inr (old ++ [row])))
    ∧ select_verified_doc_ids i db' = select_verified_doc_ids i db.
Proof.
  intros Hsel Hid Hlog row. eexists. split.
  - unfold submit_document. unfold_M. rewrite Hsel. simpl.
    rewrite (bool_decide_eq_false_2 _ Hid). simpl.
    rewrite (bool_decide_eq_false_2 _ Hlog). reflexivity.
  - split; [reflexivity|]. split.
    + eexists. split; [reflexivity|].
      unfold get_documents, query. simpl. rewrite filter_app.
      by rewrite filter_cons_True, filter_nil.
    + unfold select_verified_doc_ids. simpl. rewrite filter_app, filter_cons_False.
      * by rewrite filter_nil, app_nil_r.
      * simpl. by intros [_ ?].
Qed.


Lemma documents_lookup_step (c : call) (db : DB) (n : nat) (d : DocumentRow.t) :
  documents db !! n = Some d →
  ∃ d', documents (step c db) !! n = Some d'
        ∧ (d' = d ∨ ∃ t, d' = DocumentRow.set_verified 1 (Some t) d).
Proof.
  intros Hd. rewrite step_documents. destruct c; try (exists d; by auto).
  - destruct (select_identity identity_id db); [|exists d; by auto].
    case_bool_decide; [exists d; by auto|].
    exists d. split; [by apply lookup_app_l_Some|by left].
  - destruct (select_document doc_id identity_id db); [|exists d; by auto].
    rewrite list_lookup_fmap, Hd. simpl. eexists. split; [done|].
    case_bool_decide; [right; by eexists|by left].
Qed.

(** X9. No call removes or reorders a stored document, changes its id,
    owner, type, number, country or expiry, or makes a verified document
    unverified: only the verified flag and its time can change, and only
    towards verified. *)
Theorem documents_persist (cs : list call) (db : DB) (n : nat) (d : DocumentRow.t) :
  documents db !! n = Some d →
  ∃ d', documents (run cs db) !! n = Some d'
        ∧ DocumentRow.doc_id d' = DocumentRow.doc_id d
        ∧ DocumentRow.identity_id d' = DocumentRow.identity_id d
        ∧ DocumentRow.doc_type d' = DocumentRow.doc_type d
        ∧ DocumentRow.number d' = DocumentRow.number d
        ∧ DocumentRow.issuing_country d' = DocumentRow.issuing_country d
        ∧ DocumentRow.expiry d' = DocumentRow.expiry d
        ∧ (DocumentRow.verified d = 1%Z → DocumentRow.verified d' = 1%Z).
Proof.
  revert db d. induction cs as [|c cs IH]; intros db d Hd.
  - exists d. by repeat split.
  - destruct (documents_lookup_step c db n d Hd) as (d1 & Hd1 & Hstep).
    destruct (IH (step c db) d1 Hd1) as (d' & Hd' & E1 & E2 & E3 & E4 & E5 & E6 & Hv').
    exists d'. simpl. split; [done|].
    destruct Hstep as [->|[t ->]]; [done|]. simpl in *.
    repeat split; try done. intros _. by apply Hv'.
Qed.

(** ** Identity rows *)

Lemma identities_lookup_step (c : call) (db : DB) (n : nat) (r : IdentityRow.t) :
  identities db !! n = Some r →
  ∃ r', identities (step c db) !! n = Some r'
        ∧ (r' = r
           ∨ (∃ s, r' = IdentityRow.set_status s r)
           ∨ ∃ v, r' = IdentityRow.set_verification_level v r).
Proof.
  intros Hr. rewrite step_identities. destruct c; try (exists r; by auto).
  - destruct (_ || _); [exists r; by auto|].
    exists r. split; [by apply lookup_app_l_Some|by left].
  - destruct (select_kyc_request request_id db) as [row|]; [|exists r; by auto].
    destruct (_ && _); [|exists r; by auto].
    rewrite list_lookup_fmap, Hr. simpl. eexists. split; [done|].
    destruct (id_is _ r); [right; right; by eexists|by left].
  - rewrite list_lookup_fmap, Hr. simpl. eexists. split; [done|].
    destruct (id_is _ r); [right; left; by eexists|by left].
  - rewrite list_lookup_fmap, Hr. simpl. eexists. split; [done|].
    destruct (_ && _); [right; left; by eexists|by left].
  - rewrite list_lookup_fmap, Hr. simpl. eexists. split; [done|].
    destruct (id_is _ r); [right; left; by eexists|by left].
  - destruct (select_identity identity_id db); [|exists r; by auto].
    case_bool_decide; [|exists r; by auto].
    rewrite list_lookup_fmap, Hr. simpl. eexists. split; [done|].
    destruct (id_is _ r); [right; left; by eexists|by left].
Qed.

(** X10. No call removes or reorders an identity, or changes its id,
    holder name, e-mail address, biometric hash, issue time or expiry time:
    only the status and the verification level of a stored identity ever
    change. *)
Theorem identities_persist (cs : list call) (db : DB) (n : nat) (r : IdentityRow.t) :
  identities db !! n = Some r →
  ∃ r', identities (run cs db) !! n = Some r'
        ∧ IdentityRow.identity_id r' = IdentityRow.identity_id r
        ∧ IdentityRow.holder_name r' = IdentityRow.holder_name r
        ∧ IdentityRow.holder_email r' = IdentityRow.holder_email r
        ∧ IdentityRow.biometric_hash r' = IdentityRow.biometric_hash r
        ∧ IdentityRow.issued_at r' = IdentityRow.issued_at r
        ∧ IdentityRow.expires_at r' = IdentityRow.expires_at r.
Proof.
  revert db r. induction cs as [|c cs IH]; intros db r Hr.
  - exists r. by repeat split.
  - destruct (identities_lookup_step c db n r Hr) as (r1 & Hr1 & Hstep).
    destruct (IH (step c db) r1 Hr1) as (r' & Hr' & E1 & E2 & E3 & E4 & E5 & E6).
    exists r'. simpl. split; [done|].
    destruct Hstep as [->|[[s ->]|[v ->]]]; done.
Qed.

(** ** Requests for a level that is not one of the four *)

Lemma of_value_level_None (s : string) :
  of_value VerificationLevel_members s = None →
  s ≠ "unverified" ∧ s ≠ "basic" ∧ s ≠ "standard" ∧ s ≠ "enhanced".
Proof.
  unfold of_value. simpl. repeat case_bool_decide; done.
Qed.

Lemma process_kyc_pending_fresh (db : DB) (request_id utcnow lu lt : string)
    (row : KYCRow.t) :
  select_kyc_request request_id db = Some row →
  KYCRow.status row = value PENDING →
  bindable row = true →
  lu ∉ AuditRow.log_id <$> audit_log db →
  let ok := kyc_decision row db in
  let new_status := if ok then APPROVED else REJECTED in
  let notes := if ok then "All documents verified and requirements met."
               else "Insufficient verified documents or requirements not met." in
  process_kyc request_id utcnow lu lt db =
    (mkDB (if ok then
             (λ r, if id_is (KYCRow.identity_id row) r
                   then IdentityRow.set_verification_level (KYCRow.requested_level row) r
                   else r) <$> identities db
           else identities db)
          (documents db)
          ((λ k, if bool_decide (KYCRow.request_id k = request_id)
                 then KYCRow.set_outcome (value new_status) notes (Some utcnow) k
                 else k) <$> kyc_requests db)
          (audit_log db ++
             [AuditRow.mk lu (KYCRow.identity_id row) "PROCESS_KYC"
                ("KYC " +:+ request_id +:+ ": " +:+ value new_status) lt]),
     match of_value VerificationLevel_members (KYCRow.requested_level row) with
     | None => inl (ValueError (repr (KYCRow.requested_level row)
                                +:+ " is not a valid VerificationLevel"))
     | Some level =>
         inr (KYCRequest.mk (KYCRow.identity_id row) (Member level)
                (KYCRow.documents_submitted row) new_status notes (Some utcnow)
                request_id (KYCRow.created_at row))
     end).
Proof.
  intros Hsel Hpending Hfits Hlog ok new_status notes.
  set (docs := select_documents_in (KYCRow.documents_submitted row) db).
  pose proof (fetch_bindable row Hfits) as Hfetch.
  unfold process_kyc. unfold mbind, M_bind at 1. unfold query at 1. rewrite Hsel.
  rewrite bool_decide_eq_false_2 by (by intros []).
  unfold M_bind at 1. unfold execute at 1.
  unfold M_bind at 1. rewrite Hfetch.
  change (select_documents_in _ (update_kyc_requests _ _ db)) with docs.
  change (_ && _ && _) with ok.
  subst new_status notes. clearbody ok. clear Hfetch.
  unfold_M. unfold update_kyc_requests, update_identities.
  destruct ok; simpl;
    rewrite fmap_update_twice with (h := KYCRow.set_outcome _ _ (Some utcnow))
      by done;
    rewrite (bool_decide_eq_false_2 _ Hlog); simpl;
    destruct (of_value VerificationLevel_members _); reflexivity.
Qed.

Lemma check_doc_requirements_other_level (level : string) (docs : list DocumentRow.t) :
  level ≠ "basic" → level ≠ "standard" → level ≠ "enhanced" →
  _check_doc_requirements level docs = true.
Proof.
  intros Hb Hs He. unfold _check_doc_requirements.
  rewrite !bool_decide_eq_false_2; done.
Qed.

(** X11. When the level stored in a pending request is not one of the four
    level names, the snapshot has no more ids than one statement can bind
    and the id drawn for the audit entry is new, [process_kyc] skips the
    document-count rule (the request is approved as soon as its snapshot
    selects at least one document and all of them are verified), commits the
    outcome, the new verification level (the unknown string, on the rows of
    the request's identity) and the audit entry, and only then raises
    "... is not a valid VerificationLevel": the caller gets an error
    although the database has changed. *)
Theorem process_kyc_unknown_level (db : DB) (request_id utcnow lu lt : string)
    (row : KYCRow.t) :
  select_kyc_request request_id db = Some row →
  KYCRow.status row = "pending" →
  of_value VerificationLevel_members (KYCRow.requested_level row) = None →
  length (KYCRow.documents_submitted row) ≤ SQLITE_MAX_VARIABLE_NUMBER →
  lu ∉ AuditRow.log_id <$> audit_log db →
  let docs := select_documents_in (KYCRow.documents_submitted row) db in
  let ok := bool_decide (docs ≠ [])
            && forallb (λ d, truthy (DocumentRow.verified d)) docs in
  ∃ db',
    process_kyc request_id utcnow lu lt db
    = (db', inl (ValueError (repr (KYCRow.requested_level row)
                             +:+ " is not a valid VerificationLevel")))
    ∧ KYCRow.status <$> select_kyc_request request_id db'
      = Some (if ok then "approved" else "rejected")
    ∧ identities db'
      = (if ok then
           (λ r, if id_is (KYCRow.identity_id row) r
                 then IdentityRow.set_verification_level (KYCRow.requested_level row) r
                 else r) <$> identities db
         else identities db)
    ∧ (ok = true →
       ∀ r', r' ∈ identities db' →
             IdentityRow.identity_id r' = KYCRow.identity_id row →
             IdentityRow.verification_level r' = KYCRow.requested_level row)
    ∧ length (audit_log db') = S (length (audit_log db)).
Proof.
  intros Hsel Hst Hlevel Hlen Hlog docs ok.
  assert (bindable row = true) as Hfits by by apply bool_decide_eq_true.
  assert (kyc_decision row db = ok) as Hok.
  { unfold kyc_decision. fold docs.
    destruct (of_value_level_None _ Hlevel) as (_ & Hb & Hs & He).
    rewrite check_doc_requirements_other_level, andb_true_r by done.
    subst ok. f_equal. apply bool_decide_ext.
    destruct docs; simpl; split; try done; lia. }
  eexists. split.
  - rewrite (process_kyc_pending_fresh db request_id utcnow lu lt row Hsel Hst
               Hfits Hlog).
    by rewrite Hlevel.
  - simpl. rewrite Hok. split; [|split; [done|split]].
    + unfold select_kyc_request in *. simpl.
      rewrite find_fmap_update by done. rewrite Hsel. simpl. by destruct ok.
    + intros -> r' Hr' Hid.
      apply list_elem_of_fmap in Hr' as (r & -> & _).
      unfold id_is in *. case_bool_decide as Hr; [done|].
      by destruct Hr.
    + rewrite length_app. simpl. lia.
Qed.

(** ** The expiry sweep *)

(** X12. After [expire_old_identities] no ACTIVE identity has an expiry
    time before the given time; the rows it does not select (not ACTIVE, or
    not yet expired) are left exactly as they were, as are the other three
    tables; and running the sweep again at the same time updates nothing
    and returns 0. *)
Theorem expire_old_identities_sweep (db : DB) (utcnow : string) :
  ∃ db' count,
    expire_old_identities utcnow db = (db', inr count)
    ∧ (∀ r, r ∈ identities db' → IdentityRow.status r = "active" →
            String.ltb (IdentityRow.expires_at r) utcnow = false)
    ∧ (∀ n r, identities db !! n = Some r →
              (IdentityRow.status r ≠ "active"
               ∨ String.ltb (IdentityRow.expires_at r) utcnow = false) →
              identities db' !! n = Some r)
    ∧ (∀ n r, identities db !! n = Some r →
              IdentityRow.status r = "active" →
              String.ltb (IdentityRow.expires_at r) utcnow = true →
              identities db' !! n = Some (IdentityRow.set_status "expired" r))
    ∧ documents db' = documents db
    ∧ kyc_requests db' = kyc_requests db
    ∧ audit_log db' = audit_log db
    ∧ expire_old_identities utcnow db' = (db', inr 0).
Proof.
  set (where_ := λ r, String.ltb (IdentityRow.expires_at r) utcnow
                      && bool_decide (IdentityRow.status r = "active")).
  set (upd := λ r, if where_ r then IdentityRow.set_status "expired" r else r).
  assert (∀ r, where_ (upd r) = false) as Hdone.
  { intros r. unfold upd. destruct (where_ r) eqn:E; [|done].
    unfold where_. simpl. by rewrite andb_false_r. }
  exists (mkDB (upd <$> identities db) (documents db) (kyc_requests db) (audit_log db)),
    (length (List.filter where_ (identities db))).
  split; [reflexivity|]. simpl. split; [|split; [|split]].
  - intros r' (r & -> & _)%list_elem_of_fmap Hactive.
    specialize (Hdone r). unfold where_ in Hdone at 1.
    rewrite (bool_decide_eq_true_2 _ Hactive), andb_true_r in Hdone. done.
  - intros n r Hr Hskip. rewrite list_lookup_fmap, Hr. simpl. f_equal.
    unfold upd, where_. destruct Hskip as [H|H].
    + by rewrite (bool_decide_eq_false_2 _ H), andb_false_r.
    + by rewrite H.
  - intros n r Hr Hactive Hold. rewrite list_lookup_fmap, Hr. simpl. f_equal.
    unfold upd, where_. by rewrite Hold, (bool_decide_eq_true_2 _ Hactive).
  - assert (upd <$> (upd <$> identities db) = upd <$> identities db) as Hmap.
    { rewrite <- list_fmap_compose. apply list_fmap_ext.
      intros _ r _. change (upd (upd r) = upd r). unfold upd at 1.
      by rewrite Hdone. }
    assert (List.filter where_ (upd <$> identities db) = []) as Hfilter.
    { clear Hmap. induction (identities db) as [|r l IH]; [done|].
      rewrite fmap_cons.
      change (List.filter where_ (upd r :: (upd <$> l)))
        with (if where_ (upd r) then upd r :: List.filter where_ (upd <$> l)
              else List.filter where_ (upd <$> l)).
      by rewrite Hdone. }
    repeat split. unfold expire_old_identities. unfold_M. simpl.
    unfold update_identities. simpl. f_equal.
    + f_equal. exact Hmap.
    + f_equal. change 0 with (length (@nil IdentityRow.t)). f_equal. exact Hfilter.
Qed.

(** ** Suspending and reactivating *)

(** X13. Suspending an ACTIVE identity and then reactivating it gives back
    the identities table as it was (ids being unique): the identity is
    SUSPENDED in between and ACTIVE again afterwards, and no other field or
    row changes. *)
Theorem suspend_then_reactivate (db : DB) (i reason lu lt lu' lt' : string)
    (r : IdentityRow.t) :
  NoDup (IdentityRow.identity_id <$> identities db) →
  select_identity i db = Some r →
  IdentityRow.status r = "active" →
  let db1 := (suspend_identity i reason lu lt db).1 in
  let db2 := (reactivate_identity i lu' lt' db1).1 in
  IdentityRow.status <$> select_identity i db1 = Some "suspended"
  ∧ identities db2 = identities db.
Proof.
  intros Hnd Hsel Hactive db1 db2.
  assert (identities db1
          = (λ x, if id_is i x then IdentityRow.set_status "suspended" x else x)
              <$> identities db) as H1.
  { subst db1. unfold suspend_identity. unfold_M. rewrite Hsel. simpl.
    by case_bool_decide. }
  assert (select_identity i db1 = Some (IdentityRow.set_status "suspended" r)) as Hsel1.
  { unfold select_identity. rewrite H1, select_identity_updated by done.
    by rewrite Hsel. }
  split; [by rewrite Hsel1|].
  assert (identities db2
          = (λ x, if id_is i x then IdentityRow.set_status "active" x else x)
              <$> identities db1) as H2.
  { subst db2. unfold reactivate_identity. unfold_M. rewrite Hsel1. simpl.
    by case_bool_decide. }
  rewrite H2, H1.
  rewrite fmap_update_twice with (h := IdentityRow.set_status "active") by done.
  rewrite <- (list_fmap_id (identities db)) at 2. apply list_fmap_ext.
  intros _ x Hx%list_elem_of_lookup_2. simpl.
  destruct (id_is i x) eqn:E; [|done]. apply bool_decide_eq_true in E.
  assert (x = r) as ->.
  { apply (NoDup_fmap_eq IdentityRow.identity_id (identities db)); try done.
    - apply find_some in Hsel as [Hr _]. by apply list_elem_of_In.
    - rewrite E. symmetry. by apply select_identity_id with (db := db). }
  destruct r. simpl in *. by subst.
Qed.

(** * Invariants of the reachable states *)

Lemma process_kyc_pending_taken (db : DB) (request_id utcnow lu lt : string)
    (row : KYCRow.t) :
  select_kyc_request request_id db = Some row →
  KYCRow.status row = value PENDING →
  lu ∈ AuditRow.log_id <$> audit_log db →
  audit_log (process_kyc request_id utcnow lu lt db).1 = audit_log db.
Proof.
  intros Hsel Hpending Hlog.
  destruct (bindable row) eqn:Hfits;
    [|by rewrite (process_kyc_too_many _ _ _ _ _ row)].
  pose proof (fetch_bindable row Hfits) as Hfetch.
  unfold process_kyc. unfold mbind, M_bind at 1. unfold query at 1. rewrite Hsel.
  rewrite bool_decide_eq_false_2 by (by intros []).
  unfold M_bind at 1. unfold execute at 1.
  unfold M_bind at 1. rewrite Hfetch. clear Hfetch.
  unfold_M. unfold update_kyc_requests, update_identities.
  destruct (_ && _ && _); simpl; rewrite (bool_decide_eq_true_2 _ Hlog); done.
Qed.

(** The audit entry a call appends, if any. *)
Lemma step_audit_log_exact (c : call) (db : DB) :
  audit_log (step c db) =
  let append lu i action details lt :=
    if bool_decide (lu ∈ AuditRow.log_id <$> audit_log db) then audit_log db
    else audit_log db ++ [AuditRow.mk lu i action details lt] in
  match c with
  | Create_identity _ email _ uuid4 _ _ lu lt =>
      if bool_decide (uuid4 ∈ IdentityRow.identity_id <$> identities db)
         || bool_decide (email ∈ IdentityRow.holder_email <$> identities db)
      then audit_log db
      else append lu uuid4 "CREATE_IDENTITY" ("Created identity for " +:+ email) lt
  | Submit_document i t _ _ _ uuid4 lu lt =>
      match select_identity i db with
      | Some _ =>
          if bool_decide (uuid4 ∈ DocumentRow.doc_id <$> documents db)
          then audit_log db
          else append lu i "SUBMIT_DOCUMENT"
                 ("Submitted " +:+ format_arg format_DocType t +:+ " document") lt
      | None => audit_log db
      end
  | Verify_document i doc_id _ lu lt =>
      match select_document doc_id i db with
      | Some _ => append lu i "VERIFY_DOCUMENT"
                    ("Document " +:+ doc_id +:+ " verified") lt
      | None => audit_log db
      end
  | Initiate_kyc i level uuid4 _ lu lt =>
      match select_identity i db with
      | Some _ =>
          if bool_decide (uuid4 ∈ KYCRow.request_id <$> kyc_requests db)
          then audit_log db
          else append lu i "INITIATE_KYC"
                 ("KYC requested for level "
                  +:+ format_arg format_VerificationLevel level) lt
      | None => audit_log db
      end
  | Process_kyc request_id _ lu lt =>
      match select_kyc_request request_id db with
      | Some row =>
          if bool_decide (KYCRow.status row = "pending") && bindable row then
            append lu (KYCRow.identity_id row) "PROCESS_KYC"
              ("KYC " +:+ request_id +:+ ": "
               +:+ (if kyc_decision row db then "approved" else "rejected")) lt
          else audit_log db
      | None => audit_log db
      end
  | Revoke_identity i reason lu lt =>
      match select_identity i db with
      | Some _ => append lu i "REVOKE_IDENTITY" ("Reason: " +:+ reason) lt
      | None => audit_log db
      end
  | Suspend_identity i reason lu lt =>
      match select_identity i db with
      | Some _ => append lu i "SUSPEND_IDENTITY" ("Reason: " +:+ reason) lt
      | None => audit_log db
      end
  | Reactivate_identity i lu lt =>
      match select_identity i db with
      | Some row =>
          if bool_decide (IdentityRow.status row = "suspended")
          then append lu i "REACTIVATE_IDENTITY" "Identity reactivated" lt
          else audit_log db
      | None => audit_log db
      end
  | _ => audit_log db
  end.
Proof.
  destruct c; rewrite ?step_generate_identity_report, ?step_process_kyc;
    try reflexivity; try (crunch_call; fail).
  - unfold step, exec, effect, create_identity. unfold_M. simpl.
    destruct (_ || _); simpl; [done|]. by case_bool_decide.
  - unfold step, exec, effect, submit_document. unfold_M.
    destruct (select_identity identity_id db); simpl; [|done].
    case_bool_decide; simpl; [done|]. by case_bool_decide.
  - unfold step, exec, effect, initiate_kyc. unfold_M.
    destruct (select_identity identity_id db); simpl; [|done].
    case_bool_decide; simpl; [done|]. by case_bool_decide.
  - destruct (select_kyc_request request_id db) as [row|] eqn:Hsel.
    + case_bool_decide as Hst.
      * destruct (bindable row) eqn:Hfits; simpl;
          [|by rewrite (process_kyc_too_many _ _ _ _ _ row)].
        case_bool_decide as Hlog.
        -- by apply (process_kyc_pending_taken _ _ _ _ _ row).
        -- rewrite (process_kyc_pending_fresh db request_id utcnow log_uuid4
                      log_utcnow row Hsel Hst Hfits Hlog). simpl.
           by destruct (kyc_decision row db).
      * by rewrite (process_kyc_not_pending _ _ _ _ _ row).
    + by rewrite process_kyc_not_found.
  - unfold step, exec, effect, reactivate_identity. unfold_M.
    destruct (select_identity identity_id db) eqn:Hsel; simpl; [|done].
    repeat case_bool_decide; simpl; done.
Qed.

Lemma NoDup_snoc_fresh {A B} (f : A → B) (l : list A) (a : A) :
  NoDup (f <$> l) → f a ∉ f <$> l → NoDup (f <$> (l ++ [a])).
Proof.
  intros Hnd Hfresh. rewrite fmap_app. apply NoDup_app. split; [done|]. split.
  - intros x Hx ->%list_elem_of_singleton. done.
  - apply NoDup_singleton.
Qed.

Lemma NoDup_fmap_update {A B} (f : A → B) (p : A → bool) (set : A → A) (l : list A) :
  (∀ x, f (set x) = f x) →
  NoDup (f <$> l) → NoDup (f <$> ((λ x, if p x then set x else x) <$> l)).
Proof.
  intros Hset Hnd. rewrite <- list_fmap_compose.
  erewrite list_fmap_ext; [exact Hnd|].
  intros _ x _. simpl. by destruct (p x).
Qed.

Lemma identity_keys_step (c : call) (db : DB) :
  NoDup (IdentityRow.identity_id <$> identities db) →
  NoDup (IdentityRow.holder_email <$> identities db) →
  NoDup (IdentityRow.identity_id <$> identities (step c db))
  ∧ NoDup (IdentityRow.holder_email <$> identities (step c db)).
Proof.
  intros Hid Hemail. rewrite step_identities.
  destruct c; try done; try (split; by apply NoDup_fmap_update).
  - destruct (_ || _) eqn:E; [done|]. apply orb_false_iff in E as [E1 E2].
    apply bool_decide_eq_false in E1, E2. split; by apply NoDup_snoc_fresh.
  - destruct (select_kyc_request request_id db); [|done].
    destruct (_ && _); [|done]. split; by apply NoDup_fmap_update.
  - destruct (select_identity identity_id db); [|done].
    case_bool_decide; [|done]. split; by apply NoDup_fmap_update.
Qed.

Lemma request_ids_step (c : call) (db : DB) :
  NoDup (KYCRow.request_id <$> kyc_requests db) →
  NoDup (KYCRow.request_id <$> kyc_requests (step c db)).
Proof.
  intros Hnd. rewrite step_kyc_requests. destruct c; try done.
  - destruct (select_identity identity_id db); [|done].
    case_bool_decide; [done|]. by apply NoDup_snoc_fresh.
  - destruct (select_kyc_request request_id db) as [row|]; [|done].
    case_bool_decide; [|done].
    apply (NoDup_fmap_update KYCRow.request_id
             (λ k, bool_decide (KYCRow.request_id k = request_id))); [|done].
    intros k. by destruct (bindable row).
Qed.

Lemma NoDup_append_fresh (db : DB) (a : AuditRow.t) :
  NoDup (AuditRow.log_id <$> audit_log db) →
  NoDup (AuditRow.log_id <$>
           (if bool_decide (AuditRow.log_id a ∈ AuditRow.log_id <$> audit_log db)
            then audit_log db else audit_log db ++ [a])).
Proof.
  intros Hnd. case_bool_decide; [done|]. by apply NoDup_snoc_fresh.
Qed.

Lemma log_ids_step (c : call) (db : DB) :
  NoDup (AuditRow.log_id <$> audit_log db) →
  NoDup (AuditRow.log_id <$> audit_log (step c db)).
Proof.
  intros Hnd. rewrite step_audit_log_exact. simpl.
  destruct c; try done;
    repeat (case_match; try done);
    match goal with
    | |- NoDup (_ <$> _ ++ [?a]) =>
        apply NoDup_snoc_fresh; [done|]; simpl;
        match goal with
        | H : bool_decide (_ ∈ AuditRow.log_id <$> _) = false |- _ =>
            by apply bool_decide_eq_false in H
        end
    end.
Qed.

Lemma keys_unique_step (c : call) (db : DB) :
  keys_unique db → keys_unique (step c db).
Proof.
  intros (Hid & Hemail & Hdoc & Hreq & Hlog).
  destruct (identity_keys_step c db Hid Hemail) as [Hid' Hemail'].
  repeat split; [done|done|by apply doc_ids_step|by apply request_ids_step|
                 by apply log_ids_step].
Qed.

Lemma keys_unique_run (cs : list call) (db : DB) :
  keys_unique db → keys_unique (run cs db).
Proof.
  revert db. induction cs as [|c cs IH]; intros db H; [done|].
  simpl. by apply IH, keys_unique_step.
Qed.

(** X14. In every state the public functions can produce from a fresh
    database, identity ids, e-mail addresses, document ids, request ids and
    audit-log ids are each unique. *)
Theorem primary_keys_unique (cs : list call) :
  NoDup (IdentityRow.identity_id <$> identities (run cs empty_db))
  ∧ NoDup (IdentityRow.holder_email <$> identities (run cs empty_db))
  ∧ NoDup (DocumentRow.doc_id <$> documents (run cs empty_db))
  ∧ NoDup (KYCRow.request_id <$> kyc_requests (run cs empty_db))
  ∧ NoDup (AuditRow.log_id <$> audit_log (run cs empty_db)).
Proof.
  apply (keys_unique_run cs empty_db). repeat split; apply NoDup_nil_2.
Qed.

Lemma select_identity_elem (db : DB) (i : string) (r : IdentityRow.t) :
  select_identity i db = Some r → i ∈ IdentityRow.identity_id <$> identities db.
Proof.
  intros Hsel. destruct (decide (i ∈ IdentityRow.identity_id <$> identities db))
    as [|Hn]; [done|].
  apply select_identity_None in Hn. congruence.
Qed.

Lemma identity_ids_step (c : call) (db : DB) (i : string) :
  i ∈ IdentityRow.identity_id <$> identities db →
  i ∈ IdentityRow.identity_id <$> identities (step c db).
Proof.
  intros Hi. apply list_elem_of_fmap in Hi as (r & -> & Hr).
  apply list_elem_of_lookup_1 in Hr as [n Hr].
  destruct (identities_lookup_step c db n r Hr) as (r' & Hr' & Hstep).
  apply list_elem_of_lookup_2 in Hr'.
  assert (IdentityRow.identity_id r = IdentityRow.identity_id r') as ->.
  { by destruct Hstep as [->|[[s ->]|[v ->]]]. }
  by apply list_elem_of_fmap_2.
Qed.

Lemma documents_elem_step (c : call) (db : DB) (d : DocumentRow.t) :
  d ∈ documents db →
  ∃ d', d' ∈ documents (step c db)
        ∧ DocumentRow.doc_id d' = DocumentRow.doc_id d
        ∧ DocumentRow.identity_id d' = DocumentRow.identity_id d.
Proof.
  intros [n Hd]%list_elem_of_lookup_1.
  destruct (documents_lookup_step c db n d Hd) as (d' & Hd' & Hstep).
  exists d'. split; [by eapply list_elem_of_lookup_2|].
  by destruct Hstep as [->|[t ->]].
Qed.

Lemma references_exist_step (c : call) (db : DB) :
  references_exist db → references_exist (step c db).
Proof.
  intros (Hdoc & Hreq & Hlog).
  pose proof (identity_ids_step c db) as Hids.
  assert (∀ k, k ∈ kyc_requests db →
            KYCRow.identity_id k ∈ IdentityRow.identity_id <$> identities (step c db)
            ∧ ∀ x, x ∈ KYCRow.documents_submitted k →
                   ∃ d, d ∈ documents (step c db) ∧ DocumentRow.doc_id d = x
                        ∧ DocumentRow.identity_id d = KYCRow.identity_id k) as Hreq'.
  { intros k Hk. destruct (Hreq k Hk) as [Hi Hsnap]. split; [by apply Hids|].
    intros x Hx. destruct (Hsnap x Hx) as (d & Hd & <- & <-).
    by apply documents_elem_step. }
  split; [|split].
  - intros d' Hd'. rewrite step_documents in Hd'.
    destruct c; try (by apply Hids, Hdoc).
    + destruct (select_identity identity_id db) as [r|] eqn:Hsel; [|by apply Hids, Hdoc].
      case_bool_decide; [by apply Hids, Hdoc|].
      apply elem_of_app in Hd' as [Hd'|Hd']; [by apply Hids, Hdoc|].
      apply list_elem_of_singleton in Hd' as ->. simpl. by eapply Hids, select_identity_elem.
    + destruct (select_document doc_id identity_id db); [|by apply Hids, Hdoc].
      apply list_elem_of_fmap in Hd' as (d & -> & Hd).
      case_bool_decide; simpl; by apply Hids, Hdoc.
  - intros k' Hk'. rewrite step_kyc_requests in Hk'.
    destruct c; try (by apply Hreq').
    + destruct (select_identity identity_id db) as [r|] eqn:Hsel; [|by apply Hreq'].
      case_bool_decide; [by apply Hreq'|].
      apply elem_of_app in Hk' as [Hk'|Hk']; [by apply Hreq'|].
      apply list_elem_of_singleton in Hk' as ->. simpl. split; [by eapply Hids, select_identity_elem|].
      intros x (d & Hd & <- & <- & _)%select_verified_doc_ids_spec.
      by apply documents_elem_step.
    + destruct (select_kyc_request request_id db) as [row|]; [|by apply Hreq'].
      case_bool_decide; [|by apply Hreq'].
      apply list_elem_of_fmap in Hk' as (k & -> & Hk).
      case_bool_decide; [destruct (bindable row)|]; simpl; by apply Hreq'.
  - intros a' Ha'. rewrite step_audit_log_exact in Ha'. simpl in Ha'.
    assert (∀ lu i action details lt,
              i ∈ IdentityRow.identity_id <$> identities (step c db) →
              a' ∈ (if bool_decide (lu ∈ AuditRow.log_id <$> audit_log db)
                    then audit_log db
                    else audit_log db ++ [AuditRow.mk lu i action details lt]) →
              AuditRow.identity_id a'
                ∈ IdentityRow.identity_id <$> identities (step c db)) as Happend.
    { intros lu i action details lt Hi Hin. case_bool_decide; [by apply Hids, Hlog|].
      apply elem_of_app in Hin as [Hin|Hin]; [by apply Hids, Hlog|].
      by apply list_elem_of_singleton in Hin as ->. }
    destruct c; try (by apply Hids, Hlog).
    + destruct (_ || _) eqn:E; [by apply Hids, Hlog|].
      eapply Happend; [|exact Ha']. rewrite step_identities, E, fmap_app.
      apply elem_of_app. right. by apply list_elem_of_singleton.
    + destruct (select_identity identity_id db) eqn:Hsel; [|by apply Hids, Hlog].
      case_bool_decide; [by apply Hids, Hlog|].
      eapply Happend; [|exact Ha']. by eapply Hids, select_identity_elem.
    + destruct (select_document doc_id identity_id db) as [d|] eqn:Hsel;
        [|by apply Hids, Hlog].
      eapply Happend; [|exact Ha']. apply Hids.
      apply find_some in Hsel as [Hd Hp]. apply andb_true_iff in Hp as [_ Hp].
      apply bool_decide_eq_true in Hp. rewrite <- Hp.
      by apply Hdoc, list_elem_of_In.
    + destruct (select_identity identity_id db) eqn:Hsel; [|by apply Hids, Hlog].
      case_bool_decide; [by apply Hids, Hlog|].
      eapply Happend; [|exact Ha']. by eapply Hids, select_identity_elem.
    + destruct (select_kyc_request request_id db) as [row|] eqn:Hsel;
        [|by apply Hids, Hlog].
      destruct (_ && bindable row); [|by apply Hids, Hlog].
      eapply Happend; [|exact Ha'].
      apply find_some in Hsel as [Hrow _]. by apply Hreq', list_elem_of_In.
    + destruct (select_identity identity_id db) eqn:Hsel; [|by apply Hids, Hlog].
      eapply Happend; [|exact Ha']. by eapply Hids, select_identity_elem.
    + destruct (select_identity identity_id db) eqn:Hsel; [|by apply Hids, Hlog].
      eapply Happend; [|exact Ha']. by eapply Hids, select_identity_elem.
    + destruct (select_identity identity_id db) eqn:Hsel; [|by apply Hids, Hlog].
      case_bool_decide; [|by apply Hids, Hlog].
      eapply Happend; [|exact Ha']. by eapply Hids, select_identity_elem.
Qed.

Lemma references_exist_run (cs : list call) (db : DB) :
  references_exist db → references_exist (run cs db).
Proof.
  revert db. induction cs as [|c cs IH]; intros db H; [done|].
  simpl. by apply IH, references_exist_step.
Qed.

(** X15. In every state reachable from a fresh database each document,
    each KYC request and each audit entry names a stored identity, and each
    id in a request's snapshot names a stored document of that request's
    identity: the checks in the code keep the foreign keys valid although
    the database does not enforce them. *)
Theorem foreign_keys_valid (cs : list call) :
  (∀ d, d ∈ documents (run cs empty_db) →
        DocumentRow.identity_id d
          ∈ IdentityRow.identity_id <$> identities (run cs empty_db))
  ∧ (∀ k, k ∈ kyc_requests (run cs empty_db) →
          KYCRow.identity_id k
            ∈ IdentityRow.identity_id <$> identities (run cs empty_db)
          ∧ ∀ x, x ∈ KYCRow.documents_submitted k →
                 ∃ d, d ∈ documents (run cs empty_db) ∧ DocumentRow.doc_id d = x
                      ∧ DocumentRow.identity_id d = KYCRow.identity_id k)
  ∧ (∀ a, a ∈ audit_log (run cs empty_db) →
          AuditRow.identity_id a
            ∈ IdentityRow.identity_id <$> identities (run cs empty_db)).
Proof.
  apply (references_exist_run cs empty_db).
  split; [|split]; intros x Hx; by apply not_elem_of_nil in Hx.
Qed.

Lemma document_flags_step (c : call) (db : DB) :
  (∀ d, d ∈ documents db → document_flag_ok d) →
  ∀ d, d ∈ documents (step c db) → document_flag_ok d.
Proof.
  intros Hok d' Hd'. rewrite step_documents in Hd'.
  destruct c; try by apply Hok.
  - destruct (select_identity identity_id db); [|by apply Hok].
    case_bool_decide; [by apply Hok|].
    apply elem_of_app in Hd' as [Hd'|Hd']; [by apply Hok|].
    apply list_elem_of_singleton in Hd' as ->. by left.
  - destruct (select_document doc_id identity_id db); [|by apply Hok].
    apply list_elem_of_fmap in Hd' as (d & -> & Hd).
    case_bool_decide; [|by apply Hok]. right. by split.
Qed.

(** X16. In every state reachable from a fresh database a document is
    either unverified (flag 0 and no verification time) or verified (flag 1
    and a verification time), so the SQL test [verified=1] of [initiate_kyc]
    and the truthiness test of [process_kyc] select the same documents. *)
Theorem document_flags_consistent (cs : list call) (d : DocumentRow.t) :
  d ∈ documents (run cs empty_db) →
  ((DocumentRow.verified d = 0%Z ∧ DocumentRow.verified_at d = None)
   ∨ (DocumentRow.verified d = 1%Z ∧ is_Some (DocumentRow.verified_at d)))
  ∧ truthy (DocumentRow.verified d) = bool_decide (DocumentRow.verified d = 1%Z).
Proof.
  intros Hd.
  assert (document_flag_ok d) as Hok.
  { revert d Hd. generalize empty_db, (λ d (H : d ∈ documents empty_db),
      False_ind (document_flag_ok d) (not_elem_of_nil d H)).
    induction cs as [|c cs IH]; intros db Hdb d Hd; [by apply Hdb|].
    apply (IH (step c db)); [|done]. by apply document_flags_step. }
  split; [exact Hok|]. by destruct Hok as [[-> _]|[-> _]].
Qed.

Lemma request_states_step (c : call) (db : DB) :
  NoDup (KYCRow.request_id <$> kyc_requests db) →
  (∀ k, k ∈ kyc_requests db → request_state_ok k) →
  ∀ k, k ∈ kyc_requests (step c db) → request_state_ok k.
Proof.
  intros Hnd Hok k' Hk'. rewrite step_kyc_requests in Hk'.
  destruct c; try by apply Hok.
  - destruct (select_identity identity_id db); [|by apply Hok].
    case_bool_decide; [by apply Hok|].
    apply elem_of_app in Hk' as [Hk'|Hk']; [by apply Hok|].
    apply list_elem_of_singleton in Hk' as ->. by left.
  - destruct (select_kyc_request request_id db) as [row|] eqn:Hsel; [|by apply Hok].
    case_bool_decide as Hst; [|by apply Hok].
    apply list_elem_of_fmap in Hk' as (k & -> & Hk).
    case_bool_decide as Hid; [|by apply Hok].
    assert (k = row) as ->.
    { apply (NoDup_fmap_eq KYCRow.request_id (kyc_requests db)); [done|done| |].
      - by eapply select_kyc_request_elem.
      - rewrite Hid. symmetry. by eapply select_kyc_request_id. }
    destruct (bindable row) eqn:Hfits.
    + right. destruct (kyc_decision row db); [left|right; left]; by repeat split.
    + right; right; right. unfold bindable in Hfits.
      apply bool_decide_eq_false in Hfits.
      destruct (Hok row Hk) as [(_ & Hnotes & _)|[(E & _)|[(E & _)|(E & _)]]];
        try congruence.
      simpl. repeat split; [done|by eexists|lia].
Qed.

(** X17. In every state reachable from a fresh database a request is
    either pending with empty notes and no processing time, or approved, or
    rejected, with the notes and a processing time written by
    [process_kyc], or it was left in the PROCESSING status that
    [process_kyc] commits before it fetches the documents; the last happens
    only to a request whose snapshot has more ids than one statement can
    bind, so every other stored request is pending, approved or rejected. *)
Theorem request_states (cs : list call) (k : KYCRow.t) :
  k ∈ kyc_requests (run cs empty_db) →
  ((KYCRow.status k = "pending" ∧ KYCRow.notes k = ""
    ∧ KYCRow.processed_at k = None)
   ∨ (KYCRow.status k = "approved"
      ∧ KYCRow.notes k = "All documents verified and requirements met."
      ∧ is_Some (KYCRow.processed_at k))
   ∨ (KYCRow.status k = "rejected"
      ∧ KYCRow.notes k = "Insufficient verified documents or requirements not met."
      ∧ is_Some (KYCRow.processed_at k))
   ∨ (KYCRow.status k = "processing" ∧ KYCRow.notes k = ""
      ∧ is_Some (KYCRow.processed_at k)
      ∧ SQLITE_MAX_VARIABLE_NUMBER < length (KYCRow.documents_submitted k)))
  ∧ (length (KYCRow.documents_submitted k) ≤ SQLITE_MAX_VARIABLE_NUMBER →
     KYCRow.status k ≠ "processing").
Proof.
  intros Hk.
  assert (request_state_ok k) as Hok.
  { revert k Hk. induction cs as [|c cs IH] using rev_ind; intros k Hk.
    { by apply not_elem_of_nil in Hk. }
    rewrite run_snoc in Hk. eapply request_states_step; [|exact IH|exact Hk].
    apply keys_unique_run. repeat split; apply NoDup_nil_2. }
  split; [exact Hok|]. intros Hlen.
  destruct Hok as [(-> & _)|[(-> & _)|[(-> & _)|(_ & _ & _ & Hmany)]]];
    try done. lia.
Qed.

Lemma identity_statuses_step (c : call) (db : DB) :
  (∀ r, r ∈ identities db → identity_status_ok r) →
  ∀ r, r ∈ identities (step c db) → identity_status_ok r.
Proof.
  intros Hok r' Hr'. rewrite step_identities in Hr'.
  assert (∀ (p : IdentityRow.t → bool) s,
            s ∈ value <$> IdentityStatus_members →
            r' ∈ (λ r, if p r then IdentityRow.set_status s r else r)
                   <$> identities db →
            identity_status_ok r') as Hset.
  { intros p s Hs (r & -> & Hr)%list_elem_of_fmap.
    destruct (p r); [exact Hs|by apply Hok]. }
  destruct c; try (by apply Hok);
    try (eapply Hset; [|exact Hr']; simpl; repeat constructor).
  - destruct (_ || _); [by apply Hok|].
    apply elem_of_app in Hr' as [Hr'|Hr']; [by apply Hok|].
    apply list_elem_of_singleton in Hr' as ->.
    unfold identity_status_ok. simpl. repeat constructor.
  - destruct (select_kyc_request request_id db); [|by apply Hok].
    destruct (_ && _); [|by apply Hok].
    apply list_elem_of_fmap in Hr' as (r & -> & Hr).
    destruct (id_is _ r); exact (Hok r Hr).
  - destruct (select_identity identity_id db); [|by apply Hok].
    case_bool_decide; [|by apply Hok].
    eapply Hset; [|exact Hr']. simpl. repeat constructor.
Qed.

Lemma identity_statuses_run (cs : list call) (r : IdentityRow.t) :
  r ∈ identities (run cs empty_db) → identity_status_ok r.
Proof.
  revert r. generalize empty_db, (λ r (H : r ∈ identities empty_db),
    False_ind (identity_status_ok r) (not_elem_of_nil r H)).
  induction cs as [|c cs IH]; intros db Hdb r Hr; [by apply Hdb|].
  apply (IH (step c db)); [|done]. by apply identity_statuses_step.
Qed.

Lemma status_counts_sum (l : list IdentityRow.t) :
  (∀ r, r ∈ l → identity_status_ok r) →
  length (filter (λ r, IdentityRow.status r = "active") l)
  + length (filter (λ r, IdentityRow.status r = "revoked") l)
  + length (filter (λ r, IdentityRow.status r = "expired") l)
  + length (filter (λ r, IdentityRow.status r = "suspended") l)
  = length l.
Proof.
  induction l as [|r l IH]; intros Hok; [done|].
  assert (identity_status_ok r) as Hr by (apply Hok; left).
  specialize (IH (λ x Hx, Hok x (list_elem_of_further _ _ _ Hx))).
  unfold identity_status_ok in Hr. simpl in Hr.
  rewrite !filter_cons. simpl.
  repeat (apply elem_of_cons in Hr as [Hr|Hr]);
    [..|by apply not_elem_of_nil in Hr];
    rewrite Hr; repeat case_decide; try done; simpl; lia.
Qed.

(** X18. In every state reachable from a fresh database the status of an
    identity is one of the four status names, so the four per-status counts
    that [identity_stats] reports add up to its total; and it never reports
    more verified documents than documents. *)
Theorem identity_stats_counts (cs : list call) :
  (∀ r, r ∈ identities (run cs empty_db) →
        IdentityRow.status r ∈ ["active"; "revoked"; "expired"; "suspended"])
  ∧ ∃ s active revoked expired suspended,
      identity_stats (run cs empty_db) = (run cs empty_db, inr s)
      ∧ total_identities s = length (identities (run cs empty_db))
      ∧ by_status s !! "active" = Some active
      ∧ by_status s !! "revoked" = Some revoked
      ∧ by_status s !! "expired" = Some expired
      ∧ by_status s !! "suspended" = Some suspended
      ∧ active + revoked + expired + suspended = total_identities s
      ∧ verified_documents s ≤ total_documents s.
Proof.
  split; [apply identity_statuses_run|].
  eexists _, _, _, _, _. split; [reflexivity|]. simpl.
  split; [reflexivity|].
  rewrite !lookup_insert. simpl.
  repeat (split; [reflexivity|]). split.
  - apply status_counts_sum. apply identity_statuses_run.
  - apply length_filter.
Qed.

Lemma snapshot_NoDup (cs : list call) (k : KYCRow.t) :
  k ∈ kyc_requests (run cs empty_db) → NoDup (KYCRow.documents_submitted k).
Proof.
  intros Hk.
  destruct (kyc_request_origin cs k Hk) as (cs1 & _ & _ & _ & _ & _ & _ & ->).
  destruct (keys_unique_run cs1 empty_db) as (_ & _ & Hdoc & _).
  { repeat split; apply NoDup_nil_2. }
  unfold select_verified_doc_ids.
  eapply sublist_NoDup; [exact Hdoc|apply fmap_sublist, sublist_filter].
Qed.

Lemma kyc_decision_verified_snapshot (db : DB) (k : KYCRow.t) :
  NoDup (DocumentRow.doc_id <$> documents db) →
  snapshot_verified (KYCRow.documents_submitted k) db →
  NoDup (KYCRow.documents_submitted k) →
  let docs := select_documents_in (KYCRow.documents_submitted k) db in
  length docs = length (KYCRow.documents_submitted k)
  ∧ forallb (λ d, truthy (DocumentRow.verified d)) docs = true
  ∧ kyc_decision k db
    = bool_decide (KYCRow.documents_submitted k ≠ [])
      && _check_doc_requirements (KYCRow.requested_level k) docs.
Proof.
  intros Hnd [Hex Hver] Hids docs.
  assert (length docs = length (KYCRow.documents_submitted k)) as Hlen.
  { rewrite <- (length_fmap DocumentRow.doc_id docs).
    apply length_Permutation_proper, NoDup_Permutation.
    - eapply sublist_NoDup; [exact Hnd|apply fmap_sublist, sublist_filter].
    - exact Hids.
    - intros x. rewrite list_elem_of_fmap. split.
      + intros (d & -> & Hd). by apply list_elem_of_filter in Hd as [? _].
      + intros Hx. destruct (Hex x Hx) as (d & Hd & <-).
        exists d. split; [done|]. by apply list_elem_of_filter. }
  assert (forallb (λ d, truthy (DocumentRow.verified d)) docs = true) as Hall.
  { apply forallb_forall. intros d Hd%list_elem_of_In.
    apply list_elem_of_filter in Hd as [Hin Hd]. by rewrite (Hver d Hd Hin). }
  split; [exact Hlen|]. split; [exact Hall|].
  unfold kyc_decision. fold docs. rewrite Hall, andb_true_r, Hlen. f_equal.
  apply bool_decide_ext. destruct (KYCRow.documents_submitted k); simpl; split;
    try done; lia.
Qed.


(** ** From a document to an approved request *)

Lemma select_document_fresh (db : DB) (doc_id i : string) :
  doc_id ∉ DocumentRow.doc_id <$> documents db →
  select_document doc_id i db = None.
Proof.
  intros Hfresh. destruct (select_document doc_id i db) as [d|] eqn:Hsel; [|done].
  apply find_some in Hsel as [Hd Hp]. apply andb_true_iff in Hp as [Hp _].
  apply bool_decide_eq_true in Hp. exfalso. apply Hfresh. rewrite <- Hp.
  by apply list_elem_of_fmap_2, list_elem_of_In.
Qed.

Lemma select_kyc_request_fresh (db : DB) (request_id : string) :
  request_id ∉ KYCRow.request_id <$> kyc_requests db →
  select_kyc_request request_id db = None.
Proof.
  intros Hfresh. destruct (select_kyc_request request_id db) as [k|] eqn:Hsel; [|done].
  apply find_some in Hsel as [Hk Hp]. apply bool_decide_eq_true in Hp.
  exfalso. apply Hfresh. rewrite <- Hp.
  by apply list_elem_of_fmap_2, list_elem_of_In.
Qed.

(** X20. In any state reachable from a fresh database, for a stored
    identity with fewer verified documents than one statement can bind ids:
    submitting a document, verifying it, initiating a KYC request for BASIC
    and processing that request leaves the request APPROVED and the
    identity with 'basic' as its verification level and every other field
    as it was (document and request ids being new), whatever the status of
    the identity is. *)
Theorem basic_kyc_end_to_end (cs : list call) (i : string) (r : IdentityRow.t)
    (t : arg DocType)
    (number country expiry doc_uuid lu1 lt1 now2 lu2 lt2
     req_uuid created_at lu3 lt3 now4 lu4 lt4 : string) :
  select_identity i (run cs empty_db) = Some r →
  doc_uuid ∉ DocumentRow.doc_id <$> documents (run cs empty_db) →
  req_uuid ∉ KYCRow.request_id <$> kyc_requests (run cs empty_db) →
  length (select_verified_doc_ids i (run cs empty_db)) < SQLITE_MAX_VARIABLE_NUMBER →
  let db' :=
    run [ Submit_document i t number country expiry doc_uuid lu1 lt1;
          Verify_document i doc_uuid now2 lu2 lt2;
          Initiate_kyc i (Member BASIC) req_uuid created_at lu3 lt3;
          Process_kyc req_uuid now4 lu4 lt4 ]
        (run cs empty_db) in
  KYCRow.status <$> select_kyc_request req_uuid db' = Some "approved"
  ∧ select_identity i db'
    = Some (IdentityRow.mk (IdentityRow.identity_id r) (IdentityRow.holder_name r)
              (IdentityRow.holder_email r) (IdentityRow.biometric_hash r)
              "basic" (IdentityRow.status r) (IdentityRow.issued_at r)
              (IdentityRow.expires_at r)).
Proof.
  intros Hsel Hdoc Hreq Hfew.
  set (db0 := run cs empty_db) in *.
  set (c1 := Submit_document i t number country expiry doc_uuid lu1 lt1).
  set (c2 := Verify_document i doc_uuid now2 lu2 lt2).
  set (c3 := Initiate_kyc i (Member BASIC) req_uuid created_at lu3 lt3).
  set (c4 := Process_kyc req_uuid now4 lu4 lt4).
  set (db1 := step c1 db0). set (db2 := step c2 db1). set (db3 := step c3 db2).
  change (run [c1; c2; c3; c4] db0) with (step c4 db3). simpl.
  set (row := DocumentRow.mk doc_uuid i (stored t) number country expiry 0 None).
  assert (documents db1 = documents db0 ++ [row]) as D1.
  { subst db1 c1. rewrite step_documents, Hsel. by rewrite bool_decide_eq_false_2. }
  assert (identities db1 = identities db0) as I1 by (subst db1 c1; by rewrite step_identities).
  assert (kyc_requests db1 = kyc_requests db0) as K1
    by (subst db1 c1; by rewrite step_kyc_requests).
  assert (select_document doc_uuid i db1 = Some row) as S1.
  { unfold select_document. rewrite D1, find_app_None.
    - simpl. by rewrite !bool_decide_eq_true_2.
    - by apply (select_document_fresh db0). }
  assert (documents db2
          = (λ d, if bool_decide (DocumentRow.doc_id d = doc_uuid)
                  then DocumentRow.set_verified 1 (Some now2) d else d)
              <$> documents db1) as D2.
  { subst db2 c2. by rewrite step_documents, S1. }
  assert (identities db2 = identities db0) as I2
    by (subst db2 c2; by rewrite step_identities).
  assert (kyc_requests db2 = kyc_requests db0) as K2
    by (subst db2 c2; by rewrite step_kyc_requests).
  assert (select_identity i db2 = Some r) as S2
    by (unfold select_identity in *; by rewrite I2).
  set (k := KYCRow.mk req_uuid i "basic" (select_verified_doc_ids i db2)
              "pending" "" None created_at).
  assert (kyc_requests db3 = kyc_requests db0 ++ [k]) as K3.
  { subst db3 c3. rewrite step_kyc_requests, S2, K2.
    by rewrite bool_decide_eq_false_2. }
  assert (identities db3 = identities db0) as I3
    by (subst db3 c3; by rewrite step_identities).
  assert (select_kyc_request req_uuid db3 = Some k) as S3.
  { unfold select_kyc_request. rewrite K3, find_app_None.
    - simpl. by rewrite bool_decide_eq_true_2.
    - by apply (select_kyc_request_fresh db0). }
  assert (doc_uuid ∈ KYCRow.documents_submitted k) as Hin.
  { simpl. apply select_verified_doc_ids_spec.
    exists (DocumentRow.set_verified 1 (Some now2) row). split; [|done].
    rewrite D2, D1, fmap_app. apply elem_of_app. right. simpl.
    rewrite bool_decide_eq_true_2 by done. left. }
  assert (bindable k = true) as Hfits.
  { apply bool_decide_eq_true. simpl.
    assert (select_verified_doc_ids i db2
            = select_verified_doc_ids i db0 ++ [doc_uuid]) as ->; [|rewrite length_app; simpl; lia].
    unfold select_verified_doc_ids. rewrite D2, D1, !fmap_app, filter_app, fmap_app.
    f_equal.
    - rewrite update_no_match; [done|].
      destruct (List.find _ (documents db0)) as [d|] eqn:F; [|done].
      apply find_some in F as [Hd Hp]. apply bool_decide_eq_true in Hp.
      exfalso. apply Hdoc. rewrite <- Hp.
      by apply list_elem_of_fmap_2, list_elem_of_In.
    - simpl. rewrite bool_decide_eq_true_2 by done.
      by rewrite filter_cons_True by done. }
  assert (kyc_decision k db3 = true) as Hok.
  { assert (db3 = run (cs ++ [c1; c2; c3]) empty_db) as Hrun by (by rewrite run_app).
    assert (k ∈ kyc_requests db3) as Hk.
    { rewrite K3. apply elem_of_app. right. left. }
    destruct (snapshot_invariant_reachable db3) as [Hnd Hsnap]; [by eexists|].
    destruct (kyc_decision_verified_snapshot db3 k Hnd (Hsnap k Hk))
      as (Hlen & _ & ->).
    { rewrite Hrun in Hk. by eapply snapshot_NoDup. }
    destruct (KYCRow.documents_submitted k) as [|x xs] eqn:E.
    { by apply not_elem_of_nil in Hin. }
    rewrite bool_decide_eq_true_2 by done. simpl.
    unfold _check_doc_requirements. simpl. rewrite Hlen.
    apply bool_decide_eq_true. simpl. lia. }
  split.
  - subst c4. rewrite step_process_kyc.
    rewrite (select_kyc_request_processed _ _ _ _ _ k) by done.
    rewrite Hfits. simpl. by rewrite Hok.
  - unfold select_identity at 1. subst c4. rewrite step_identities, S3. simpl.
    rewrite Hfits, Hok. simpl. rewrite I3.
    rewrite (select_identity_fmap db0 i _ r); [|by intros x; destruct (id_is i x)|].
    + unfold id_is. by rewrite bool_decide_eq_true_2 by (by eapply select_identity_id).
    + exact Hsel.
Qed.

(** * The command line *)

Lemma check_verification_level_state (identity_id : string) (db : DB) :
  (check_verification_level identity_id db).1 = db.
Proof.
  unfold check_verification_level. unfold_M.
  destruct (select_identity identity_id db); reflexivity.
Qed.

(** X21. Called with no command, [cli] prints the two usage lines and does
    nothing else.  Of the commands the usage line advertises, submit-doc,
    verify-doc, kyc, process-kyc and revoke are not dispatched: whatever
    arguments follow, [cli] prints "Unknown command or missing arguments"
    and leaves the database as it was; the same happens for create, check,
    report and search when their arguments are missing. *)
Theorem cli_usage_and_unknown_commands (env : Env) (db : DB) (prog : string) :
  cli [] env db
    = (db, inr [ "Usage: python digital_identity.py <command> [args]";
                 "Commands: create, submit-doc, verify-doc, kyc, process-kyc, check, revoke, stats, report" ])
  ∧ cli [prog] env db = cli [] env db
  ∧ (∀ cmd args,
       cmd ∈ ["submit-doc"; "verify-doc"; "kyc"; "process-kyc"; "revoke"] →
       cli (prog :: cmd :: args) env db
       = (db, inr [ "Unknown command or missing arguments: " +:+ cmd ]))
  ∧ (∀ cmd, cmd ∈ ["create"; "check"; "report"; "search"] →
       cli [prog; cmd] env db
       = (db, inr [ "Unknown command or missing arguments: " +:+ cmd ]))
  ∧ (∀ name,
       cli [prog; "create"; name] env db
       = (db, inr [ "Unknown command or missing arguments: create" ])).
Proof.
  split; [reflexivity|]. split; [reflexivity|]. split; [|split].
  - intros cmd args Hcmd.
    repeat (apply elem_of_cons in Hcmd as [->|Hcmd]; [reflexivity|]).
    by apply not_elem_of_nil in Hcmd.
  - intros cmd Hcmd.
    repeat (apply elem_of_cons in Hcmd as [->|Hcmd]; [reflexivity|]).
    by apply not_elem_of_nil in Hcmd.
  - intros name. reflexivity.
Qed.

(** X22. Only the commands create and expire can change the database:
    every other invocation of [cli], whatever it prints or raises, leaves
    the four tables as they were. *)
Theorem cli_changes_only_on_create_and_expire
    (argv : list string) (env : Env) (db : DB) :
  (cli argv env db).1 ≠ db →
  ∃ prog args, argv = prog :: "create" :: args ∨ argv = prog :: "expire" :: args.
Proof.
  intros Hchanged. destruct argv as [|prog [|cmd args]]; [done|done|].
  exists prog, args.
  destruct (decide (cmd = "create")) as [->|Hcreate]; [by left|].
  destruct (decide (cmd = "expire")) as [->|Hexpire]; [by right|].
  exfalso. apply Hchanged. unfold cli. unfold_M.
  rewrite (bool_decide_eq_false_2 (cmd = "create")) by done.
  rewrite (bool_decide_eq_false_2 (cmd = "expire")) by done. simpl.
  repeat (case_bool_decide; simpl; try done).
  - destruct args as [|i ?]; [done|].
    pose proof (check_verification_level_state i db) as Hstate.
    by destruct (check_verification_level i db) as [db' [e|info]].
  - destruct args as [|i ?]; [done|].
    pose proof (generate_identity_report_state i db) as Hstate.
    by destruct (generate_identity_report i db) as [db' [e|info]].
  - by destruct args.
Qed.

(** * The read functions *)

Lemma insert_by_Permutation {A} (before : A → A → bool) (x : A) (l : list A) :
  insert_by before x l ≡ₚ x :: l.
Proof.
  induction l as [|y l IH]; [done|]. simpl. destruct (before x y); [done|].
  rewrite IH. apply Permutation_swap.
Qed.

Lemma order_by_Permutation {A} (before : A → A → bool) (l : list A) :
  order_by before l ≡ₚ l.
Proof.
  induction l as [|x l IH]; [done|]. unfold order_by in *. simpl.
  by rewrite insert_by_Permutation, IH.
Qed.

Lemma order_by_sorted {A} (before : A → A → bool) (l : list A) :
  (∀ x y, before x y = true ∨ before y x = true) →
  (∀ x y z, before x y = true → before y z = true → before x z = true) →
  StronglySorted (λ x y, before x y = true) (order_by before l).
Proof.
  intros Htotal Htrans.
  assert (∀ x l, StronglySorted (λ x y, before x y = true) l →
            StronglySorted (λ x y, before x y = true) (insert_by before x l))
    as Hinsert.
  { clear l. intros x l. induction l as [|y l IH]; intros Hl.
    - repeat constructor.
    - apply StronglySorted_inv in Hl as [Hl Hy]. simpl.
      destruct (before x y) eqn:Hxy.
      + constructor; [by constructor|]. constructor; [done|].
        eapply Forall_impl; [exact Hy|]. intros z Hz. by eapply Htrans.
      + constructor; [by apply IH|].
        apply Forall_forall. intros z Hz.
        rewrite insert_by_Permutation in Hz.
        apply elem_of_cons in Hz as [->|Hz].
        * by destruct (Htotal x y) as [H|H]; [congruence|].
        * by eapply Forall_forall in Hy. }
  induction l as [|x l IH]; [constructor|]. by apply Hinsert.
Qed.

Lemma leb_total_trans :
  (∀ s1 s2, String.leb s1 s2 = true ∨ String.leb s2 s1 = true)
  ∧ (∀ s1 s2 s3, String.leb s1 s2 = true → String.leb s2 s3 = true →
                 String.leb s1 s3 = true).
Proof.
  split; [apply String.leb_total|].
  intros s1 s2 s3 H12 H23. apply Is_true_true.
  change (String.le s1 s3). transitivity s2; by apply Is_true_true.
Qed.

(** X23. [get_audit_trail] returns exactly the audit entries of the
    identity, each as often as it is stored, in ascending order of
    timestamp; [get_kyc_history] returns exactly the identity's requests in
    descending order of creation time; [get_documents] returns the
    identity's documents in stored order. *)
Theorem read_functions_select_and_sort (db : DB) (i : string) :
  (∃ rows,
     get_audit_trail i db = (db, inr rows)
     ∧ rows ≡ₚ filter (λ a, AuditRow.identity_id a = i) (audit_log db)
     ∧ StronglySorted
         (λ a b, String.leb (AuditRow.timestamp a) (AuditRow.timestamp b) = true)
         rows)
  ∧ (∃ rows,
       get_kyc_history i db = (db, inr rows)
       ∧ rows ≡ₚ filter (λ k, KYCRow.identity_id k = i) (kyc_requests db)
       ∧ StronglySorted
           (λ a b, String.leb (KYCRow.created_at b) (KYCRow.created_at a) = true)
           rows)
  ∧ (∃ rows,
       get_documents i db = (db, inr rows)
       ∧ rows `sublist_of` documents db
       ∧ ∀ d, d ∈ rows ↔ d ∈ documents db ∧ DocumentRow.identity_id d = i).
Proof.
  destruct leb_total_trans as [Htotal Htrans].
  split; [|split]; eexists; (split; [reflexivity|]).
  - split; [apply order_by_Permutation|].
    apply (order_by_sorted (asc AuditRow.timestamp)); unfold asc.
    + intros x y. apply Htotal.
    + intros x y z. apply Htrans.
  - split; [apply order_by_Permutation|].
    apply (order_by_sorted (desc KYCRow.created_at)); unfold desc.
    + intros x y. apply Htotal.
    + intros x y z H1 H2. by eapply Htrans.
  - split; [apply sublist_filter|].
    intros d. rewrite list_elem_of_filter. split; intros [? ?]; by split.
Qed.

Lemma filter_applies (o : option string) (v : string) :
  match nonempty o with
  | Some s => bool_decide (v = s)
  | None => true
  end = true
  ↔ ∀ s, o = Some s → s ≠ "" → v = s.
Proof.
  destruct o as [s|]; simpl; [|by split].
  case_bool_decide as Hs.
  - split; [|done]. intros _ s' [= <-] Hne. done.
  - rewrite bool_decide_eq_true. split.
    + by intros -> s' [= <-] _.
    + intros H. by apply H.
Qed.

(** X24. [list_identities] returns, in stored order, exactly the
    identities that match the filters given; a filter that is absent or the
    empty string is not applied, so with no filter every identity is
    listed. *)
Theorem list_identities_filters (db : DB) (status level : option string) :
  (∃ rows,
     list_identities status level db = (db, inr rows)
     ∧ rows `sublist_of` identities db
     ∧ ∀ r, r ∈ rows ↔
            r ∈ identities db
            ∧ (∀ s, status = Some s → s ≠ "" → IdentityRow.status r = s)
            ∧ (∀ l, level = Some l → l ≠ "" → IdentityRow.verification_level r = l))
  ∧ list_identities (Some "") level db = list_identities None level db
  ∧ list_identities status (Some "") db = list_identities status None db
  ∧ list_identities None None db = (db, inr (identities db)).
Proof.
  clear -db status level.
  split; [|split; [|split]].
  - eexists. split; [reflexivity|]. split.
    + induction (identities db) as [|r l IH]; [done|]. simpl.
      destruct (_ && _); by constructor.
    + intros r. rewrite list_elem_of_In, filter_In, <- list_elem_of_In.
      rewrite andb_true_iff, !filter_applies. tauto.
  - reflexivity.
  - unfold list_identities, query. by destruct status.
  - unfold list_identities, query. simpl. f_equal. f_equal.
    induction (identities db) as [|r l IH]; [done|]. simpl. by rewrite IH.
Qed.

(** * Requests *)

(** X25. For a stored identity and new ids, [initiate_kyc] returns a
    PENDING request holding the ids of the identity's verified documents,
    appends the corresponding row and one INITIATE_KYC audit entry, and the
    row is what a lookup by the new request id finds.  If the identity has
    no verified document the snapshot is empty and processing the request
    rejects it, whatever level was asked for. *)
Theorem initiate_kyc_fresh (db : DB) (i : string) (level : arg VerificationLevel)
    (uuid4 created_at lu lt : string) (r : IdentityRow.t) :
  select_identity i db = Some r →
  uuid4 ∉ KYCRow.request_id <$> kyc_requests db →
  lu ∉ AuditRow.log_id <$> audit_log db →
  let ids := select_verified_doc_ids i db in
  let row := KYCRow.mk uuid4 i (stored level) ids "pending" "" None created_at in
  ∃ db',
    initiate_kyc i level uuid4 created_at lu lt db
    = (db', inr (KYCRequest.mk i level ids PENDING "" None uuid4 created_at))
    ∧ db' = mkDB (identities db) (documents db) (kyc_requests db ++ [row])
              (audit_log db ++
                 [AuditRow.mk lu i "INITIATE_KYC"
                    ("KYC requested for level "
                     +:+ format_arg format_VerificationLevel level) lt])
    ∧ select_kyc_request uuid4 db' = Some row
    ∧ (ids = [] →
       ∀ utcnow lu' lt',
         KYCRow.status <$>
           select_kyc_request uuid4 (process_kyc uuid4 utcnow lu' lt' db').1
         = Some "rejected").
Proof.
  intros Hsel Hid Hlog ids row. eexists. split.
  - unfold initiate_kyc. unfold_M. rewrite Hsel. simpl.
    rewrite (bool_decide_eq_false_2 _ Hid). simpl.
    rewrite (bool_decide_eq_false_2 _ Hlog). reflexivity.
  - split; [reflexivity|].
    assert (select_kyc_request uuid4
              (mkDB (identities db) (documents db) (kyc_requests db ++ [row])
                 (audit_log db ++
                    [AuditRow.mk lu i "INITIATE_KYC"
                       ("KYC requested for level "
                        +:+ format_arg format_VerificationLevel level) lt]))
            = Some row) as Hrow.
    { unfold select_kyc_request. simpl. rewrite find_app_None.
      - simpl. by rewrite bool_decide_eq_true_2.
      - by apply select_kyc_request_fresh. }
    split; [exact Hrow|]. intros Hempty utcnow lu' lt'.
    rewrite (select_kyc_request_processed _ _ _ _ _ row) by done.
    rewrite (bindable_nil row) by done. simpl.
    unfold kyc_decision. simpl. fold ids. rewrite Hempty.
    by rewrite select_documents_in_nil.
Qed.

(** X26. When the level stored in a pending request is one of the four
    level names, its snapshot has no more ids than one statement can bind,
    and the id for the audit entry is new, [process_kyc] returns the request
    as it now is: same identity, level, snapshot, id and creation time as
    the stored row, with the outcome, the notes and the processing time it
    has just written. *)
Theorem process_kyc_returns (db : DB) (request_id utcnow lu lt : string)
    (row : KYCRow.t) (level : VerificationLevel) :
  select_kyc_request request_id db = Some row →
  KYCRow.status row = "pending" →
  KYCRow.requested_level row = value level →
  length (KYCRow.documents_submitted row) ≤ SQLITE_MAX_VARIABLE_NUMBER →
  lu ∉ AuditRow.log_id <$> audit_log db →
  ∃ db' req row',
    process_kyc request_id utcnow lu lt db = (db', inr req)
    ∧ select_kyc_request request_id db' = Some row'
    ∧ KYCRequest.identity_id req = KYCRow.identity_id row'
    ∧ KYCRequest.requested_level req = Member level
    ∧ KYCRequest.documents_submitted req = KYCRow.documents_submitted row'
    ∧ value (KYCRequest.status req) = KYCRow.status row'
    ∧ KYCRequest.notes req = KYCRow.notes row'
    ∧ KYCRequest.processed_at req = KYCRow.processed_at row'
    ∧ KYCRequest.request_id req = KYCRow.request_id row'
    ∧ KYCRequest.created_at req = KYCRow.created_at row'
    ∧ KYCRow.processed_at row' = Some utcnow.
Proof.
  intros Hsel Hst Hlevel Hlen Hlog.
  assert (bindable row = true) as Hfits by by apply bool_decide_eq_true.
  pose proof (select_kyc_request_processed db request_id utcnow lu lt row Hsel Hst)
    as Hrow.
  rewrite Hfits in Hrow.
  rewrite (process_kyc_pending_fresh db request_id utcnow lu lt row Hsel Hst
             Hfits Hlog) in Hrow |- *.
  assert (of_value VerificationLevel_members (KYCRow.requested_level row)
          = Some level) as -> by (rewrite Hlevel; by destruct level).
  eexists _, _, _. split; [reflexivity|]. split; [exact Hrow|]. simpl.
  pose proof (select_kyc_request_id db request_id row Hsel) as Hid.
  destruct (kyc_decision row db); by repeat split.
Qed.

(** * The audit log, call by call *)

Lemma step_audit_log_action (c : call) (db : DB) :
  audit_log (step c db) = audit_log db
  ∨ logs c = true
    ∧ ∃ a, audit_log (step c db) = audit_log db ++ [a]
           ∧ AuditRow.action a
               ∈ [ "CREATE_IDENTITY"; "SUBMIT_DOCUMENT"; "VERIFY_DOCUMENT";
                   "INITIATE_KYC"; "PROCESS_KYC"; "REVOKE_IDENTITY";
                   "SUSPEND_IDENTITY"; "REACTIVATE_IDENTITY" ].
Proof.
  rewrite step_audit_log_exact. simpl.
  destruct c; try (by left); repeat (case_match; try (by left));
    right; (split; [done|]); eexists; (split; [done|]); simpl;
    repeat constructor.
Qed.

(** X27. The audit log only grows at its end: through any sequence of
    calls the entries already stored stay in place and unchanged, at most
    one entry is appended per call of one of the eight logging functions
    (none by the read functions and by [expire_old_identities]), and every
    entry appended carries one of the eight action names. *)
Theorem audit_log_append_only (cs : list call) (db : DB) :
  ∃ new,
    audit_log (run cs db) = audit_log db ++ new
    ∧ length new ≤ length (List.filter logs cs)
    ∧ ∀ a, a ∈ new →
           AuditRow.action a
             ∈ [ "CREATE_IDENTITY"; "SUBMIT_DOCUMENT"; "VERIFY_DOCUMENT";
                 "INITIATE_KYC"; "PROCESS_KYC"; "REVOKE_IDENTITY";
                 "SUSPEND_IDENTITY"; "REACTIVATE_IDENTITY" ].
Proof.
  revert db. induction cs as [|c cs IH]; intros db.
  - exists []. rewrite app_nil_r. split; [done|]. split; [done|].
    by intros a ?%not_elem_of_nil.
  - destruct (IH (step c db)) as (new & Hnew & Hlen & Hact). simpl. rewrite Hnew.
    destruct (step_audit_log_action c db) as [->|[Hc (a & -> & Ha)]].
    + exists new. split; [done|]. split; [|done].
      destruct (logs c); simpl; lia.
    + exists (a :: new). rewrite <- app_assoc. split; [done|]. rewrite Hc.
      split; [simpl; lia|]. intros a' [->|Ha']%elem_of_cons; auto.
Qed.

(** X28. For a stored identity [check_verification_level] returns the
    stored name, e-mail address, level, status and times, the number of the
    identity's documents and of the verified ones among them (never more
    than the former), and as last KYC status the status of a request of the
    identity with the latest creation time, or nothing when the identity
    has no request. *)
Theorem check_verification_level_found (db : DB) (i : string) (row : IdentityRow.t) :
  select_identity i db = Some row →
  ∃ info,
    check_verification_level i db = (db, inr info)
    ∧ VerificationInfo.identity_id info = i
    ∧ VerificationInfo.holder_name info = IdentityRow.holder_name row
    ∧ VerificationInfo.holder_email info = IdentityRow.holder_email row
    ∧ VerificationInfo.verification_level info = IdentityRow.verification_level row
    ∧ VerificationInfo.status info = IdentityRow.status row
    ∧ VerificationInfo.issued_at info = IdentityRow.issued_at row
    ∧ VerificationInfo.expires_at info = IdentityRow.expires_at row
    ∧ VerificationInfo.total_documents info
      = length (filter (λ d, DocumentRow.identity_id d = i) (documents db))
    ∧ VerificationInfo.verified_documents info ≤ VerificationInfo.total_documents info
    ∧ VerificationInfo.pending_kyc_requests info
      ≤ length (filter (λ k, KYCRow.identity_id k = i) (kyc_requests db))
    ∧ (VerificationInfo.last_kyc_status info = None ↔
       ∀ k, k ∈ kyc_requests db → KYCRow.identity_id k ≠ i)
    ∧ ∀ s, VerificationInfo.last_kyc_status info = Some s →
           ∃ k, k ∈ kyc_requests db ∧ KYCRow.identity_id k = i
                ∧ KYCRow.status k = s
                ∧ ∀ k', k' ∈ kyc_requests db → KYCRow.identity_id k' = i →
                        String.leb (KYCRow.created_at k') (KYCRow.created_at k) = true.
Proof.
  intros Hsel. eexists. split.
  { unfold check_verification_level. unfold_M. rewrite Hsel. reflexivity. }
  simpl. repeat (split; [reflexivity|]).
  set (mine := filter (λ k, KYCRow.identity_id k = i) (kyc_requests db)).
  set (rows := order_by (desc KYCRow.created_at) mine).
  assert (rows ≡ₚ mine) as Hperm by apply order_by_Permutation.
  assert (∀ k, k ∈ rows ↔ k ∈ kyc_requests db ∧ KYCRow.identity_id k = i) as Hrows.
  { intros k. rewrite Hperm. subst mine. rewrite list_elem_of_filter.
    split; intros [? ?]; by split. }
  destruct leb_total_trans as [Htotal Htrans].
  assert (StronglySorted
            (λ a b, String.leb (KYCRow.created_at b) (KYCRow.created_at a) = true)
            rows) as Hsorted.
  { apply (order_by_sorted (desc KYCRow.created_at)); unfold desc.
    - intros x y. apply Htotal.
    - intros x y z H1 H2. by eapply Htrans. }
  split; [apply filter_length_le|]. split.
  { rewrite <- Hperm. apply length_filter. }
  split.
  - destruct rows as [|k rest] eqn:E; simpl.
    + split; [|done]. intros _ k Hk Hi.
      assert (k ∈ @nil KYCRow.t) as Hin by (apply Hrows; done).
      by apply not_elem_of_nil in Hin.
    + split; [done|]. intros Hnone. exfalso.
      destruct (proj1 (Hrows k)) as [Hk Hi]; [left|]. by apply (Hnone k).
  - intros s Hs. destruct rows as [|k rest] eqn:E; simpl in Hs; [done|].
    injection Hs as <-.
    destruct (proj1 (Hrows k)) as [Hk Hi]; [left|].
    exists k. repeat split; try done.
    intros k' Hk' Hi'.
    apply StronglySorted_inv in Hsorted as [_ Hhead].
    assert (k' ∈ k :: rest) as [->|Hin]%elem_of_cons by (by apply Hrows).
    + destruct (Htotal (KYCRow.created_at k) (KYCRow.created_at k)); done.
    + by eapply Forall_forall in Hhead.
Qed.

End Operations.

(** * Concrete runs

    The library functions left abstract above are instantiated with
    stand-ins; none of the facts below depends on what they return. *)

#[local] Abbreviation sample_run :=
  (run (λ s, s) (λ t : DocType, value t) (λ l : VerificationLevel, value l)
       (λ s, s) 999 (λ _ _, false) unit (λ _ _, ()) () (λ _ _ _ _, "")).

#[local] Abbreviation sample_step :=
  (step (λ s, s) (λ t : DocType, value t) (λ l : VerificationLevel, value l)
        (λ s, s) 999 (λ _ _, false) unit (λ _ _, ()) () (λ _ _ _ _, "")).

Lemma dave_calls_state : sample_run dave_calls empty_db = dave_db.
Proof. vm_compute. reflexivity. Qed.

Lemma process_kyc_approves_only_verified_snapshot_witness :
  select_kyc_request "r1" dave_db = Some dave_request
  ∧ KYCRow.status dave_request = "pending"
  ∧ ∃ row',
      select_kyc_request "r1"
        (process_kyc (λ s, s) 999 "r1" "2026-11-03T09:10:00" "a5"
           "2026-11-03T09:10:00" dave_db).1 = Some row'
      ∧ (KYCRow.status row' = "approved" →
           KYCRow.documents_submitted dave_request ≠ []
           ∧ ∀ d, d ∈ documents dave_db →
                  DocumentRow.doc_id d ∈ KYCRow.documents_submitted dave_request →
                  truthy (DocumentRow.verified d) = true).
Proof.
  split; [reflexivity|]. split; [reflexivity|].
  destruct (process_kyc_approves_only_verified_snapshot (λ s, s)
              (λ t : DocType, value t) (λ l : VerificationLevel, value l)
              (λ s, s) 999 (λ _ _, false) unit (λ _ _, ()) () (λ _ _ _ _, "")
              dave_db "r1"
              "2026-11-03T09:10:00" "a5" "2026-11-03T09:10:00" dave_request
              eq_refl eq_refl) as (row' & Hsel & _ & Happroved & _).
  exists row'. split; [exact Hsel|].
  intros Hst. destruct (Happroved Hst) as (Hids & _ & Hall). split; assumption.
Defined.

Lemma process_kyc_outcome_effects_witness :
  select_kyc_request "r1" dave_db = Some dave_request
  ∧ KYCRow.status dave_request = "pending"
  ∧ ∃ db' res row',
      process_kyc (λ s, s) 999 "r1" "2026-11-03T09:10:00" "a5"
        "2026-11-03T09:10:00" dave_db = (db', res)
      ∧ select_kyc_request "r1" db' = Some row'
      ∧ KYCRow.processed_at row' = Some "2026-11-03T09:10:00"
      ∧ KYCRow.status row' = "approved"
      ∧ IdentityRow.verification_level <$> identities db' !! 0 = Some "basic".
Proof.
  split; [reflexivity|]. split; [reflexivity|].
  destruct (process_kyc_outcome_effects (λ s, s) 999 dave_db "r1"
              "2026-11-03T09:10:00" "a5" "2026-11-03T09:10:00" dave_request
              eq_refl eq_refl)
    as (db' & res & row' & Hrun & Hsel & Hat & Hcases & _).
  exists db', res, row'. split; [exact Hrun|]. split; [exact Hsel|].
  split; [exact Hat|].
  assert (KYCRow.status row' = "approved") as Hst.
  { assert (select_kyc_request "r1"
              (process_kyc (λ s, s) 999 "r1" "2026-11-03T09:10:00" "a5"
                 "2026-11-03T09:10:00" dave_db).1 = Some row') as H
      by (by rewrite Hrun).
    vm_compute in H. by injection H as <-. }
  split; [exact Hst|].
  destruct Hcases as [(_ & _ & _ & Hrows)|[(Hrej & _)|(Hmany & _)]].
  - by rewrite (Hrows 0 _ eq_refl).
  - congruence.
  - simpl in Hmany. lia.
Defined.

Lemma process_kyc_at_most_once_witness :
  select_kyc_request "r1" dave_db = Some dave_request
  ∧ ∃ row',
      select_kyc_request "r1"
        (process_kyc (λ s, s) 999 "r1" "2026-11-03T09:10:00" "a5"
           "2026-11-03T09:10:00" dave_db).1 = Some row'
      ∧ KYCRow.status row' ≠ "pending".
Proof.
  split; [reflexivity|].
  destruct (process_kyc_at_most_once (λ s, s) (λ t : DocType, value t)
              (λ l : VerificationLevel, value l) (λ s, s) 999 (λ _ _, false) unit
              (λ _ _, ()) () (λ _ _ _ _, "") dave_db "r1" dave_request eq_refl)
    as [_ Hpending].
  exact (Hpending eq_refl "2026-11-03T09:10:00" "a5" "2026-11-03T09:10:00").
Defined.

Lemma kyc_snapshot_frozen_witness :
  kyc_requests (sample_run dave_calls empty_db) !! 0 = Some dave_request
  ∧ ∀ later, ∃ k',
      kyc_requests (sample_run later (sample_run dave_calls empty_db)) !! 0 = Some k'
      ∧ KYCRow.documents_submitted k' = ["d1"]
      ∧ kyc_decision k' (sample_run later (sample_run dave_calls empty_db))
        = kyc_decision dave_request (sample_run dave_calls empty_db).
Proof.
  split; [vm_compute; reflexivity|]. intros later.
  destruct (kyc_snapshot_frozen (λ s, s) (λ t : DocType, value t)
              (λ l : VerificationLevel, value l) (λ s, s) 999 (λ _ _, false) unit
              (λ _ _, ()) () (λ _ _ _ _, "") dave_calls 0 dave_request)
    as [_ Hlater]; [vm_compute; reflexivity|].
  destruct (Hlater later) as (k' & Hk' & _ & Hids & _ & _ & _ & Hdecision).
  exists k'. split; [exact Hk'|]. split; [exact Hids|exact Hdecision].
Defined.

Lemma verification_level_changes_only_by_approval_witness :
  select_identity "i1" dave_db = Some (IdentityRow.mk "i1" "Dave Brown"
    "dave@example.com" None "unverified" "active" "2026-11-03T09:00:00"
    "2031-11-02T09:00:00")
  ∧ ∃ r',
      select_identity "i1"
        (sample_step (Process_kyc "r1" "2026-11-03T09:10:00" "a5"
                        "2026-11-03T09:10:00") dave_db) = Some r'
      ∧ (IdentityRow.verification_level r' = "unverified"
         ∨ IdentityRow.verification_level r' = "basic").
Proof.
  split; [reflexivity|].
  destruct (verification_level_changes_only_by_approval (λ s, s)
              (λ t : DocType, value t) (λ l : VerificationLevel, value l)
              (λ s, s) 999 (λ _ _, false) unit (λ _ _, ()) () (λ _ _ _ _, "")
              (Process_kyc "r1" "2026-11-03T09:10:00" "a5" "2026-11-03T09:10:00")
              dave_db "i1" _ eq_refl) as (r' & Hsel & Hlevel).
  exists r'. split; [exact Hsel|].
  destruct Hlevel as [Hsame|(rid & now & lu & lt & row & Hc & Hreq & _ & _ & _ & Hnew)].
  - left. exact Hsame.
  - right. injection Hc as <- _ _ _. rewrite Hnew.
    injection Hreq as <-. reflexivity.
Defined.

Lemma ann_calls_state :
  sample_run ann_calls empty_db
  = mkDB [ IdentityRow.set_status "expired" old_identity ] [] [] (audit_log old_db).
Proof. vm_compute. reflexivity. Qed.

Lemma revoked_or_expired_without_suspend_witness :
  select_identity "i1" (sample_run ann_calls empty_db)
    = Some (IdentityRow.set_status "expired" old_identity)
  ∧ (IdentityRow.status (IdentityRow.set_status "expired" old_identity) = "revoked"
     ∨ IdentityRow.status (IdentityRow.set_status "expired" old_identity) = "expired")
  ∧ Forall (λ c, suspends "i1" c = false)
      [ Reactivate_identity "i1" "a2" "2026-11-03T09:01:00";
        Expire_old_identities "2026-11-03T09:02:00";
        Revoke_identity "i1" "Fraudulent activity" "a3" "2026-11-03T09:03:00" ]
  ∧ ∃ r',
      select_identity "i1"
        (sample_run
           [ Reactivate_identity "i1" "a2" "2026-11-03T09:01:00";
             Expire_old_identities "2026-11-03T09:02:00";
             Revoke_identity "i1" "Fraudulent activity" "a3" "2026-11-03T09:03:00" ]
           (sample_run ann_calls empty_db)) = Some r'
      ∧ (IdentityRow.status r' = "expired" ∨ IdentityRow.status r' = "revoked").
Proof.
  split; [vm_compute; reflexivity|]. split; [right; reflexivity|].
  split; [repeat constructor|].
  destruct (revoked_or_expired_without_suspend (λ s, s) (λ t : DocType, value t)
              (λ l : VerificationLevel, value l) (λ s, s) 999 (λ _ _, false) unit
              (λ _ _, ()) () (λ _ _ _ _, "")
              [ Reactivate_identity "i1" "a2" "2026-11-03T09:01:00";
                Expire_old_identities "2026-11-03T09:02:00";
                Revoke_identity "i1" "Fraudulent activity" "a3"
                  "2026-11-03T09:03:00" ]
              (sample_run ann_calls empty_db) "i1"
              (IdentityRow.set_status "expired" old_identity))
    as (r' & Hsel & Hst);
    [vm_compute; reflexivity|right; reflexivity|repeat constructor|].
  exists r'. split; [exact Hsel|].
  destruct Hst as [Hsame|[Hrev _]]; [left; exact Hsame|right; exact Hrev].
Defined.

Lemma revoke_twice_and_reactivate_guard_witness :
  select_identity "i1" old_db = Some old_identity
  ∧ (∃ db2,
       revoke_identity "i1" "Reported again" "a3" "2026-11-03T09:02:00"
         (revoke_identity "i1" "Fraudulent activity" "a2" "2026-11-03T09:01:00"
            old_db).1 = (db2, inr true)
       ∧ IdentityRow.status <$> select_identity "i1" db2 = Some "revoked")
  ∧ reactivate_identity "i1" "a2" "2026-11-03T09:01:00" old_db
    = (old_db, inl (ValueError "Identity i1 is not suspended")).
Proof.
  split; [reflexivity|].
  destruct (revoke_twice_and_reactivate_guard old_db "i1" old_identity eq_refl)
    as [Hrevoke Hreactivate].
  split.
  - destruct (Hrevoke "Fraudulent activity" "a2" "2026-11-03T09:01:00"
                "Reported again" "a3" "2026-11-03T09:02:00")
      as (db2 & Hrun & _ & Hst).
    + apply (bool_decide_unpack _). vm_compute. exact I.
    + exists db2. split; [exact Hrun|exact Hst].
  - apply Hreactivate. discriminate.
Defined.

(** C6, counterexample.  An identity at ENHANCED files a request for BASIC;
    the request is approved and the level goes down from rank 3 to rank 1. *)
Lemma verification_level_can_decrease :
  let db1 := sample_run erin_calls empty_db in
  let db2 := sample_step (Process_kyc "r2" "2026-11-03T09:10:00" "a11"
                            "2026-11-03T09:10:00") db1 in
  (IdentityRow.verification_level <$> select_identity "i1" db1) ≫= rank_of_value
    = Some 3
  ∧ KYCRow.status <$> select_kyc_request "r2" db2 = Some "approved"
  ∧ (IdentityRow.verification_level <$> select_identity "i1" db2) ≫= rank_of_value
    = Some 1.
Proof. repeat split; vm_compute; reflexivity. Qed.

(** C7, counterexample.  An identity that the sweep has marked EXPIRED is
    revoked: its status leaves EXPIRED for REVOKED. *)
Lemma expired_identity_can_be_revoked :
  let db1 := sample_run ann_calls empty_db in
  let db2 := sample_step (Revoke_identity "i1" "Fraudulent activity" "a2"
                            "2026-11-03T09:01:00") db1 in
  IdentityRow.status <$> select_identity "i1" db1 = Some "expired"
  ∧ IdentityRow.status <$> select_identity "i1" db2 = Some "revoked".
Proof. split; vm_compute; reflexivity. Qed.

(** [suspend_identity] reads the status of the row but does not look at it:
    a revoked identity can be suspended and then reactivated. *)
Lemma revoked_identity_can_be_suspended :
  let db1 := sample_step (Revoke_identity "i1" "Fraudulent activity" "a2"
                            "2026-11-03T09:01:00") old_db in
  let db2 := sample_step (Suspend_identity "i1" "Under review" "a3"
                            "2026-11-03T09:02:00") db1 in
  let db3 := sample_step (Reactivate_identity "i1" "a4" "2026-11-03T09:03:00") db2 in
  IdentityRow.status <$> select_identity "i1" db1 = Some "revoked"
  ∧ IdentityRow.status <$> select_identity "i1" db2 = Some "suspended"
  ∧ IdentityRow.status <$> select_identity "i1" db3 = Some "active".
Proof. repeat split; vm_compute; reflexivity. Qed.

(** C8.  [expire_old_identities] is a mutating call that writes no audit
    entry: on a database holding one ACTIVE identity whose expiry date has
    passed it marks the identity EXPIRED, reports one updated row, and
    leaves the audit log as it was. *)
Theorem expire_old_identities_appends_no_audit_entry :
  ∃ db',
    expire_old_identities "2026-11-03T09:00:00" old_db = (db', inr 1)
    ∧ identities db' = [ IdentityRow.set_status "expired" old_identity ]
    ∧ identities db' ≠ identities old_db
    ∧ audit_log db' = audit_log old_db.
Proof.
  eexists. split; [vm_compute; reflexivity|]. simpl.
  split; [reflexivity|]. split; [discriminate|reflexivity].
Qed.

(** ** Further concrete runs *)

(** A closed decidable proposition is settled by evaluating its decision
    procedure. *)
#[local] Ltac by_evaluation :=
  match goal with
  | |- ?P => apply (@bool_decide_unpack P _); vm_compute; exact I
  end.

#[local] Abbreviation sample_cli :=
  (cli (λ s, s) (λ _ _, false) unit (λ _ _, ()) () (λ _ _ _ _, "")
       (λ _, "") (λ _, "") (λ s, s)).

(** The further example states are states the calls produce. *)
Lemma example_states :
  sample_run (take 2 dave_calls) empty_db = dave_submitted
  ∧ sample_run (take 3 dave_calls) empty_db = dave_verified
  ∧ sample_step (Initiate_kyc "i1" (Raw "gold") "r1" "2026-11-03T09:03:00" "a4"
                   "2026-11-03T09:03:00") dave_verified = gold_db.
Proof. repeat split; vm_compute; reflexivity. Qed.

(** With a library that binds at most two variables in a statement,
    Erin's request over three verified documents cannot be processed:
    [process_kyc] raises after it has committed the PROCESSING status, and
    writes no outcome, no new level and no audit entry. *)
Lemma request_left_processing :
  ∃ db',
    process_kyc (λ s, s) 2 "r1" "2026-11-03T09:08:00" "a9" "2026-11-03T09:08:00"
      (sample_run (take 8 erin_calls) empty_db)
    = (db', inl (OperationalError "too many SQL variables"))
    ∧ KYCRow.status <$> select_kyc_request "r1" db' = Some "processing"
    ∧ identities db' = identities (sample_run (take 8 erin_calls) empty_db)
    ∧ audit_log db' = audit_log (sample_run (take 8 erin_calls) empty_db).
Proof. eexists. split; [vm_compute; reflexivity|]. repeat split. Qed.

Lemma check_doc_requirements_more_documents_witness :
  _check_doc_requirements "standard"
    [ DocumentRow.mk "d1" "i1" "passport" "P1" "UK" "2029-01-01" 1 None;
      DocumentRow.mk "d2" "i1" "license" "L1" "UK" "2029-01-01" 1 None ] = true
  ∧ _check_doc_requirements "standard"
      ([ DocumentRow.mk "d1" "i1" "passport" "P1" "UK" "2029-01-01" 1 None;
         DocumentRow.mk "d2" "i1" "license" "L1" "UK" "2029-01-01" 1 None ]
       ++ [ DocumentRow.mk "d3" "i1" "utility_bill" "U1" "UK" "2029-01-01" 1 None ])
    = true.
Proof.
  split; [reflexivity|].
  apply check_doc_requirements_more_documents. reflexivity.
Defined.

Lemma check_doc_requirements_tiers_witness :
  _check_doc_requirements "enhanced" (documents (sample_run erin_calls empty_db)) = true
  ∧ _check_doc_requirements "basic" (documents (sample_run erin_calls empty_db)) = true.
Proof.
  assert (_check_doc_requirements "enhanced"
            (documents (sample_run erin_calls empty_db)) = true) as Henhanced
    by (vm_compute; reflexivity).
  split; [exact Henhanced|].
  destruct (check_doc_requirements_tiers (documents (sample_run erin_calls empty_db)))
    as [Hstandard Hbasic].
  exact (Hbasic (Hstandard Henhanced)).
Defined.

Lemma create_identity_fresh_witness :
  ("i2" ∉ IdentityRow.identity_id <$> identities dave_db)
  ∧ ("erin@example.com" ∉ IdentityRow.holder_email <$> identities dave_db)
  ∧ ("a5" ∉ AuditRow.log_id <$> audit_log dave_db)
  ∧ ∃ db',
      (create_identity (λ s, s) "Erin Gray" "erin@example.com" (Some "") "i2"
         "2026-11-03T10:00:00" "2031-11-02T10:00:00" "a5" "2026-11-03T10:00:00"
         dave_db).1 = db'
      ∧ select_identity "i2" db'
        = Some (IdentityRow.mk "i2" "Erin Gray" "erin@example.com" None
                  "unverified" "active" "2026-11-03T10:00:00" "2031-11-02T10:00:00")
      ∧ select_identity "i1" db' = select_identity "i1" dave_db.
Proof.
  assert ("i2" ∉ IdentityRow.identity_id <$> identities dave_db) as H1
    by by_evaluation.
  assert ("erin@example.com" ∉ IdentityRow.holder_email <$> identities dave_db)
    as H2 by by_evaluation.
  assert ("a5" ∉ AuditRow.log_id <$> audit_log dave_db) as H3 by by_evaluation.
  split; [exact H1|]. split; [exact H2|]. split; [exact H3|].
  destruct (create_identity_fresh (λ s, s) dave_db "Erin Gray" "erin@example.com"
              (Some "") "i2" "2026-11-03T10:00:00" "2031-11-02T10:00:00" "a5"
              "2026-11-03T10:00:00" H1 H2 H3) as (db' & Hrun & _ & Hnew & Hother).
  exists db'. split; [by rewrite Hrun|]. split; [exact Hnew|].
  by apply Hother.
Defined.

Lemma create_identity_duplicate_witness :
  ("i2" ∈ IdentityRow.identity_id <$> identities dave_db
   ∨ "dave@example.com" ∈ IdentityRow.holder_email <$> identities dave_db)
  ∧ create_identity (λ s, s) "David Brown" "dave@example.com" None "i2"
      "2026-11-03T10:00:00" "2031-11-02T10:00:00" "a5" "2026-11-03T10:00:00"
      dave_db
    = (dave_db, inl IntegrityError).
Proof.
  assert ("i2" ∈ IdentityRow.identity_id <$> identities dave_db
          ∨ "dave@example.com" ∈ IdentityRow.holder_email <$> identities dave_db)
    as Htaken by (right; by_evaluation).
  split; [exact Htaken|].
  exact (create_identity_duplicate (λ s, s) dave_db "David Brown"
           "dave@example.com" None "i2" "2026-11-03T10:00:00"
           "2031-11-02T10:00:00" "a5" "2026-11-03T10:00:00" Htaken).
Defined.

Lemma unknown_identity_not_found_witness :
  select_identity "i9" dave_db = None
  ∧ revoke_identity "i9" "Fraudulent activity" "a5" "2026-11-03T10:00:00" dave_db
    = (dave_db, inl (ValueError "Identity i9 not found"))
  ∧ check_verification_level "i9" dave_db
    = (dave_db, inl (ValueError "Identity i9 not found")).
Proof.
  split; [reflexivity|].
  pose proof (unknown_identity_not_found (λ t : DocType, value t)
                (λ l : VerificationLevel, value l) (λ _ _ _ _, "")
                dave_db "i9" eq_refl) as H.
  cbv zeta in H. destruct H as (_ & _ & Hrevoke & _ & _ & Hcheck & _).
  split; [apply Hrevoke|exact Hcheck].
Defined.

Lemma unknown_document_or_request_not_found_witness :
  (∀ d, d ∈ documents dave_db → DocumentRow.doc_id d = "d1" →
        DocumentRow.identity_id d ≠ "i2")
  ∧ verify_document "i2" "d1" "2026-11-03T10:00:00" "a5" "2026-11-03T10:00:00"
      dave_db
    = (dave_db, inl (ValueError "Document d1 not found for identity i2"))
  ∧ ("r9" ∉ KYCRow.request_id <$> kyc_requests dave_db)
  ∧ process_kyc (λ s, s) 999 "r9" "2026-11-03T10:00:00" "a5" "2026-11-03T10:00:00"
      dave_db
    = (dave_db, inl (ValueError "KYC request r9 not found")).
Proof.
  assert (∀ d, d ∈ documents dave_db → DocumentRow.doc_id d = "d1" →
               DocumentRow.identity_id d ≠ "i2") as Hother.
  { intros d Hd _. apply list_elem_of_singleton in Hd as ->. discriminate. }
  assert ("r9" ∉ KYCRow.request_id <$> kyc_requests dave_db) as Hnone
    by by_evaluation.
  destruct (unknown_document_or_request_not_found (λ s, s) 999 dave_db)
    as [Hverify Hprocess].
  split; [exact Hother|]. split; [by apply Hverify|].
  split; [exact Hnone|]. by apply Hprocess.
Defined.

Lemma submit_document_fresh_witness :
  select_identity "i1" dave_db
    = Some (IdentityRow.mk "i1" "Dave Brown" "dave@example.com" None "unverified"
              "active" "2026-11-03T09:00:00" "2031-11-02T09:00:00")
  ∧ ("d2" ∉ DocumentRow.doc_id <$> documents dave_db)
  ∧ ("a5" ∉ AuditRow.log_id <$> audit_log dave_db)
  ∧ ∃ db',
      (submit_document (λ t : DocType, value t) "i1" (Member LICENSE) "L1" "UK"
         "2029-01-01" "d2" "a5" "2026-11-03T10:00:00" dave_db).1 = db'
      ∧ select_verified_doc_ids "i1" db' = ["d1"].
Proof.
  assert ("d2" ∉ DocumentRow.doc_id <$> documents dave_db) as H2 by by_evaluation.
  assert ("a5" ∉ AuditRow.log_id <$> audit_log dave_db) as H3 by by_evaluation.
  split; [reflexivity|]. split; [exact H2|]. split; [exact H3|].
  destruct (submit_document_fresh (λ t : DocType, value t) dave_db "i1"
              (Member LICENSE) "L1" "UK" "2029-01-01" "d2" "a5"
              "2026-11-03T10:00:00" _ eq_refl H2 H3)
    as (db' & Hrun & _ & _ & Hids).
  exists db'. split; [by rewrite Hrun|]. by rewrite Hids.
Defined.


Lemma documents_persist_witness :
  documents dave_submitted !! 0
    = Some (DocumentRow.mk "d1" "i1" "passport" "P999" "UK" "2029-01-01" 0 None)
  ∧ ∀ later, ∃ d',
      documents (sample_run later dave_submitted) !! 0 = Some d'
      ∧ DocumentRow.doc_id d' = "d1"
      ∧ DocumentRow.identity_id d' = "i1".
Proof.
  split; [reflexivity|]. intros later.
  destruct (documents_persist (λ s, s) (λ t : DocType, value t)
              (λ l : VerificationLevel, value l) (λ s, s) 999 (λ _ _, false) unit
              (λ _ _, ()) () (λ _ _ _ _, "") later dave_submitted 0 _ eq_refl)
    as (d' & Hd' & Hid & Hown & _).
  exists d'. split; [exact Hd'|]. split; [exact Hid|exact Hown].
Defined.

Lemma identities_persist_witness :
  identities old_db !! 0 = Some old_identity
  ∧ ∀ later, ∃ r',
      identities (sample_run later old_db) !! 0 = Some r'
      ∧ IdentityRow.holder_email r' = "ann@example.com"
      ∧ IdentityRow.expires_at r' = "2024-12-30T00:00:00".
Proof.
  split; [reflexivity|]. intros later.
  destruct (identities_persist (λ s, s) (λ t : DocType, value t)
              (λ l : VerificationLevel, value l) (λ s, s) 999 (λ _ _, false) unit
              (λ _ _, ()) () (λ _ _ _ _, "") later old_db 0 old_identity eq_refl)
    as (r' & Hr' & _ & _ & Hemail & _ & _ & Hexpires).
  exists r'. split; [exact Hr'|]. split; [exact Hemail|exact Hexpires].
Defined.

Lemma process_kyc_unknown_level_witness :
  select_kyc_request "r1" gold_db = Some gold_request
  ∧ KYCRow.status gold_request = "pending"
  ∧ of_value VerificationLevel_members (KYCRow.requested_level gold_request) = None
  ∧ length (KYCRow.documents_submitted gold_request) ≤ 999
  ∧ ("a5" ∉ AuditRow.log_id <$> audit_log gold_db)
  ∧ ∃ db',
      process_kyc (λ s, s) 999 "r1" "2026-11-03T09:10:00" "a5" "2026-11-03T09:10:00"
        gold_db
      = (db', inl (ValueError "gold is not a valid VerificationLevel"))
      ∧ KYCRow.status <$> select_kyc_request "r1" db' = Some "approved"
      ∧ IdentityRow.verification_level <$> select_identity "i1" db' = Some "gold".
Proof.
  assert ("a5" ∉ AuditRow.log_id <$> audit_log gold_db) as Hlog by by_evaluation.
  assert (length (KYCRow.documents_submitted gold_request) ≤ 999) as Hlen
    by (simpl; lia).
  split; [reflexivity|]. split; [reflexivity|].
  split; [vm_compute; reflexivity|]. split; [exact Hlen|]. split; [exact Hlog|].
  destruct (process_kyc_unknown_level (λ s, s) 999 gold_db "r1" "2026-11-03T09:10:00"
              "a5" "2026-11-03T09:10:00" gold_request)
    as (db' & Hrun & Hstatus & Hidentities & _);
    [reflexivity|reflexivity|vm_compute; reflexivity|exact Hlen|exact Hlog|].
  exists db'. split; [exact Hrun|]. split; [exact Hstatus|].
  assert (select_identity "i1" db'
          = Some (IdentityRow.set_verification_level "gold"
                    (IdentityRow.mk "i1" "Dave Brown" "dave@example.com" None
                       "unverified" "active" "2026-11-03T09:00:00"
                       "2031-11-02T09:00:00"))) as Hsel.
  { unfold select_identity. rewrite Hidentities. vm_compute. reflexivity. }
  rewrite Hsel. reflexivity.
Defined.

Lemma expire_old_identities_sweep_witness :
  ∃ db',
    (expire_old_identities "2026-11-03T09:00:00" old_db).1 = db'
    ∧ identities db' !! 0 = Some (IdentityRow.set_status "expired" old_identity)
    ∧ expire_old_identities "2026-11-03T09:00:00" db' = (db', inr 0).
Proof.
  destruct (expire_old_identities_sweep old_db "2026-11-03T09:00:00")
    as (db' & count & Hrun & _ & _ & Hexpired & _ & _ & _ & Hagain).
  exists db'. split; [by rewrite Hrun|]. split; [|exact Hagain].
  apply Hexpired; [reflexivity|reflexivity|vm_compute; reflexivity].
Defined.

Lemma suspend_then_reactivate_witness :
  NoDup (IdentityRow.identity_id <$> identities dave_db)
  ∧ select_identity "i1" dave_db
    = Some (IdentityRow.mk "i1" "Dave Brown" "dave@example.com" None "unverified"
              "active" "2026-11-03T09:00:00" "2031-11-02T09:00:00")
  ∧ identities
      (reactivate_identity "i1" "a6" "2026-11-03T10:01:00"
         (suspend_identity "i1" "Under review" "a5" "2026-11-03T10:00:00"
            dave_db).1).1
    = identities dave_db.
Proof.
  assert (NoDup (IdentityRow.identity_id <$> identities dave_db)) as Hnd
    by by_evaluation.
  split; [exact Hnd|]. split; [reflexivity|].
  exact (proj2 (suspend_then_reactivate dave_db "i1" "Under review" "a5"
                  "2026-11-03T10:00:00" "a6" "2026-11-03T10:01:00" _
                  Hnd eq_refl eq_refl)).
Defined.

Lemma foreign_keys_valid_witness :
  dave_request ∈ kyc_requests (sample_run dave_calls empty_db)
  ∧ ∃ d, d ∈ documents (sample_run dave_calls empty_db)
         ∧ DocumentRow.doc_id d = "d1"
         ∧ DocumentRow.identity_id d = "i1".
Proof.
  assert (dave_request ∈ kyc_requests (sample_run dave_calls empty_db)) as Hreq
    by (apply (list_elem_of_lookup_2 _ 0); vm_compute; reflexivity).
  split; [exact Hreq|].
  destruct (foreign_keys_valid (λ s, s) (λ t : DocType, value t)
              (λ l : VerificationLevel, value l) (λ s, s) 999 (λ _ _, false) unit
              (λ _ _, ()) () (λ _ _ _ _, "") dave_calls) as (_ & Hrequests & _).
  destruct (Hrequests dave_request Hreq) as [_ Hsnapshot].
  apply (Hsnapshot "d1"). by_evaluation.
Defined.

Lemma document_flags_consistent_witness :
  DocumentRow.mk "d1" "i1" "passport" "P999" "UK" "2029-01-01" 1
    (Some "2026-11-03T09:02:00") ∈ documents (sample_run dave_calls empty_db)
  ∧ truthy 1 = bool_decide (1 = 1)%Z.
Proof.
  assert (DocumentRow.mk "d1" "i1" "passport" "P999" "UK" "2029-01-01" 1
            (Some "2026-11-03T09:02:00")
            ∈ documents (sample_run dave_calls empty_db)) as Hdoc
    by (apply (list_elem_of_lookup_2 _ 0); vm_compute; reflexivity).
  split; [exact Hdoc|].
  exact (proj2 (document_flags_consistent (λ s, s) (λ t : DocType, value t)
                  (λ l : VerificationLevel, value l) (λ s, s) 999 (λ _ _, false) unit
                  (λ _ _, ()) () (λ _ _ _ _, "") dave_calls _ Hdoc)).
Defined.

Lemma request_states_witness :
  dave_request ∈ kyc_requests (sample_run dave_calls empty_db)
  ∧ KYCRow.status dave_request ≠ "processing".
Proof.
  assert (dave_request ∈ kyc_requests (sample_run dave_calls empty_db)) as Hreq
    by (apply (list_elem_of_lookup_2 _ 0); vm_compute; reflexivity).
  split; [exact Hreq|].
  apply (proj2 (request_states (λ s, s) (λ t : DocType, value t)
                  (λ l : VerificationLevel, value l) (λ s, s) 999 (λ _ _, false) unit
                  (λ _ _, ()) () (λ _ _ _ _, "") dave_calls dave_request Hreq)).
  simpl. lia.
Defined.


Lemma basic_kyc_end_to_end_witness :
  select_identity "i1" (sample_run ann_calls empty_db)
    = Some (IdentityRow.set_status "expired" old_identity)
  ∧ ("d1" ∉ DocumentRow.doc_id <$> documents (sample_run ann_calls empty_db))
  ∧ ("r1" ∉ KYCRow.request_id <$> kyc_requests (sample_run ann_calls empty_db))
  ∧ length (select_verified_doc_ids "i1" (sample_run ann_calls empty_db)) < 999
  ∧ select_identity "i1"
      (sample_run
         [ Submit_document "i1" (Member LICENSE) "L1" "UK" "2029-01-01" "d1"
             "a2" "2026-11-03T09:01:00";
           Verify_document "i1" "d1" "2026-11-03T09:02:00" "a3"
             "2026-11-03T09:02:00";
           Initiate_kyc "i1" (Member BASIC) "r1" "2026-11-03T09:03:00" "a4"
             "2026-11-03T09:03:00";
           Process_kyc "r1" "2026-11-03T09:04:00" "a5" "2026-11-03T09:04:00" ]
         (sample_run ann_calls empty_db))
    = Some (IdentityRow.mk "i1" "Ann Lee" "ann@example.com" None "basic" "expired"
              "2020-01-01T00:00:00" "2024-12-30T00:00:00").
Proof.
  assert (select_identity "i1" (sample_run ann_calls empty_db)
          = Some (IdentityRow.set_status "expired" old_identity)) as Hsel
    by (vm_compute; reflexivity).
  assert ("d1" ∉ DocumentRow.doc_id <$> documents (sample_run ann_calls empty_db))
    as Hdoc by by_evaluation.
  assert ("r1" ∉ KYCRow.request_id <$> kyc_requests (sample_run ann_calls empty_db))
    as Hreq by by_evaluation.
  assert (length (select_verified_doc_ids "i1" (sample_run ann_calls empty_db))
          < 999) as Hfew by by_evaluation.
  split; [exact Hsel|]. split; [exact Hdoc|]. split; [exact Hreq|].
  split; [exact Hfew|].
  exact (proj2 (basic_kyc_end_to_end (λ s, s) (λ t : DocType, value t)
                  (λ l : VerificationLevel, value l) (λ s, s) 999 (λ _ _, false) unit
                  (λ _ _, ()) () (λ _ _ _ _, "") ann_calls "i1"
                  (IdentityRow.set_status "expired" old_identity)
                  (Member LICENSE) "L1" "UK" "2029-01-01" "d1"
                  "a2" "2026-11-03T09:01:00" "2026-11-03T09:02:00" "a3"
                  "2026-11-03T09:02:00" "r1" "2026-11-03T09:03:00" "a4"
                  "2026-11-03T09:03:00" "2026-11-03T09:04:00" "a5"
                  "2026-11-03T09:04:00" Hsel Hdoc Hreq Hfew)).
Defined.

Lemma cli_usage_and_unknown_commands_witness :
  "revoke" ∈ ["submit-doc"; "verify-doc"; "kyc"; "process-kyc"; "revoke"]
  ∧ sample_cli ["digital_identity.py"; "revoke"; "i1"] sample_env dave_db
    = (dave_db, inr ["Unknown command or missing arguments: revoke"]).
Proof.
  assert ("revoke" ∈ ["submit-doc"; "verify-doc"; "kyc"; "process-kyc"; "revoke"])
    as Hcmd by by_evaluation.
  split; [exact Hcmd|].
  destruct (cli_usage_and_unknown_commands (λ s, s) (λ _ _, false) unit
              (λ _ _, ()) () (λ _ _ _ _, "") (λ _, "") (λ _, "") (λ s, s)
              sample_env dave_db "digital_identity.py") as (_ & _ & Hunknown & _).
  exact (Hunknown "revoke" ["i1"] Hcmd).
Defined.

Lemma cli_changes_only_on_create_and_expire_witness :
  (sample_cli ["digital_identity.py"; "create"; "Dave Brown"; "dave@example.com"]
     sample_env empty_db).1 ≠ empty_db
  ∧ ∃ prog args,
      ["digital_identity.py"; "create"; "Dave Brown"; "dave@example.com"]
        = prog :: "create" :: args
      ∨ ["digital_identity.py"; "create"; "Dave Brown"; "dave@example.com"]
        = prog :: "expire" :: args.
Proof.
  assert ((sample_cli
             ["digital_identity.py"; "create"; "Dave Brown"; "dave@example.com"]
             sample_env empty_db).1 ≠ empty_db) as Hchanged
    by (vm_compute; discriminate).
  split; [exact Hchanged|].
  exact (cli_changes_only_on_create_and_expire (λ s, s) (λ _ _, false) unit
           (λ _ _, ()) () (λ _ _ _ _, "") (λ _, "") (λ _, "") (λ s, s)
           _ sample_env empty_db Hchanged).
Defined.

Lemma initiate_kyc_fresh_witness :
  select_identity "i1" dave_verified
    = Some (IdentityRow.mk "i1" "Dave Brown" "dave@example.com" None "unverified"
              "active" "2026-11-03T09:00:00" "2031-11-02T09:00:00")
  ∧ ("r1" ∉ KYCRow.request_id <$> kyc_requests dave_verified)
  ∧ ("a4" ∉ AuditRow.log_id <$> audit_log dave_verified)
  ∧ ∃ db',
      (initiate_kyc (λ l : VerificationLevel, value l) "i1" (Member BASIC) "r1"
         "2026-11-03T09:03:00" "a4" "2026-11-03T09:03:00" dave_verified).1 = db'
      ∧ select_kyc_request "r1" db' = Some dave_request.
Proof.
  assert ("r1" ∉ KYCRow.request_id <$> kyc_requests dave_verified) as H2
    by by_evaluation.
  assert ("a4" ∉ AuditRow.log_id <$> audit_log dave_verified) as H3
    by by_evaluation.
  split; [reflexivity|]. split; [exact H2|]. split; [exact H3|].
  destruct (initiate_kyc_fresh (λ l : VerificationLevel, value l) (λ s, s) 999
              dave_verified "i1" (Member BASIC) "r1" "2026-11-03T09:03:00" "a4"
              "2026-11-03T09:03:00" _ eq_refl H2 H3)
    as (db' & Hrun & _ & Hsel & _).
  exists db'. split; [by rewrite Hrun|].
  rewrite Hsel. vm_compute. reflexivity.
Defined.

Lemma process_kyc_returns_witness :
  select_kyc_request "r1" dave_db = Some dave_request
  ∧ KYCRow.status dave_request = "pending"
  ∧ KYCRow.requested_level dave_request = value BASIC
  ∧ length (KYCRow.documents_submitted dave_request) ≤ 999
  ∧ ("a5" ∉ AuditRow.log_id <$> audit_log dave_db)
  ∧ ∃ db' req,
      process_kyc (λ s, s) 999 "r1" "2026-11-03T09:10:00" "a5" "2026-11-03T09:10:00"
        dave_db = (db', inr req)
      ∧ KYCRequest.requested_level req = Member BASIC
      ∧ KYCRequest.processed_at req = Some "2026-11-03T09:10:00".
Proof.
  assert ("a5" ∉ AuditRow.log_id <$> audit_log dave_db) as Hlog by by_evaluation.
  assert (length (KYCRow.documents_submitted dave_request) ≤ 999) as Hlen
    by (simpl; lia).
  split; [reflexivity|]. split; [reflexivity|]. split; [reflexivity|].
  split; [exact Hlen|]. split; [exact Hlog|].
  destruct (process_kyc_returns (λ s, s) 999 dave_db "r1" "2026-11-03T09:10:00" "a5"
              "2026-11-03T09:10:00" dave_request BASIC eq_refl eq_refl eq_refl
              Hlen Hlog)
    as (db' & req & row' & Hrun & _ & _ & Hlevel & _ & _ & _ & Hat & _ & _ & Hat').
  exists db', req. split; [exact Hrun|]. split; [exact Hlevel|].
  by rewrite Hat, Hat'.
Defined.

Lemma check_verification_level_found_witness :
  select_identity "i1" dave_db
    = Some (IdentityRow.mk "i1" "Dave Brown" "dave@example.com" None "unverified"
              "active" "2026-11-03T09:00:00" "2031-11-02T09:00:00")
  ∧ ∃ info,
      check_verification_level "i1" dave_db = (dave_db, inr info)
      ∧ VerificationInfo.holder_email info = "dave@example.com"
      ∧ VerificationInfo.total_documents info = 1.
Proof.
  split; [reflexivity|].
  destruct (check_verification_level_found dave_db "i1" _ eq_refl)
    as (info & Hrun & _ & _ & Hemail & _ & _ & _ & _ & Htotal & _).
  exists info. split; [exact Hrun|]. split; [exact Hemail|exact Htotal].
Defined.
